(** * The dataset partitioner of pybnn ([pybnn/utils/data_utils.py])

    A shallow embedding of class [Data] and of the helpers it is built on:
    the configuration-split generator [_iterate_dataset_configurations],
    the evaluation-subset generator [_generate_evaluation_subsets], the
    helper [exclude_indices], the [update] state machine, and the benchmark
    reader [read_hpolib_benchmark_data] from the parsed files on.

    numpy is not part of the repository.  Its arrays are embedded as nested
    lists tagged with their shape, and [numpy.random.RandomState] as a
    cursor on a tape of raw draws; the few numpy routines the code calls
    ([choice], [randint], [permutation], integer-array indexing,
    [take_along_axis]) are written out after their documented behaviour. *)

From Stdlib Require Import ZArith Lia String Sorted.
From Stdlib Require PrimFloat FloatOps SpecFloat Uint63.
From stdpp Require Import base list.

Local Open Scope string_scope.
Local Open Scope nat_scope.

(** ** Exceptions and fallible computations *)

Definition shape3_t : Type := nat * nat * nat.

(** The exceptions the partitioner can raise.  The assertion failure of the
    evaluation-subset generator formats the two offending shapes into its
    message; they are kept as arguments. *)
Inductive exn : Type :=
| RuntimeError (msg : string)
| ValueError (msg : string)
| IndexError (msg : string)
| AssertionError (msg : string) (shape_a shape_b : shape3_t)
| OverflowError (msg : string)
| StopIteration.

Inductive result (T : Type) : Type :=
| Ok (v : T)
| Raise (e : exn).
Arguments Ok {T} v.
Arguments Raise {T} e.

Definition bind {T U : Type} (c : result T) (k : T -> result U) : result U :=
  match c with
  | Ok v => k v
  | Raise e => Raise e
  end.

Notation "'let*' x := c 'in' k" := (bind c (fun x => k))
  (at level 10, x name, c at level 100, k at level 200).
Notation "'let*' ' p := c 'in' k" := (bind c (fun p => k))
  (at level 10, p strict pattern, c at level 100, k at level 200).

(** ** Index arrays *)

(** An array used as an index carries a dtype.  [np.array(range(n))] and
    [np.array(list(range(n)))] are int64 arrays, except for [n = 0]: with
    no element to infer a dtype from, numpy makes a float64 array. *)
Inductive dtype : Type := int64 | float64.

Record index_array : Type := mkIndexArray { ia_dtype : dtype; ia_data : list Z }.

Definition arange_dtype (n : nat) : dtype := if n =? 0 then float64 else int64.

(** An int64 array of natural numbers. *)
Definition int_index (l : list nat) : index_array :=
  mkIndexArray int64 (map Z.of_nat l).

(** The position an integer index [k] denotes on an axis of length [len]:
    negative indices count from the end. *)
Definition position (len : nat) (k : Z) : nat :=
  Z.to_nat (if (k <? 0)%Z then k + Z.of_nat len else k).

(** Every index lies in [-len, len). *)
Definition in_bounds (len : nat) (idx : list Z) : bool :=
  forallb (fun k => (- Z.of_nat len <=? k)%Z && (k <? Z.of_nat len)%Z) idx.

(** ** numpy.random.RandomState *)

(** A generator is a tape of raw draws and a cursor on it.  A bounded draw
    consumes one cell of the tape and reduces it into the requested range:
    every sequence of bounded draws a real generator can produce is the
    behaviour of some tape. *)
Record RandomState : Type := mkRandomState { tape : nat -> N; cursor : nat }.

(** [random_interval s max]: one draw in the closed range [0, max]. *)
Definition random_interval (s : RandomState) (max : N) : N * RandomState :=
  ((tape s (cursor s) mod (max + 1))%N, mkRandomState (tape s) (S (cursor s))).

(** [rng.randint(low, high)], a draw in [low, high). *)
Definition randint (s : RandomState) (low high : N) : N * RandomState :=
  let '(r, s') := random_interval s (high - low - 1) in ((low + r)%N, s').

(** [x[i], x[j] = x[j], x[i]] *)
Definition swap (x : list nat) (i j : nat) : list nat :=
  match x !! i, x !! j with
  | Some xi, Some xj => <[j:=xi]> (<[i:=xj]> x)
  | _, _ => x
  end.

(** The shuffle of a one-dimensional array:
    [for i in reversed(range(1, n)): j = random_interval(i); swap x[i], x[j]]. *)
Fixpoint shuffle_raw (i : nat) (x : list nat) (s : RandomState)
  : list nat * RandomState :=
  match i with
  | 0 => (x, s)
  | S i' =>
      let '(j, s') := random_interval s (N.of_nat i) in
      shuffle_raw i' (swap x i (N.to_nat j)) s'
  end.

Definition shuffle (x : list nat) (s : RandomState) : list nat * RandomState :=
  shuffle_raw (length x - 1) x s.

(** [rng.permutation(n)]: [arange(n)] shuffled. *)
Definition permutation (n : nat) (s : RandomState) : list nat * RandomState :=
  shuffle (seq 0 n) s.

(** [rng.choice(range(pop_size), size=size, replace=False)]: the entries
    of [a = np.array(range(pop_size))] at the first [size] positions of a
    permutation, an array of the dtype of [a]. *)
Definition choice_no_replace (s : RandomState) (pop_size : nat) (size : Z)
  : result (index_array * RandomState) :=
  if (pop_size =? 0) && negb (size =? 0)%Z then
    Raise (ValueError "'a' cannot be empty unless no samples are taken")
  else if (Z.of_nat pop_size <? size)%Z then
    Raise (ValueError "Cannot take a larger sample than population when 'replace=False'")
  else if (size <? 0)%Z then
    Raise (ValueError "negative dimensions are not allowed")
  else
    let '(idx, s') := permutation pop_size s in
    Ok (mkIndexArray (arange_dtype pop_size)
          (map Z.of_nat (take (Z.to_nat size) idx)), s').

(** [n] successive draws of [randint(0, high)]. *)
Fixpoint randint_array (n high : nat) (s : RandomState) : list nat * RandomState :=
  match n with
  | 0 => ([], s)
  | S n' =>
      let '(r, s') := randint s 0 (N.of_nat high) in
      let '(rs, s'') := randint_array n' high s' in
      (N.to_nat r :: rs, s'')
  end.

(** [rng.choice(list(range(pop_size)), size=(n, 1, 1), replace=True)]; the
    result, an array of the dtype of [np.array(list(range(pop_size)))], is
    kept as the list of its [n] entries. *)
Definition choice_replace (s : RandomState) (pop_size n : nat)
  : result (index_array * RandomState) :=
  if (pop_size =? 0) && negb (n =? 0) then
    Raise (ValueError "'a' cannot be empty unless no samples are taken")
  else
    let '(rs, s') := randint_array n pop_size s in
    Ok (mkIndexArray (arange_dtype pop_size) (map Z.of_nat rs), s').

(** ** exclude_indices *)

(** [req_idx[indices] = False]: an index array has to be of an integer
    dtype, and an index outside the array is an error. *)
Definition setitem_False (req_idx : list bool) (indices : index_array)
  : result (list bool) :=
  match ia_dtype indices with
  | float64 =>
      Raise (IndexError "arrays used as indices must be of integer (or boolean) type")
  | int64 =>
      if in_bounds (length req_idx) (ia_data indices) then
        Ok (foldl (fun acc k => <[position (length req_idx) k:=false]> acc)
              req_idx (ia_data indices))
      else Raise (IndexError "index out of bounds")
  end.

(** [all_idx[req_idx]]: selection by a boolean mask. *)
Fixpoint getitem_mask (all_idx : list nat) (req_idx : list bool) : list nat :=
  match all_idx, req_idx with
  | k :: ks, b :: bs => if b then k :: getitem_mask ks bs else getitem_mask ks bs
  | _, _ => []
  end.

Definition exclude_indices (npoints : nat) (indices : index_array)
  : result (list nat) :=
  let all_idx := seq 0 npoints in
  let req_idx := replicate npoints true in
  let* req_idx := setitem_False req_idx indices in
  Ok (getitem_mask all_idx req_idx).

(** ** Random generators held by the generators

    A generator frame either aliases the partitioner's own [self.rng] or
    owns a generator of its own. *)
Inductive rng_ref : Type :=
| alias_self
| own_rng (s : RandomState).

(** The [rng] argument: [None], an integer seed, or a generator object. *)
Inductive RNG_Input (R : Type) : Type :=
| rng_None
| rng_int (seed : Z)
| rng_obj (r : R).
Arguments rng_None {R}.
Arguments rng_int {R} seed.
Arguments rng_obj {R} r.

(** An attribute of the object: never assigned, assigned [None], or
    holding a value. *)
Inductive attr (T : Type) : Type :=
| unset
| py_None
| holds (v : T).
Arguments unset {T}.
Arguments py_None {T}.
Arguments holds {T} v.

(** ** Arrays, generators and the partitioner *)

Section Partitioner.

(** The dtype of the arrays: the partitioner only moves values around. *)
Variable A : Type.

(** [mt19937 seed] is the tape of the generator that
    [numpy.random.RandomState(seed)] builds from an integer seed. *)
Variable mt19937 : Z -> nat -> N.

(** [numpy.random.RandomState(seed)].  Without a seed the generator is fed
    from the operating system's entropy [os], which differs from run to
    run; an integer seed must fit in 32 bits. *)
Definition RandomState_init (os : nat -> N) (seed : option Z)
  : result RandomState :=
  match seed with
  | None => Ok (mkRandomState os 0)
  | Some z =>
      if ((0 <=? z) && (z <? 2 ^ 32))%Z then Ok (mkRandomState (mt19937 z) 0)
      else Raise (ValueError "Seed must be between 0 and 2**32 - 1")
  end.

(** Three-dimensional and two-dimensional arrays: the shape numpy records
    and the entries, outermost axis first. *)
Record ndarray3 : Type := mk3 { shape3 : shape3_t; data3 : list (list (list A)) }.
Record ndarray2 : Type := mk2 { shape2 : nat * nat; data2 : list (list A) }.

(** The entries fill the recorded shape (true of every numpy array). *)
Definition wf3 (a : ndarray3) : Prop :=
  let '(n, i, d) := shape3 a in
  length (data3 a) = n /\
  Forall (fun r => length r = i /\ Forall (fun v => length v = d) r) (data3 a).

Definition wf2 (a : ndarray2) : Prop :=
  let '(n, d) := shape2 a in
  length (data2 a) = n /\ Forall (fun v => length v = d) (data2 a).

(** [a[ind, :, :]] for an array of non-negative indices. *)
Definition getitem_rows (a : ndarray3) (ind : list nat) : result ndarray3 :=
  let '(n, i, d) := shape3 a in
  if forallb (fun k => k <? n) ind then
    Ok (mk3 (length ind, i, d) (map (fun k => default [] (data3 a !! k)) ind))
  else Raise (IndexError "index out of bounds for axis 0").

(** [np.take_along_axis(a, choices, axis=1)] for [choices] of shape
    [(len choices, 1, 1)]: entry [(n, 0, d)] of the result is
    [a[n, choices[n], d]].  The index array has to be of an integer dtype,
    which is checked first.  The generator calls it on arrays whose first
    axis it has asserted to be as long as [choices]. *)
Definition take_along_axis (a : ndarray3) (choices : index_array) : result ndarray3 :=
  let '(n, i, d) := shape3 a in
  match ia_dtype choices with
  | float64 => Raise (IndexError "`indices` must be an integer array")
  | int64 =>
      if negb (length (ia_data choices) =? n) then
        Raise (ValueError "shape mismatch: objects cannot be broadcast to a single shape")
      else if in_bounds i (ia_data choices) then
        Ok (mk3 (n, 1, d)
              (zip_with (fun row c => [default [] (row !! c)]) (data3 a)
                 (map (position i) (ia_data choices))))
      else Raise (IndexError "index out of bounds for axis 1")
  end.

(** Row-major regrouping of a flat buffer in [n] rows of [d] entries. *)
Fixpoint chunks (n d : nat) (buf : list A) : list (list A) :=
  match n with
  | 0 => []
  | S n' => take d buf :: chunks n' d (drop d buf)
  end.

(** [a.reshape((n, d))] *)
Definition reshape (a : ndarray3) (n d : nat) : result ndarray2 :=
  let '(n0, n1, n2) := shape3 a in
  if n0 * n1 * n2 =? n * d then
    Ok (mk2 (n, d) (chunks n d (concat (concat (data3 a)))))
  else Raise (ValueError "cannot reshape array").

(** A dataset: features, outputs and metadata. *)
Definition Dataset : Type := ndarray3 * ndarray3 * ndarray3.
Definition Subset : Type := ndarray2 * ndarray2 * ndarray2.

(** [if rng is None or isinstance(rng, int): rng = np.random.RandomState(rng)] *)
Definition resolve_rng {R : Type} (own : RandomState -> R) (os : nat -> N)
    (rng : RNG_Input R) : result R :=
  match rng with
  | rng_None => let* s := RandomState_init os None in Ok (own s)
  | rng_int z => let* s := RandomState_init os (Some z) in Ok (own s)
  | rng_obj r => Ok r
  end.

(** Run a drawing routine on the generator a frame refers to; the draw
    advances [self.rng] when the frame aliases it. *)
Definition with_rng {T : Type} (r : rng_ref) (self_rng : RandomState)
    (f : RandomState -> result (T * RandomState))
  : result (T * rng_ref * RandomState) :=
  match r with
  | alias_self => let* '(v, s') := f self_rng in Ok (v, alias_self, s')
  | own_rng s => let* '(v, s') := f s in Ok (v, own_rng s', self_rng)
  end.

(** *** _generate_evaluation_subsets *)

Record eval_frame : Type := mkEvalFrame {
  ef_X : ndarray3; ef_y : ndarray3; ef_meta : ndarray3;
  ef_N : nat; ef_i : nat; ef_Dx : nat; ef_Dy : nat; ef_Dz : nat;
  ef_rng : rng_ref }.

(** A generator object: created (no line of the body has run), suspended at
    its [yield], or finished. *)
Inductive eval_gen : Type :=
| eval_created (dataset : Dataset) (rng : RNG_Input rng_ref)
| eval_suspended (f : eval_frame)
| eval_finished.

(** Calling the generator function only builds the generator object. *)
Definition _generate_evaluation_subsets (dataset : Dataset)
    (rng : RNG_Input rng_ref) : eval_gen :=
  eval_created dataset rng.

(** The body up to the loop. *)
Definition eval_prelude (os : nat -> N) (dataset : Dataset)
    (rng : RNG_Input rng_ref) : result eval_frame :=
  let '(X, y, meta) := dataset in
  let* rng := resolve_rng own_rng os rng in
  let '(N, i, Dx) := shape3 X in
  let Dy := snd (shape3 y) in
  let Dz := snd (shape3 meta) in
  if negb ((N =? fst (fst (shape3 y))) && (i =? snd (fst (shape3 y)))) then
    Raise (AssertionError
      "Shape mismatch between input features array of shape %s and output array of shape %s."
      (shape3 X) (shape3 y))
  else if negb ((N =? fst (fst (shape3 meta))) && (i =? snd (fst (shape3 meta)))) then
    Raise (AssertionError
      "Shape mismatch between input features array of shape %s and  metadata array of shape %s."
      (shape3 X) (shape3 meta))
  else Ok (mkEvalFrame X y meta N i Dx Dy Dz rng).

(** One turn of the loop, up to the [yield]. *)
Definition eval_draw (f : eval_frame) (s : RandomState)
  : result (Subset * RandomState) :=
  let* '(choices, s') := choice_replace s (ef_i f) (fst (fst (shape3 (ef_X f)))) in
  let* tX := take_along_axis (ef_X f) choices in
  let* rX := reshape tX (ef_N f) (ef_Dx f) in
  let* ty := take_along_axis (ef_y f) choices in
  let* ry := reshape ty (ef_N f) (ef_Dy f) in
  let* tm := take_along_axis (ef_meta f) choices in
  let* rm := reshape tm (ef_N f) (ef_Dz f) in
  Ok ((rX, ry, rm), s').

Definition eval_resume (self_rng : RandomState) (f : eval_frame)
  : result (Subset * eval_gen * RandomState) :=
  let* '(sub, r, self_rng') := with_rng (ef_rng f) self_rng (eval_draw f) in
  Ok (sub,
      eval_suspended (mkEvalFrame (ef_X f) (ef_y f) (ef_meta f) (ef_N f) (ef_i f)
                        (ef_Dx f) (ef_Dy f) (ef_Dz f) r),
      self_rng').

(** [next(g)]: the yielded subset, the generator afterwards and the state
    of [self.rng] afterwards. *)
Definition eval_next (os : nat -> N) (self_rng : RandomState) (g : eval_gen)
  : result (Subset * eval_gen * RandomState) :=
  match g with
  | eval_created dataset rng =>
      let* f := eval_prelude os dataset rng in eval_resume self_rng f
  | eval_suspended f => eval_resume self_rng f
  | eval_finished => Raise StopIteration
  end.

(** *** _iterate_dataset_configurations *)

Record conf_frame : Type := mkConfFrame {
  cf_X_full : ndarray3; cf_y_full : ndarray3; cf_meta_full : ndarray3;
  cf_train_size : Z;
  cf_rng : rng_ref;
  cf_return_indices : bool }.

Inductive conf_gen : Type :=
| conf_created (train_frac : option PrimFloat.float) (train_size : option Z)
    (rng : RNG_Input rng_ref) (return_indices : bool)
| conf_suspended (f : conf_frame)
| conf_finished.

(** What one [yield] hands out: the train set, the test set and, with
    [return_indices], the two index arrays. *)
Definition Split : Type := Dataset * Dataset * option (list nat * list nat).

(** Calling the generator function only builds the generator object. *)
Definition _iterate_dataset_configurations (train_frac : option PrimFloat.float)
    (train_size : option Z) (rng : RNG_Input rng_ref) (return_indices : bool)
  : conf_gen :=
  conf_created train_frac train_size rng return_indices.

(** [math.floor(x)] for a double [x]: the largest integer not above it;
    an infinity or a NaN has none. *)
Definition math_floor (x : PrimFloat.float) : result Z :=
  match FloatOps.Prim2SF x with
  | SpecFloat.S754_zero _ => Ok 0%Z
  | SpecFloat.S754_finite sign m e =>
      let v := if sign then Z.neg m else Z.pos m in
      Ok (if (0 <=? e)%Z then v * 2 ^ e else v / 2 ^ (- e))%Z
  | SpecFloat.S754_infinity _ =>
      Raise (OverflowError "cannot convert float infinity to integer")
  | SpecFloat.S754_nan => Raise (ValueError "cannot convert float NaN to integer")
  end.

(** The double nearest to the length of an axis (a number below [2^63]),
    as the product of a double and an integer converts it. *)
Definition float_of_axis (n : nat) : PrimFloat.float :=
  PrimFloat.of_uint63 (Uint63.of_Z (Z.of_nat n)).

(** The body up to the loop; [self_data] is ([self.X_full], [self.y_full],
    [self.meta_full]).  [train_frac * X_full.shape[0]] is a product of
    doubles. *)
Definition conf_prelude (os : nat -> N) (self_data : Dataset)
    (train_frac : option PrimFloat.float) (train_size : option Z)
    (rng : RNG_Input rng_ref) (return_indices : bool) : result conf_frame :=
  let '(X_full, y_full, meta_full) := self_data in
  let* rng := resolve_rng own_rng os rng in
  match train_frac, train_size with
  | None, None =>
      Raise (RuntimeError "Either 'train_frac' or 'train_size' must be provided.")
  | Some frac, _ =>
      let* size :=
        math_floor (PrimFloat.mul frac (float_of_axis (fst (fst (shape3 X_full))))) in
      Ok (mkConfFrame X_full y_full meta_full size rng return_indices)
  | None, Some size =>
      Ok (mkConfFrame X_full y_full meta_full size rng return_indices)
  end.

(** The two index arrays of one turn of the loop.  Past [exclude_indices]
    the train indices are an int64 array (a float64 one has made it fail),
    and they hold natural numbers, being entries of [range(N)]: they are
    handed on as such. *)
Definition draw_indices (s : RandomState) (N : nat) (train_size : Z)
  : result (list nat * list nat * RandomState) :=
  let* '(train_ind, s') := choice_no_replace s N train_size in
  let* test_ind := exclude_indices N train_ind in
  Ok (map Z.to_nat (ia_data train_ind), test_ind, s').

(** [(X_full[ind, :, :], y_full[ind, :, :], meta_full[ind, :, :])] *)
Definition getitem_dataset (full : Dataset) (ind : list nat) : result Dataset :=
  let '(X_full, y_full, meta_full) := full in
  let* X := getitem_rows X_full ind in
  let* y := getitem_rows y_full ind in
  let* meta := getitem_rows meta_full ind in
  Ok (X, y, meta).

(** One turn of the loop, up to the [yield]. *)
Definition conf_draw (f : conf_frame) (s : RandomState)
  : result (Split * RandomState) :=
  let* '(train_ind, test_ind, s') :=
    draw_indices s (fst (fst (shape3 (cf_X_full f)))) (cf_train_size f) in
  let full := (cf_X_full f, cf_y_full f, cf_meta_full f) in
  let* train_set := getitem_dataset full train_ind in
  let* test_set := getitem_dataset full test_ind in
  if cf_return_indices f then
    Ok ((train_set, test_set, Some (train_ind, test_ind)), s')
  else Ok ((train_set, test_set, None), s').

Definition conf_resume (self_rng : RandomState) (f : conf_frame)
  : result (Split * conf_gen * RandomState) :=
  let* '(split, r, self_rng') := with_rng (cf_rng f) self_rng (conf_draw f) in
  Ok (split,
      conf_suspended (mkConfFrame (cf_X_full f) (cf_y_full f) (cf_meta_full f)
                        (cf_train_size f) r (cf_return_indices f)),
      self_rng').

(** [next(g)] for a generator made by the partitioner whose arrays are
    [self_data]. *)
Definition conf_next (os : nat -> N) (self_data : Dataset)
    (self_rng : RandomState) (g : conf_gen)
  : result (Split * conf_gen * RandomState) :=
  match g with
  | conf_created train_frac train_size rng return_indices =>
      let* f := conf_prelude os self_data train_frac train_size rng return_indices in
      conf_resume self_rng f
  | conf_suspended f => conf_resume self_rng f
  | conf_finished => Raise StopIteration
  end.

(** *** class Data *)

(** The instance attributes (the three header lists, which nothing here
    reads, are left out). *)
Record Data : Type := mkData {
  X_full : ndarray3; y_full : ndarray3; meta_full : ndarray3;
  rng : RandomState;
  _conf_splits : option conf_gen;
  _eval_splits : option eval_gen;
  train_X : attr ndarray2; train_Y : attr ndarray2; train_meta : attr ndarray2;
  test_X : attr ndarray3; test_Y : attr ndarray3; test_meta : attr ndarray3 }.

(** [Data.__init__], from the point where the three arrays of the benchmark
    reader are in place (line 116 on).  [data] is
    ([self.X_full], [self.y_full], [self.meta_full]). *)
Definition Data_init (os : nat -> N) (data : Dataset)
    (iterate_confs iterate_evals : bool) (rng_arg : RNG_Input RandomState)
    (train_set_multiplier : Z) : result Data :=
  let '(X, y, meta) := data in
  let* self_rng := resolve_rng id os rng_arg in
  let train_size := (train_set_multiplier * Z.of_nat (snd (shape3 X)))%Z in
  let '(seed, self_rng) := randint self_rng 0 1000000000 in
  let conf_splits :=
    _iterate_dataset_configurations None (Some train_size)
      (rng_int (Z.of_N seed)) false in
  if negb iterate_confs then
    let* '(train_set, test_set, _, _, self_rng) :=
      conf_next os data self_rng conf_splits in
    let '(tX, tY, tmeta) := test_set in
    if iterate_evals then
      Ok (mkData X y meta self_rng None
            (Some (_generate_evaluation_subsets train_set (rng_obj alias_self)))
            py_None py_None py_None (holds tX) (holds tY) (holds tmeta))
    else
      let* '(trX, trY, trmeta, _, self_rng) :=
        eval_next os self_rng
          (_generate_evaluation_subsets train_set (rng_obj alias_self)) in
      Ok (mkData X y meta self_rng None None
            (holds trX) (holds trY) (holds trmeta)
            (holds tX) (holds tY) (holds tmeta))
  else
    Ok (mkData X y meta self_rng (Some conf_splits) None
          unset unset unset unset unset unset).

(** [Data.update] *)
Definition update (os : nat -> N) (self : Data) : result Data :=
  match _eval_splits self with
  | Some g =>
      let* '(trX, trY, trmeta, g', self_rng) := eval_next os (rng self) g in
      Ok (mkData (X_full self) (y_full self) (meta_full self) self_rng
            (_conf_splits self) (Some g')
            (holds trX) (holds trY) (holds trmeta)
            (test_X self) (test_Y self) (test_meta self))
  | None =>
      match _conf_splits self with
      | Some c =>
          let* '(train_data, test_data, _, c', self_rng) :=
            conf_next os (X_full self, y_full self, meta_full self) (rng self) c in
          let* '(trX, trY, trmeta, _, self_rng) :=
            eval_next os self_rng
              (_generate_evaluation_subsets train_data (rng_obj alias_self)) in
          let '(tX, tY, tmeta) := test_data in
          Ok (mkData (X_full self) (y_full self) (meta_full self) self_rng
                (Some c') None
                (holds trX) (holds trY) (holds trmeta)
                (holds tX) (holds tY) (holds tmeta))
      | None => Ok self
      end
  end.

(** The six arrays the partitioner exposes. *)
Definition arrays (self : Data) :=
  (train_X self, train_Y self, train_meta self,
   test_X self, test_Y self, test_meta self).

(** A sequence of [update] calls, one entropy source per call, by a caller
    that does not catch exceptions: the run stops at the first one.  What
    an exception leaves behind, for a caller that catches it and goes on,
    is [update_raised] and [session] below. *)
Fixpoint updates (oss : list (nat -> N)) (self : Data) : result Data :=
  match oss with
  | [] => Ok self
  | os :: oss' => let* self' := update os self in updates oss' self'
  end.

(** The arrays seen after every call of such a sequence, an exception
    ending the list. *)
Fixpoint observe (oss : list (nat -> N)) (self : Data)
  : list (result (attr ndarray2 * attr ndarray2 * attr ndarray2 *
                  attr ndarray3 * attr ndarray3 * attr ndarray3)) :=
  match oss with
  | [] => []
  | os :: oss' =>
      match update os self with
      | Ok self' => Ok (arrays self') :: observe oss' self'
      | Raise e => [Raise e]
      end
  end.

(** *** What an exception leaves behind

    An exception that propagates out of a generator leaves the generator
    finished, and every later [next] on it raises [StopIteration]; the
    draws a random generator made before the exception stay made.  Both
    [choice] calls check their arguments before they draw, and nothing
    draws after them. *)

(** The random generator after one turn of the loop of the
    evaluation-subset generator, whether the turn reached its [yield] or
    raised. *)
Definition eval_draw_rng (f : eval_frame) (s : RandomState) : RandomState :=
  match choice_replace s (ef_i f) (fst (fst (shape3 (ef_X f)))) with
  | Ok (_, s') => s'
  | Raise _ => s
  end.

(** The same for the configuration-split generator. *)
Definition conf_draw_rng (f : conf_frame) (s : RandomState) : RandomState :=
  match choice_no_replace s (fst (fst (shape3 (cf_X_full f)))) (cf_train_size f) with
  | Ok (_, s') => s'
  | Raise _ => s
  end.

(** [self.rng] after a drawing routine has run on the generator a frame
    refers to. *)
Definition rng_after (r : rng_ref) (self_rng : RandomState)
    (draw_rng : RandomState -> RandomState) : RandomState :=
  match r with
  | alias_self => draw_rng self_rng
  | own_rng _ => self_rng
  end.

(** [self.rng] after [next(g)], returned or raised. *)
Definition eval_next_rng (os : nat -> N) (self_rng : RandomState) (g : eval_gen)
  : RandomState :=
  match g with
  | eval_created dataset rng =>
      match eval_prelude os dataset rng with
      | Ok f => rng_after (ef_rng f) self_rng (eval_draw_rng f)
      | Raise _ => self_rng
      end
  | eval_suspended f => rng_after (ef_rng f) self_rng (eval_draw_rng f)
  | eval_finished => self_rng
  end.

Definition conf_next_rng (os : nat -> N) (self_data : Dataset)
    (self_rng : RandomState) (g : conf_gen) : RandomState :=
  match g with
  | conf_created train_frac train_size rng return_indices =>
      match conf_prelude os self_data train_frac train_size rng return_indices with
      | Ok f => rng_after (cf_rng f) self_rng (conf_draw_rng f)
      | Raise _ => self_rng
      end
  | conf_suspended f => rng_after (cf_rng f) self_rng (conf_draw_rng f)
  | conf_finished => self_rng
  end.

(** The partitioner after a call of [update] that raised.  None of the six
    arrays has been assigned, the assignments coming after the [next]
    calls; the generator the exception came out of is finished.  In the
    second branch the exception comes out of [next(self._conf_splits)], or,
    once that has returned, out of the fresh evaluation-subset generator,
    which nothing refers to afterwards. *)
Definition update_raised (os : nat -> N) (self : Data) : Data :=
  match _eval_splits self with
  | Some g =>
      mkData (X_full self) (y_full self) (meta_full self)
        (eval_next_rng os (rng self) g)
        (_conf_splits self) (Some eval_finished)
        (train_X self) (train_Y self) (train_meta self)
        (test_X self) (test_Y self) (test_meta self)
  | None =>
      match _conf_splits self with
      | Some c =>
          let self_data := (X_full self, y_full self, meta_full self) in
          match conf_next os self_data (rng self) c with
          | Ok (train_data, _, _, c', self_rng) =>
              mkData (X_full self) (y_full self) (meta_full self)
                (eval_next_rng os self_rng
                   (_generate_evaluation_subsets train_data (rng_obj alias_self)))
                (Some c') None
                (train_X self) (train_Y self) (train_meta self)
                (test_X self) (test_Y self) (test_meta self)
          | Raise _ =>
              mkData (X_full self) (y_full self) (meta_full self)
                (conf_next_rng os self_data (rng self) c)
                (Some conf_finished) None
                (train_X self) (train_Y self) (train_meta self)
                (test_X self) (test_Y self) (test_meta self)
          end
      | None => self
      end
  end.

(** A sequence of [update] calls by a caller that catches every exception
    and goes on: what each call raised, if anything, and the partitioner
    in the end. *)
Fixpoint session (oss : list (nat -> N)) (self : Data)
  : list (option exn) * Data :=
  match oss with
  | [] => ([], self)
  | os :: oss' =>
      match update os self with
      | Ok self' =>
          let '(raised, final) := session oss' self' in (None :: raised, final)
      | Raise e =>
          let '(raised, final) := session oss' (update_raised os self) in
          (Some e :: raised, final)
      end
  end.

(** A whole run: construction, then the calls. *)
Definition run (os : nat -> N) (oss : list (nat -> N)) (data : Dataset)
    (iterate_confs iterate_evals : bool) (rng_arg : RNG_Input RandomState)
    (train_set_multiplier : Z) :=
  match Data_init os data iterate_confs iterate_evals rng_arg train_set_multiplier with
  | Ok self => Ok (arrays self, observe oss self)
  | Raise e => Raise e
  end.

End Partitioner.

Arguments mk3 {A} shape3 data3.
Arguments mk2 {A} shape2 data2.
Arguments shape3 {A} n.
Arguments data3 {A} n.
Arguments shape2 {A} n.
Arguments data2 {A} n.
Arguments wf3 {A} a.
Arguments wf2 {A} a.
Arguments getitem_rows {A} a ind.
Arguments take_along_axis {A} a choices.
Arguments chunks {A} n d buf.
Arguments reshape {A} a n d.
Arguments mkEvalFrame {A}.
Arguments ef_X {A} e.
Arguments ef_y {A} e.
Arguments ef_meta {A} e.
Arguments ef_N {A} e.
Arguments ef_i {A} e.
Arguments ef_Dx {A} e.
Arguments ef_Dy {A} e.
Arguments ef_Dz {A} e.
Arguments ef_rng {A} e.
Arguments eval_created {A} dataset rng.
Arguments eval_suspended {A} f.
Arguments eval_finished {A}.
Arguments _generate_evaluation_subsets {A} dataset rng.
Arguments eval_prelude {A} mt19937 os dataset rng.
Arguments eval_draw {A} f s : simpl never.
Arguments eval_resume {A} self_rng f.
Arguments eval_next {A} mt19937 os self_rng g.
Arguments mkConfFrame {A}.
Arguments cf_X_full {A} c.
Arguments cf_y_full {A} c.
Arguments cf_meta_full {A} c.
Arguments cf_train_size {A} c.
Arguments cf_rng {A} c.
Arguments cf_return_indices {A} c.
Arguments conf_created {A} train_frac train_size rng return_indices.
Arguments conf_suspended {A} f.
Arguments conf_finished {A}.
Arguments _iterate_dataset_configurations {A} train_frac train_size rng return_indices.
Arguments conf_prelude {A} mt19937 os self_data train_frac train_size rng return_indices.
Arguments getitem_dataset {A} full ind : simpl never.
Arguments conf_draw {A} f s : simpl never.
Arguments conf_resume {A} self_rng f.
Arguments conf_next {A} mt19937 os self_data self_rng g.
Arguments mkData {A}.
Arguments X_full {A} d.
Arguments y_full {A} d.
Arguments meta_full {A} d.
Arguments rng {A} d.
Arguments _conf_splits {A} d.
Arguments _eval_splits {A} d.
Arguments train_X {A} d.
Arguments train_Y {A} d.
Arguments train_meta {A} d.
Arguments test_X {A} d.
Arguments test_Y {A} d.
Arguments test_meta {A} d.
Arguments Data_init {A} mt19937 os data iterate_confs iterate_evals rng_arg train_set_multiplier.
Arguments update {A} mt19937 os self.
Arguments arrays {A} self.
Arguments updates {A} mt19937 oss self.
Arguments observe {A} mt19937 oss self.
Arguments run {A} mt19937 os oss data iterate_confs iterate_evals rng_arg train_set_multiplier.
Arguments eval_draw_rng {A} f s.
Arguments conf_draw_rng {A} f s.
Arguments eval_next_rng {A} mt19937 os self_rng g.
Arguments conf_next_rng {A} mt19937 os self_data self_rng g.
Arguments update_raised {A} mt19937 os self.
Arguments session {A} mt19937 oss self.

(** ** The benchmark reader and the constructor as a whole *)

Section Reader.

Variable A : Type.
Variable mt19937 : Z -> nat -> N.

(** The dtypes of the columns of a frame, and numpy's cast between them:
    [astype ds d x] is the cell [x] of a column of dtype [d] in the common
    dtype numpy finds for columns of dtypes [ds]. *)
Variable D : Type.
Context `{EqDecision D}.
Variable astype : list D -> D -> A -> A.

(** What [pd.read_csv(data_file, sep=" ", names=headers)] returns: the
    column names, the dtype pandas inferred for each column, and the rows,
    each with one cell per column. *)
Record DataFrame : Type := mkDataFrame {
  columns : list string;
  dtypes : list D;
  values : list (list A) }.

Definition wf_frame (df : DataFrame) : Prop :=
  length (dtypes df) = length (columns df) /\
  Forall (fun row => length row = length (columns df)) (values df).

(** The cells of one row at the positions [idx]. *)
Definition select_cells {T : Type} (row : list T) (idx : list Z) : list T :=
  omap (fun k => row !! position (length row) k) idx.

(** The columns all have one dtype. *)
Definition same_dtype (ds : list D) : bool :=
  match ds with
  | [] => true
  | d :: ds' => forallb (fun d' => bool_decide (d' = d)) ds'
  end.

(** One row of [.to_numpy()] on columns of dtypes [ds]: columns that share
    a dtype keep their cells as they are; columns of different dtypes are
    cast to a common one. *)
Definition to_numpy_row (ds : list D) (cells : list A) : list A :=
  if same_dtype ds then cells else zip_with (astype ds) ds cells.

(** The cells of the row [row] of [df] in [df.iloc[:, idx].to_numpy()]. *)
Definition selected_cells (df : DataFrame) (idx : list Z) (row : list A) : list A :=
  to_numpy_row (select_cells (dtypes df) idx) (select_cells row idx).

(** [full_dataset.iloc[:, idx].to_numpy()] for a list of integers. *)
Definition iloc_columns (df : DataFrame) (idx : list Z) : result (ndarray2 A) :=
  if in_bounds (length (columns df)) idx then
    Ok (mk2 (length (values df), length idx)
          (map (selected_cells df idx) (values df)))
  else Raise (IndexError "positional indexers are out-of-bounds").

(** [full_dataset.columns[idx].to_numpy()] *)
Definition columns_getitem (df : DataFrame) (idx : list Z) : result (list string) :=
  if in_bounds (length (columns df)) idx then Ok (select_cells (columns df) idx)
  else Raise (IndexError "index out of bounds").

(** A flat buffer, in C order, regrouped in [n] blocks of [i] rows of [d]
    entries. *)
Definition regroup (buf : list A) (n i d : nat) : list (list (list A)) :=
  chunks n i (chunks (n * i) d buf).

(** [a.reshape((-1, e, k))] for a two-dimensional [a]: the first axis is
    inferred from the size of [a]. *)
Definition reshape_infer (a : ndarray2 A) (e : Z) (k : nat) : result (ndarray3 A) :=
  let '(R, c) := shape2 a in
  if (e <? 0)%Z then Raise (ValueError "can only specify one unknown dimension")
  else
    let s_known := Z.to_nat e * k in
    if (s_known =? 0) || negb ((R * c) mod s_known =? 0) then
      Raise (ValueError "cannot reshape array")
    else
      let n := (R * c) / s_known in
      Ok (mk3 (n, Z.to_nat e, k) (regroup (concat (data2 a)) n (Z.to_nat e) k)).

(** [Data.read_hpolib_benchmark_data] from line 206 on: [full_dataset] is
    the frame read from the data file, the three index lists are those read
    from the index files. *)
Definition read_hpolib_benchmark_data (full_dataset : DataFrame)
    (feature_indices output_indices meta_indices : list Z) (evals_per_config : Z)
  : result (ndarray3 A * ndarray3 A * ndarray3 A *
            list string * list string * list string) :=
  let* tX := iloc_columns full_dataset feature_indices in
  let* X := reshape_infer tX evals_per_config (length feature_indices) in
  let* tY := iloc_columns full_dataset output_indices in
  let* Y := reshape_infer tY evals_per_config (length output_indices) in
  let* tM := iloc_columns full_dataset meta_indices in
  let* M := reshape_infer tM evals_per_config (length meta_indices) in
  let* feature_names := columns_getitem full_dataset feature_indices in
  let* target_names := columns_getitem full_dataset output_indices in
  let* meta_headers := columns_getitem full_dataset meta_indices in
  Ok (X, Y, M, feature_names, target_names, meta_headers).

(** [a.reshape((-1, d))] for a three-dimensional [a]. *)
Definition reshape_rows (a : ndarray3 A) (d : nat) : result (ndarray2 A) :=
  let '(n0, n1, n2) := shape3 a in
  if (d =? 0) || negb ((n0 * n1 * n2) mod d =? 0) then
    Raise (ValueError "cannot reshape array")
  else
    let rows := (n0 * n1 * n2) / d in
    Ok (mk2 (rows, d) (chunks rows d (concat (concat (data3 a))))).

(** Lines 112 to 114.  The callable is given the features as rows; what it
    returns is reshaped to the shape of [X_full], which only reads its
    entries in C order: [emukit_map_func] stands for the callable followed
    by that flattening. *)
Definition apply_emukit_map (emukit_map_func : option (ndarray2 A -> result (list A)))
    (X_full : ndarray3 A) : result (ndarray3 A) :=
  match emukit_map_func with
  | None => Ok X_full
  | Some f =>
      let '(n, i, d) := shape3 X_full in
      let* rows := reshape_rows X_full d in
      let* buf := f rows in
      if length buf =? n * i * d then Ok (mk3 (n, i, d) (regroup buf n i d))
      else Raise (ValueError "cannot reshape array")
  end.

(** [Data.__init__] as a whole, from the parsed files on. *)
Definition Data_new (os : nat -> N) (full_dataset : DataFrame)
    (feature_indices output_indices meta_indices : list Z) (evals_per_config : Z)
    (iterate_confs iterate_evals : bool)
    (emukit_map_func : option (ndarray2 A -> result (list A)))
    (rng_arg : RNG_Input RandomState) (train_set_multiplier : Z)
  : result (Data A) :=
  let* '(X, y, meta, _, _, _) :=
    read_hpolib_benchmark_data full_dataset feature_indices output_indices
      meta_indices evals_per_config in
  let* X := apply_emukit_map emukit_map_func X in
  Data_init mt19937 os (X, y, meta) iterate_confs iterate_evals rng_arg
    train_set_multiplier.

End Reader.

Arguments DataFrame A D : clear implicits.
Arguments mkDataFrame {A D} columns dtypes values.
Arguments columns {A D} d.
Arguments dtypes {A D} d.
Arguments values {A D} d.
Arguments wf_frame {A D} df.
Arguments same_dtype {D _} ds.
Arguments to_numpy_row {A D _} astype ds cells.
Arguments selected_cells {A D _} astype df idx row.
Arguments iloc_columns {A D _} astype df idx.
Arguments columns_getitem {A D} df idx.
Arguments regroup {A} buf n i d.
Arguments reshape_infer {A} a e k.
Arguments read_hpolib_benchmark_data {A D _} astype full_dataset feature_indices output_indices meta_indices evals_per_config.
Arguments reshape_rows {A} a d.
Arguments apply_emukit_map {A} emukit_map_func X_full.
Arguments Data_new {A} mt19937 {D _} astype os full_dataset feature_indices output_indices meta_indices evals_per_config iterate_confs iterate_evals emukit_map_func rng_arg train_set_multiplier.

(** ** Predicates used in the statements *)

(** Three slices aligned on their first two axes, of shapes [(M, i, Dx)],
    [(M, i, Dy)] and [(M, i, Dz)]. *)
Definition aligned {A : Type} (dataset : ndarray3 A * ndarray3 A * ndarray3 A)
    (M i Dx Dy Dz : nat) : Prop :=
  let '(X, y, meta) := dataset in
  shape3 X = (M, i, Dx) /\ shape3 y = (M, i, Dy) /\ shape3 meta = (M, i, Dz) /\
  wf3 X /\ wf3 y /\ wf3 meta.

(** An [rng] argument that [RandomState] accepts: an integer seed has to
    fit in 32 bits. *)
Definition valid_rng {R : Type} (rng : RNG_Input R) : Prop :=
  match rng with
  | rng_int z => (0 <= z < 2 ^ 32)%Z
  | _ => True
  end.

(** [g] is a live evaluation-subset generator over [dataset]: just created
    from it, or suspended in its loop. *)
Definition eval_gen_for {A : Type} (dataset : ndarray3 A * ndarray3 A * ndarray3 A)
    (g : eval_gen A) : Prop :=
  match g with
  | eval_created dataset' rng => dataset' = dataset /\ valid_rng rng
  | eval_suspended f =>
      (ef_X f, ef_y f, ef_meta f) = dataset /\
      shape3 (ef_X f) = (ef_N f, ef_i f, ef_Dx f) /\
      ef_Dy f = (shape3 (ef_y f)).2 /\ ef_Dz f = (shape3 (ef_meta f)).2
  | eval_finished => False
  end.

(** [g] is a live configuration-split generator of a partitioner holding
    [self_data], drawing [train_size] configurations. *)
Definition conf_gen_for {A : Type} (self_data : ndarray3 A * ndarray3 A * ndarray3 A)
    (train_size : Z) (return_indices : bool) (g : conf_gen A) : Prop :=
  match g with
  | conf_created train_frac train_size' rng return_indices' =>
      train_frac = None /\ train_size' = Some train_size /\ valid_rng rng /\
      return_indices' = return_indices
  | conf_suspended f =>
      (cf_X_full f, cf_y_full f, cf_meta_full f) = self_data /\
      cf_train_size f = train_size /\ cf_return_indices f = return_indices
  | conf_finished => False
  end.

(** The three arrays have [N] rows each. *)
Definition rows_agree {A : Type} (full : ndarray3 A * ndarray3 A * ndarray3 A)
    (N : nat) : Prop :=
  let '(X, y, meta) := full in
  (shape3 X).1.1 = N /\ (shape3 y).1.1 = N /\ (shape3 meta).1.1 = N.

(** [sub] has [n] rows and otherwise the shapes of [full], and its entries
    fill its shape where those of [full] do. *)
Definition slice_of {A : Type} (full sub : ndarray3 A * ndarray3 A * ndarray3 A)
    (n : nat) : Prop :=
  let '(X, y, meta) := full in
  let '(sX, sy, smeta) := sub in
  shape3 sX = (n, (shape3 X).1.2, (shape3 X).2) /\
  shape3 sy = (n, (shape3 y).1.2, (shape3 y).2) /\
  shape3 smeta = (n, (shape3 meta).1.2, (shape3 meta).2) /\
  (wf3 X -> wf3 sX) /\ (wf3 y -> wf3 sy) /\ (wf3 meta -> wf3 smeta).

(** The partitioner is in full-iteration mode over [data], with a live
    configuration-split generator drawing [train_size] configurations. *)
Definition full_iteration {A : Type} (data : ndarray3 A * ndarray3 A * ndarray3 A)
    (train_size : Z) (self : Data A) : Prop :=
  (X_full self, y_full self, meta_full self) = data /\
  _eval_splits self = None /\
  exists c, _conf_splits self = Some c /\ conf_gen_for data train_size false c.

(** The six arrays are set; the train arrays have one evaluation for each
    of [Nt] configurations, the test arrays all [i] evaluations for each of
    the [N - Nt] others. *)
Definition split_shapes {A : Type} (self : Data A) (N Nt i Dx Dy Dz : nat) : Prop :=
  exists trX trY trM teX teY teM,
    arrays self = (holds trX, holds trY, holds trM, holds teX, holds teY, holds teM) /\
    shape2 trX = (Nt, Dx) /\ shape2 trY = (Nt, Dy) /\ shape2 trM = (Nt, Dz) /\
    shape3 teX = ((N - Nt)%nat, i, Dx) /\ shape3 teY = ((N - Nt)%nat, i, Dy) /\
    shape3 teM = ((N - Nt)%nat, i, Dz) /\
    wf2 trX /\ wf2 trY /\ wf2 trM /\ wf3 teX /\ wf3 teY /\ wf3 teM.

(** No generator of the partitioner has yet to seed itself from the
    operating system. *)
Definition seeded_conf {A : Type} (c : conf_gen A) : Prop :=
  match c with
  | conf_created _ _ rng_None _ => False
  | _ => True
  end.

Definition seeded_eval {A : Type} (g : eval_gen A) : Prop :=
  match g with
  | eval_created _ rng_None => False
  | _ => True
  end.

Definition seeded {A : Type} (self : Data A) : Prop :=
  match _conf_splits self with Some c => seeded_conf c | None => True end /\
  match _eval_splits self with Some g => seeded_eval g | None => True end.

(** The slices an evaluation-subset generator draws from. *)
Definition eval_gen_dataset {A : Type} (g : eval_gen A)
  : option (ndarray3 A * ndarray3 A * ndarray3 A) :=
  match g with
  | eval_created dataset _ => Some dataset
  | eval_suspended f => Some (ef_X f, ef_y f, ef_meta f)
  | eval_finished => None
  end.

(** [self'] differs from [self] at most by its train arrays and by the
    state of its random draws: same full arrays, same test arrays, same
    configuration-split generator, same slices under the evaluation-subset
    generator. *)
Definition same_test_and_split {A : Type} (self self' : Data A) : Prop :=
  test_X self' = test_X self /\ test_Y self' = test_Y self /\
  test_meta self' = test_meta self /\
  (X_full self', y_full self', meta_full self')
  = (X_full self, y_full self, meta_full self) /\
  _conf_splits self' = _conf_splits self /\
  (_eval_splits self' ≫= eval_gen_dataset) = (_eval_splits self ≫= eval_gen_dataset).

(** The result is not the configuration error. *)
Definition no_config_error {T : Type} (r : result T) : Prop :=
  forall msg, r <> Raise (RuntimeError msg).

(** [v] is evaluation [c] of configuration [m] in the slice [a]. *)
Definition evaluation_of {A : Type} (a : ndarray3 A) (m c : nat) (v : list A) : Prop :=
  exists row, data3 a !! m = Some row /\ row !! c = Some v.

(** Row [m] of each train array is one evaluation, the same for the three
    arrays, of configuration [tr[m]] of [data]. *)
Definition train_rows_from {A : Type} (data : ndarray3 A * ndarray3 A * ndarray3 A)
    (tr : list nat) (self : Data A) : Prop :=
  let '(X, y, meta) := data in
  exists trX trY trM,
    (train_X self, train_Y self, train_meta self) = (holds trX, holds trY, holds trM) /\
    length (data2 trX) = length tr /\ length (data2 trY) = length tr /\
    length (data2 trM) = length tr /\
    forall m k, tr !! m = Some k ->
      exists c vx vy vm,
        data2 trX !! m = Some vx /\ evaluation_of X k c vx /\
        data2 trY !! m = Some vy /\ evaluation_of y k c vy /\
        data2 trM !! m = Some vm /\ evaluation_of meta k c vm.

(** The test arrays are the rows [te] of [data], with all their
    evaluations. *)
Definition test_rows_from {A : Type} (data : ndarray3 A * ndarray3 A * ndarray3 A)
    (te : list nat) (self : Data A) : Prop :=
  exists teX teY teM,
    (test_X self, test_Y self, test_meta self) = (holds teX, holds teY, holds teM) /\
    getitem_dataset data te = Ok (teX, teY, teM).

(** The callable hands back as many entries as it was given. *)
Definition keeps_size {A : Type} (f : ndarray2 A -> result (list A)) : Prop :=
  forall a, wf2 a -> exists buf, f a = Ok buf /\ length buf = length (concat (data2 a)).

(** The rows of [df] restricted to the columns [idx], as [.to_numpy()]
    hands them back, in groups of [e] consecutive rows. *)
Definition grouped {A D : Type} `{EqDecision D} (astype : list D -> D -> A -> A)
    (df : DataFrame A D) (idx : list Z) (e : nat) : ndarray3 A :=
  mk3 ((length (values df) / e)%nat, e, length idx)
    (chunks (length (values df) / e) e
       (map (selected_cells astype df idx) (values df))).

(** What the reader needs beyond indices within bounds: a positive
    repetition count dividing the number of rows, and no empty index
    list. *)
Definition reader_accepts {A D : Type} (df : DataFrame A D)
    (feature_indices output_indices meta_indices : list Z) (evals_per_config : Z) : Prop :=
  (0 < evals_per_config)%Z /\
  feature_indices <> [] /\ output_indices <> [] /\ meta_indices <> [] /\
  length (values df) mod Z.to_nat evals_per_config = 0%nat.

(** The features have [N] configurations; the outputs and the metadata
    have at least as many, and otherwise the shapes of aligned arrays. *)
Definition surplus_rows {A : Type} (data : ndarray3 A * ndarray3 A * ndarray3 A)
    (N i Dx Dy Dz : nat) : Prop :=
  let '(X, y, meta) := data in
  shape3 X = (N, i, Dx) /\
  (exists Ny, shape3 y = (Ny, i, Dy) /\ (N <= Ny)%nat) /\
  (exists Nm, shape3 meta = (Nm, i, Dz) /\ (N <= Nm)%nat) /\
  wf3 X /\ wf3 y /\ wf3 meta.

(** The failures of numpy itself and of the shape assertions, as opposed
    to the configuration error and to the end of a generator. *)
Definition array_error (e : exn) : Prop :=
  match e with
  | ValueError _ | IndexError _ | AssertionError _ _ _ => True
  | RuntimeError _ | OverflowError _ | StopIteration => False
  end.

Definition fails_with_array_error {T : Type} (r : result T) : Prop :=
  forall e, r = Raise e -> array_error e.






(** A configuration-split generator that draws from a generator of its
    own, not from the partitioner's [self.rng]. *)
Definition conf_owns_rng {A : Type} (c : conf_gen A) : Prop :=
  match c with
  | conf_created _ _ rng _ => rng <> rng_obj alias_self
  | conf_suspended f => cf_rng f <> alias_self
  | conf_finished => True
  end.

(** Two partitioners in full-iteration mode over the same arrays, holding
    the same configuration-split generator, which owns its random
    generator; [self.rng] and the six exposed arrays may differ. *)
Definition same_splits_state {A : Type} (self1 self2 : Data A) : Prop :=
  (X_full self1, y_full self1, meta_full self1)
  = (X_full self2, y_full self2, meta_full self2) /\
  _eval_splits self1 = None /\ _eval_splits self2 = None /\
  exists c, _conf_splits self1 = Some c /\ _conf_splits self2 = Some c /\
            conf_owns_rng c.

(** ** Concrete inputs for the examples *)

(** A stand-in for the seeded tapes, an entropy source, and arrays whose
    entry [(a, b, c)] is [100 a + 10 b + c]. *)
Definition toy_mt19937 (seed : Z) (k : nat) : N :=
  Z.to_N (seed * 7 + Z.of_nat k * 13 + 5).

Definition toy_entropy (k : nat) : N := N.of_nat (3 * k + 1).

Definition sample (n i d : nat) : ndarray3 Z :=
  mk3 (n, i, d)
    (map (fun a => map (fun b => map (fun c => Z.of_nat (100 * a + 10 * b + c))
                                  (seq 0 d)) (seq 0 i)) (seq 0 n)).

(** The two dtypes of the sample frame can be told apart. *)
#[local] Instance dtype_eq_dec : EqDecision dtype.
Proof. solve_decision. Defined.

(** The integer a 64-bit integer becomes when it is cast to a double. *)
Definition double_of_int64 (x : Z) : Z :=
  if (Z.abs x <? 2 ^ 63)%Z then
    match math_floor (PrimFloat.of_uint63 (Uint63.of_Z (Z.abs x))) with
    | Ok v => (Z.sgn x * v)%Z
    | Raise _ => x
    end
  else x.

(** The cast of integer cells: an int64 column that is put together with a
    float64 column becomes a column of doubles. *)
Definition toy_astype (ds : list dtype) (d : dtype) (x : Z) : Z :=
  match d with
  | int64 => if bool_decide (float64 ∈ ds) then double_of_int64 x else x
  | float64 => x
  end.

(** A frame of [R] rows: two int64 feature columns, a float64 output
    column and an int64 cost column; cell [(r, c)] is [10 r + c]. *)
Definition sample_frame (R : nat) : DataFrame Z dtype :=
  mkDataFrame ["x0"; "x1"; "y"; "cost"] [int64; int64; float64; int64]
    (map (fun r => map (fun c => Z.of_nat (10 * r + c)) (seq 0 4)) (seq 0 R)).

(** The double that Python writes [0.57]: the quotient of 57 by 100,
    rounded to the nearest double. *)
Definition double_0_57 : PrimFloat.float :=
  PrimFloat.div (float_of_axis 57) (float_of_axis 100).

(** * Facts *)

Local Close Scope string_scope.

Arguments permutation n s : simpl never.
Arguments draw_indices s N train_size : simpl never.

(** ** The random generator *)

Lemma swap_Permutation x i j : swap x i j ≡ₚ x.
Proof.
  unfold swap.
  destruct (x !! i) as [xi|] eqn:Hi; [|done].
  destruct (x !! j) as [xj|] eqn:Hj; [|done].
  by apply Permutation_insert_swap.
Qed.

Lemma shuffle_raw_Permutation i x s : (shuffle_raw i x s).1 ≡ₚ x.
Proof.
  revert x s. induction i as [|i IH]; intros x s; simpl; [done|].
  destruct (random_interval s (N.of_nat (S i))) as [j s'].
  rewrite IH. apply swap_Permutation.
Qed.

Lemma permutation_Permutation n s : (permutation n s).1 ≡ₚ seq 0 n.
Proof. apply shuffle_raw_Permutation. Qed.

Lemma randint_array_spec n high s :
  (0 < high)%nat ->
  length (randint_array n high s).1 = n /\
  Forall (fun c => c < high)%nat (randint_array n high s).1.
Proof.
  intros Hh. revert s. induction n as [|n IH]; intros s.
  - split; [done|constructor].
  - cbn [randint_array]. unfold randint, random_interval.
    specialize (IH (mkRandomState (tape s) (S (cursor s)))).
    destruct (randint_array n high _) as [rs s''].
    simpl in *. destruct IH as [IHl IHf]. split; [lia|].
    constructor; [|done].
    pose proof (N.mod_upper_bound (tape s (cursor s)) (N.of_nat high - 0 - 1 + 1)).
    lia.
Qed.

(** ** exclude_indices *)

Lemma setitem_False_lookup indices : forall (req_idx : list bool) i b,
  foldl (fun acc k => <[k:=false]> acc) req_idx indices !! i = Some b <->
  ((i ∈ indices) /\ (i < length req_idx)%nat /\ b = false) \/
  ((i ∉ indices) /\ req_idx !! i = Some b).
Proof.
  induction indices as [|k ks IH]; intros req_idx i b; simpl.
  - split.
    + intros H. right. split; [apply not_elem_of_nil|done].
    + intros [[H _]|[_ H]]; [by apply elem_of_nil in H|done].
  - rewrite IH, length_insert, elem_of_cons.
    destruct (decide (i = k)) as [->|Hne].
    + split.
      * intros [(?&?&?)|(Hn&Hl)]; [left; auto|].
        apply list_lookup_insert_Some in Hl as [(_&->&?)|(?&_)]; [|done].
        left. auto.
      * intros [(_&Hlt&->)|(Hn&_)]; [|by destruct Hn; left].
        destruct (decide (k ∈ ks)); [left; auto|].
        right. split; [done|]. by apply list_lookup_insert_eq.
    + rewrite list_lookup_insert_ne by done. tauto.
Qed.

Lemma getitem_mask_filter (indices : list nat) : forall (req_idx : list bool) j,
  (forall i b, req_idx !! i = Some b -> (b = true <-> ((j + i)%nat ∉ indices))) ->
  getitem_mask (seq j (length req_idx)) req_idx
  = filter (fun k => k ∉ indices) (seq j (length req_idx)).
Proof.
  induction req_idx as [|b bs IH]; intros j H; simpl; [done|].
  assert (Hb : b = true <-> j ∉ indices).
  { specialize (H 0%nat b eq_refl). by rewrite Nat.add_0_r in H. }
  assert (Htl : getitem_mask (seq (S j) (length bs)) bs
                = filter (fun k => k ∉ indices) (seq (S j) (length bs))).
  { apply IH. intros i c Hc. specialize (H (S i) c Hc).
    by rewrite Nat.add_succ_r in H. }
  destruct b.
  - rewrite filter_cons_True by (by apply Hb). by rewrite Htl.
  - rewrite filter_cons_False; [done|]. intros Hn. by apply Hb in Hn.
Qed.

Lemma position_lt len k :
  (- Z.of_nat len <= k < Z.of_nat len)%Z -> (position len k < len)%nat.
Proof. unfold position. intros Hk. destruct (Z.ltb_spec k 0); lia. Qed.

Lemma position_of_nat len (k : nat) : position len (Z.of_nat k) = k.
Proof. unfold position. destruct (Z.ltb_spec (Z.of_nat k) 0); lia. Qed.

Lemma map_position_of_nat len (l : list nat) : map (position len) (map Z.of_nat l) = l.
Proof.
  induction l as [|k l IH]; [done|]. simpl. by rewrite position_of_nat, IH.
Qed.

Lemma map_to_nat_of_nat (l : list nat) : map Z.to_nat (map Z.of_nat l) = l.
Proof. induction l as [|k l IH]; [done|]. simpl. by rewrite Nat2Z.id, IH. Qed.

Lemma in_bounds_Forall len idx :
  in_bounds len idx = true <->
  Forall (fun k => (- Z.of_nat len <= k < Z.of_nat len)%Z) idx.
Proof.
  unfold in_bounds. rewrite forallb_forall, Forall_forall.
  split; intros H k Hk.
  - apply list_elem_of_In, H, andb_true_iff in Hk as [H1 H2].
    apply Z.leb_le in H1. apply Z.ltb_lt in H2. lia.
  - apply list_elem_of_In, H in Hk. apply andb_true_iff.
    split; [apply Z.leb_le|apply Z.ltb_lt]; lia.
Qed.

Lemma in_bounds_of_nat len (l : list nat) :
  in_bounds len (map Z.of_nat l) = true <-> Forall (fun k => k < len)%nat l.
Proof.
  rewrite in_bounds_Forall, Forall_fmap. apply Forall_iff. intros k. simpl. lia.
Qed.

Lemma foldl_insert_position len (data : list Z) : forall req_idx : list bool,
  foldl (fun acc k => <[position len k:=false]> acc) req_idx data
  = foldl (fun acc k => <[k:=false]> acc) req_idx (map (position len) data).
Proof. induction data as [|k data IH]; intros req_idx; simpl; [done|]. apply IH. Qed.

Lemma length_foldl_insert (indices : list nat) : forall req_idx : list bool,
  length (foldl (fun acc k => <[k:=false]> acc) req_idx indices) = length req_idx.
Proof.
  induction indices as [|k ks IH]; intros l; simpl; [done|].
  by rewrite IH, length_insert.
Qed.

(** On an int64 array within bounds, [exclude_indices] returns, in
    increasing order, the indices below [npoints] that are not among the
    positions the array denotes. *)
Lemma exclude_indices_int npoints (data : list Z) :
  in_bounds npoints data = true ->
  exclude_indices npoints (mkIndexArray int64 data)
  = Ok (filter (fun k => k ∉ map (position npoints) data) (seq 0 npoints)).
Proof.
  intros Hb. unfold exclude_indices, setitem_False. cbn [ia_dtype ia_data].
  rewrite length_replicate, Hb. cbn [bind]. f_equal.
  rewrite foldl_insert_position.
  generalize (map (position npoints) data) as ind. intros ind.
  set (m := foldl _ _ _).
  assert (Hlen : length m = npoints).
  { subst m. by rewrite length_foldl_insert, length_replicate. }
  rewrite <-Hlen. apply getitem_mask_filter.
  intros i b Hi. subst m. apply setitem_False_lookup in Hi.
  destruct Hi as [(?&_&->)|(?&Hr)]; [naive_solver|].
  apply lookup_replicate in Hr as [-> _]. naive_solver.
Qed.

Lemma exclude_indices_spec npoints (indices : list nat) :
  Forall (fun k => k < npoints)%nat indices ->
  exclude_indices npoints (int_index indices)
  = Ok (filter (fun k => k ∉ indices) (seq 0 npoints)).
Proof.
  intros Hall. unfold int_index.
  rewrite exclude_indices_int by (by apply in_bounds_of_nat).
  by rewrite map_position_of_nat.
Qed.

(** A float64 array is no index. *)
Lemma exclude_indices_float npoints (data : list Z) :
  exists msg,
    exclude_indices npoints (mkIndexArray float64 data) = Raise (IndexError msg).
Proof. unfold exclude_indices, setitem_False. by eexists. Qed.

Lemma filter_all {T : Type} (P : T -> Prop) `{forall x, Decision (P x)} (l : list T) :
  Forall P l -> filter P l = l.
Proof.
  induction 1 as [|x l Hx _ IH]; [done|].
  by rewrite filter_cons_True, IH.
Qed.

Lemma filter_none {T : Type} (P : T -> Prop) `{forall x, Decision (P x)} (l : list T) :
  Forall (fun x => ~ P x) l -> filter P l = [].
Proof.
  induction 1 as [|x l Hx _ IH]; [done|].
  by rewrite filter_cons_False.
Qed.

(** ** The training size from a fraction *)

(** The product [train_frac * N] is a product of doubles: for the fraction
    [0.57] of 100 configurations it is just below 57, and the generator
    draws 56 of them. *)
Example train_frac_product_is_a_double :
  match conf_prelude toy_mt19937 toy_entropy
          (sample 100 1 1, sample 100 1 1, sample 100 1 1)
          (Some double_0_57) None (rng_int 42) false with
  | Ok f => cf_train_size f = 56%Z
  | Raise _ => False
  end.
Proof. vm_compute. reflexivity. Qed.

(** ** Drawing a configuration split *)

Lemma choice_no_replace_ok s pop size :
  (0 <= size <= Z.of_nat pop)%Z ->
  choice_no_replace s pop size
  = Ok (mkIndexArray (arange_dtype pop)
          (map Z.of_nat (take (Z.to_nat size) (permutation pop s).1)),
        (permutation pop s).2).
Proof.
  intros Hsz. unfold choice_no_replace.
  assert (H1 : (pop =? 0) && negb (size =? 0)%Z = false).
  { destruct (Nat.eqb_spec pop 0) as [->|]; [|done].
    simpl. apply negb_false_iff, Z.eqb_eq. lia. }
  rewrite H1.
  destruct (Z.ltb_spec (Z.of_nat pop) size); [lia|].
  destruct (Z.ltb_spec size 0); [lia|].
  by destruct (permutation pop s).
Qed.

Lemma choice_no_replace_too_large s pop size :
  (Z.of_nat pop < size)%Z ->
  exists msg, choice_no_replace s pop size = Raise (ValueError msg).
Proof.
  intros Hsz. unfold choice_no_replace.
  destruct ((pop =? 0) && negb (size =? 0)%Z); [by eexists|].
  destruct (Z.ltb_spec (Z.of_nat pop) size); [by eexists|lia].
Qed.

Lemma choice_no_replace_negative s pop size :
  (size < 0)%Z ->
  exists msg, choice_no_replace s pop size = Raise (ValueError msg).
Proof.
  intros Hsz. unfold choice_no_replace.
  destruct ((pop =? 0) && negb (size =? 0)%Z); [by eexists|].
  destruct (Z.ltb_spec (Z.of_nat pop) size); [by eexists|].
  destruct (Z.ltb_spec size 0); [by eexists|lia].
Qed.

(** A draw from at least one configuration, with a size between [0] and
    [N], succeeds; the drawn indices and their complement form a
    permutation of [0, N). *)
Lemma draw_indices_ok s N size :
  (0 < N)%nat ->
  (0 <= size <= Z.of_nat N)%Z ->
  exists tr te s',
    draw_indices s N size = Ok (tr, te, s') /\
    length tr = Z.to_nat size /\
    tr ++ te ≡ₚ seq 0 N /\
    te = filter (fun k => k ∉ tr) (seq 0 N).
Proof.
  intros HN Hsz. unfold draw_indices.
  rewrite choice_no_replace_ok by done. cbn [bind].
  pose proof (permutation_Permutation N s) as Hperm.
  set (p := (permutation N s).1) in *.
  set (n := Z.to_nat size).
  assert (Hlen : length p = N) by (by rewrite Hperm, length_seq).
  assert (Hnd : NoDup p) by (rewrite Hperm; apply NoDup_seq).
  assert (Hin : Forall (fun k => k < N)%nat (take n p)).
  { apply Forall_take, Forall_forall. intros k Hk.
    rewrite Hperm in Hk. apply elem_of_seq in Hk. lia. }
  unfold arange_dtype. replace (N =? 0) with false by (symmetry; apply Nat.eqb_neq; lia).
  change (mkIndexArray int64 (map Z.of_nat (take n p))) with (int_index (take n p)).
  rewrite exclude_indices_spec by done. cbn [bind int_index ia_data].
  rewrite map_to_nat_of_nat.
  eexists _, _, _. split; [done|].
  split; [rewrite length_take; lia|].
  split; [|done].
  rewrite <-Hperm.
  assert (Hsplit : p = take n p ++ drop n p) by (by rewrite take_drop).
  set (tr := take n p) in *. set (dr := drop n p) in *.
  clearbody tr dr p. subst p.
  apply NoDup_app in Hnd as (_ & Hdisj & _).
  rewrite filter_app, filter_none, filter_all; [done| |].
  - apply Forall_forall. intros k Hk Hk'. by apply (Hdisj k).
  - apply Forall_forall. intros k Hk Hk'. done.
Qed.

(** Without a configuration a draw of size [0] fails in [exclude_indices]:
    what [choice] hands back from an empty range is a float64 array. *)
Lemma draw_indices_empty s :
  exists msg, draw_indices s 0 0 = Raise (IndexError msg).
Proof.
  unfold draw_indices. rewrite choice_no_replace_ok by done. cbn [bind].
  destruct (exclude_indices_float 0
              (map Z.of_nat (take (Z.to_nat 0) (permutation 0 s).1))) as [msg Hm].
  cbn [arange_dtype Nat.eqb]. rewrite Hm. by exists msg.
Qed.

Lemma draw_indices_too_large s N size :
  (Z.of_nat N < size)%Z ->
  exists msg, draw_indices s N size = Raise (ValueError msg).
Proof.
  intros Hsz. unfold draw_indices.
  destruct (choice_no_replace_too_large s N size Hsz) as [msg ->].
  by exists msg.
Qed.

Lemma draw_indices_negative s N size :
  (size < 0)%Z ->
  exists msg, draw_indices s N size = Raise (ValueError msg).
Proof.
  intros Hsz. unfold draw_indices.
  destruct (choice_no_replace_negative s N size Hsz) as [msg ->].
  by exists msg.
Qed.

(** ** Arrays *)

Section ArrayFacts.
Context {A : Type}.
Implicit Types (a : ndarray3 A) (ind choices : list nat).

Lemma forallb_ltb ind n :
  Forall (fun k => k < n)%nat ind -> forallb (fun k => k <? n) ind = true.
Proof.
  intros Hall. apply forallb_forall. intros k Hk%list_elem_of_In.
  apply Nat.ltb_lt. by eapply Forall_forall in Hall.
Qed.

Lemma getitem_rows_ok a ind n i d :
  shape3 a = (n, i, d) ->
  Forall (fun k => k < n)%nat ind ->
  getitem_rows a ind
  = Ok (mk3 (length ind, i, d) (map (fun k => default [] (data3 a !! k)) ind)).
Proof.
  intros Hs Hall. unfold getitem_rows. rewrite Hs.
  by rewrite forallb_ltb.
Qed.

Lemma getitem_rows_wf a ind n i d :
  wf3 a -> shape3 a = (n, i, d) ->
  Forall (fun k => k < n)%nat ind ->
  wf3 (mk3 (length ind, i, d) (map (fun k => default [] (data3 a !! k)) ind)).
Proof.
  unfold wf3. intros Hwf Hs Hall. rewrite Hs in Hwf. destruct Hwf as [Hlen Hrows].
  simpl. split; [by rewrite length_map|].
  apply Forall_forall. intros r Hr.
  apply list_elem_of_fmap in Hr as (k & -> & Hk).
  eapply Forall_forall in Hall; [|done].
  destruct (lookup_lt_is_Some_2 (data3 a) k) as [row Hrow]; [lia|].
  rewrite Hrow. simpl.
  eapply Forall_forall in Hrows; [done|].
  by eapply list_elem_of_lookup_2.
Qed.

Lemma concat_zip_with_singleton {B C : Type} (f : B -> C -> list A)
    (l : list B) (k : list C) :
  concat (zip_with (fun r c => [f r c]) l k) = zip_with f l k.
Proof.
  revert k. induction l as [|r l IH]; intros [|c k]; simpl; try done.
  by rewrite IH.
Qed.

Lemma chunks_concat (rows : list (list A)) d :
  Forall (fun v => length v = d) rows ->
  chunks (length rows) d (concat rows) = rows.
Proof.
  induction 1 as [|v rows Hv _ IH]; simpl; [done|].
  rewrite take_app_length', drop_app_length' by done.
  by rewrite IH.
Qed.

(** Gathering one evaluation per row and reshaping: row [m] of the result
    is evaluation [choices[m]] of row [m] of the input. *)
Lemma take_reshape_ok a choices n i d :
  wf3 a -> shape3 a = (n, i, d) ->
  length choices = n -> Forall (fun c => c < i)%nat choices ->
  (let* t := take_along_axis a (int_index choices) in reshape t n d)
  = Ok (mk2 (n, d) (zip_with (fun row c => default [] (row !! c)) (data3 a) choices)).
Proof.
  unfold wf3. intros Hwf Hs Hlen Hall. rewrite Hs in Hwf.
  destruct Hwf as [Hn Hrows].
  unfold take_along_axis, int_index. cbn [ia_dtype ia_data].
  rewrite Hs, length_map, Hlen, Nat.eqb_refl. cbn [negb].
  replace (in_bounds i (map Z.of_nat choices)) with true
    by (symmetry; by apply in_bounds_of_nat).
  rewrite map_position_of_nat. cbn [bind].
  unfold reshape. simpl.
  replace (n * 1 * d =? n * d) with true by (symmetry; apply Nat.eqb_eq; lia).
  do 2 f_equal.
  rewrite (concat_zip_with_singleton (fun row c => default [] (row !! c))).
  set (rows := zip_with _ _ _).
  assert (Hl : length rows = n).
  { subst rows. rewrite length_zip_with. lia. }
  rewrite <-Hl at 1. apply chunks_concat.
  apply Forall_forall. intros v Hv. subst rows.
  apply list_elem_of_lookup in Hv as [m Hm].
  apply lookup_zip_with_Some in Hm as (row & c & -> & Hrow & Hc).
  eapply Forall_forall in Hall; [|by eapply list_elem_of_lookup_2].
  eapply Forall_forall in Hrows; [|by eapply list_elem_of_lookup_2].
  destruct Hrows as [Hri Hrd].
  destruct (lookup_lt_is_Some_2 row c) as [v Hv]; [lia|].
  rewrite Hv. simpl.
  eapply Forall_forall in Hrd; [done|]. by eapply list_elem_of_lookup_2.
Qed.

Lemma take_reshape_wf a choices n i d :
  wf3 a -> shape3 a = (n, i, d) ->
  length choices = n -> Forall (fun c => c < i)%nat choices ->
  wf2 (mk2 (n, d) (zip_with (fun row c => default [] (row !! c)) (data3 a) choices)).
Proof.
  unfold wf3, wf2. intros Hwf Hs Hlen Hall. rewrite Hs in Hwf.
  destruct Hwf as [Hn Hrows]. simpl.
  split; [rewrite length_zip_with; lia|].
  apply Forall_forall. intros v Hv.
  apply list_elem_of_lookup in Hv as [m Hm].
  apply lookup_zip_with_Some in Hm as (row & c & -> & Hrow & Hc).
  eapply Forall_forall in Hall; [|by eapply list_elem_of_lookup_2].
  eapply Forall_forall in Hrows; [|by eapply list_elem_of_lookup_2].
  destruct Hrows as [Hri Hrd].
  destruct (lookup_lt_is_Some_2 row c) as [v Hv]; [lia|].
  rewrite Hv. simpl.
  eapply Forall_forall in Hrd; [done|]. by eapply list_elem_of_lookup_2.
Qed.

Lemma picked_row a choices n i d m :
  wf3 a -> shape3 a = (n, i, d) ->
  length choices = n -> Forall (fun c => c < i)%nat choices ->
  (m < n)%nat ->
  exists c v, choices !! m = Some c /\ (c < i)%nat /\
    zip_with (fun row c => default [] (row !! c)) (data3 a) choices !! m = Some v /\
    evaluation_of a m c v.
Proof.
  unfold wf3. intros Hwf Hs Hlen Hall Hm. rewrite Hs in Hwf.
  destruct Hwf as [Hn Hrows].
  destruct (lookup_lt_is_Some_2 choices m) as [c Hc]; [lia|].
  destruct (lookup_lt_is_Some_2 (data3 a) m) as [row Hrow]; [lia|].
  eapply Forall_forall in Hall; [|by eapply list_elem_of_lookup_2].
  eapply Forall_forall in Hrows; [|by eapply list_elem_of_lookup_2].
  destruct Hrows as [Hri _].
  destruct (lookup_lt_is_Some_2 row c) as [v Hv]; [lia|].
  exists c, v. split; [done|]. split; [done|]. split.
  - apply lookup_zip_with_Some. exists row, c. by rewrite Hv.
  - by exists row.
Qed.

Lemma take_reshape_bind {T : Type} a choices n i d (k : ndarray2 A -> result T) :
  wf3 a -> shape3 a = (n, i, d) ->
  length choices = n -> Forall (fun c => c < i)%nat choices ->
  (let* t := take_along_axis a (int_index choices) in let* r := reshape t n d in k r)
  = k (mk2 (n, d) (zip_with (fun row c => default [] (row !! c)) (data3 a) choices)).
Proof.
  intros Hwf Hs Hlen Hall.
  pose proof (take_reshape_ok a choices n i d Hwf Hs Hlen Hall) as Hok.
  destruct (take_along_axis a (int_index choices)) as [t|e]; simpl in *; [|done].
  by rewrite Hok.
Qed.

End ArrayFacts.

(** ** The evaluation-subset generator *)

Section GeneratorFacts.
Context {A : Type}.
Variable mt19937 : Z -> nat -> N.
Implicit Types (X y meta : ndarray3 A) (f : eval_frame A) (g : eval_gen A).

Lemma resolve_rng_valid {R : Type} (own : RandomState -> R) os (rng : RNG_Input R) :
  valid_rng rng -> exists r, resolve_rng mt19937 own os rng = Ok r.
Proof.
  destruct rng as [|z|r]; simpl; intros Hv; [by eexists| |by eexists].
  replace ((0 <=? z)%Z && (z <? 2 ^ 32)%Z) with true; [by eexists|].
  symmetry. apply andb_true_iff. split; [apply Z.leb_le|apply Z.ltb_lt]; lia.
Qed.

(** One turn of the loop on aligned slices: the rows picked by the drawn
    evaluation indices. *)
Lemma eval_draw_ok f s M i Dx Dy Dz :
  aligned (ef_X f, ef_y f, ef_meta f) M i Dx Dy Dz ->
  ef_N f = M -> ef_i f = i -> ef_Dx f = Dx -> ef_Dy f = Dy -> ef_Dz f = Dz ->
  (0 < i)%nat ->
  eval_draw f s
  = Ok ((mk2 (M, Dx) (zip_with (fun row c => default [] (row !! c))
                        (data3 (ef_X f)) (randint_array M i s).1),
         mk2 (M, Dy) (zip_with (fun row c => default [] (row !! c))
                        (data3 (ef_y f)) (randint_array M i s).1),
         mk2 (M, Dz) (zip_with (fun row c => default [] (row !! c))
                        (data3 (ef_meta f)) (randint_array M i s).1)),
        (randint_array M i s).2).
Proof.
  intros (HsX & Hsy & Hsm & HwX & Hwy & Hwm) HN Hi HDx HDy HDz Hpos.
  unfold eval_draw, choice_replace, arange_dtype.
  rewrite HN, Hi, HDx, HDy, HDz, HsX. simpl.
  replace (i =? 0) with false by (symmetry; apply Nat.eqb_neq; lia). simpl.
  destruct (randint_array_spec M i s Hpos) as [Hlen Hall].
  destruct (randint_array M i s) as [choices s']. simpl in *.
  change (mkIndexArray int64 (map Z.of_nat choices)) with (int_index choices).
  rewrite (take_reshape_bind _ _ M i Dx) by done.
  rewrite (take_reshape_bind _ _ M i Dy) by done.
  by rewrite (take_reshape_bind _ _ M i Dz) by done.
Qed.

(** Every draw of a live generator over aligned slices succeeds, leaves the
    generator live, and yields for each array the rows picked by one list
    of evaluation indices. *)
Lemma eval_next_ok os self_rng g X y meta M i Dx Dy Dz :
  aligned (X, y, meta) M i Dx Dy Dz -> (0 < i)%nat ->
  eval_gen_for (X, y, meta) g ->
  exists choices g' s',
    eval_next mt19937 os self_rng g
    = Ok ((mk2 (M, Dx) (zip_with (fun row c => default [] (row !! c)) (data3 X) choices),
           mk2 (M, Dy) (zip_with (fun row c => default [] (row !! c)) (data3 y) choices),
           mk2 (M, Dz) (zip_with (fun row c => default [] (row !! c)) (data3 meta) choices)),
          g', s') /\
    eval_gen_for (X, y, meta) g' /\
    length choices = M /\ Forall (fun c => c < i)%nat choices.
Proof.
  intros Hal Hpos Hg.
  assert (Hresume : forall r, exists choices g' s',
    eval_resume self_rng (mkEvalFrame X y meta M i Dx Dy Dz r)
    = Ok ((mk2 (M, Dx) (zip_with (fun row c => default [] (row !! c)) (data3 X) choices),
           mk2 (M, Dy) (zip_with (fun row c => default [] (row !! c)) (data3 y) choices),
           mk2 (M, Dz) (zip_with (fun row c => default [] (row !! c)) (data3 meta) choices)),
          g', s') /\
    eval_gen_for (X, y, meta) g' /\
    length choices = M /\ Forall (fun c => c < i)%nat choices).
  { intros r. unfold eval_resume, with_rng. simpl.
    pose proof Hal as (HsX & Hsy & Hsm & _).
    destruct r as [|s].
    - rewrite (eval_draw_ok _ self_rng M i Dx Dy Dz) by done. simpl.
      destruct (randint_array_spec M i self_rng Hpos) as [Hlen Hall].
      eexists _, _, _. split; [done|]. simpl. rewrite HsX, Hsy, Hsm. done.
    - rewrite (eval_draw_ok _ s M i Dx Dy Dz) by done. simpl.
      destruct (randint_array_spec M i s Hpos) as [Hlen Hall].
      eexists _, _, _. split; [done|]. simpl. rewrite HsX, Hsy, Hsm. done. }
  destruct g as [ds rng|f|]; simpl in Hg; [| |done].
  - destruct Hg as [-> Hv]. simpl.
    destruct (resolve_rng_valid own_rng os rng Hv) as [r ->]. simpl.
    pose proof Hal as (HsX & Hsy & Hsm & _).
    rewrite HsX, Hsy, Hsm. simpl. rewrite !Nat.eqb_refl. simpl.
    apply Hresume.
  - destruct Hg as (Hds & Hs & HDy & HDz). destruct f as [fX fy fm fN fi fDx fDy fDz r].
    simpl in *. injection Hds as -> -> ->.
    pose proof Hal as (HsX & Hsy & Hsm & _).
    rewrite HsX in Hs. injection Hs as <- <- <-.
    rewrite Hsy in HDy. rewrite Hsm in HDz. simpl in *. subst.
    apply Hresume.
Qed.

End GeneratorFacts.

(** ** The configuration-split generator *)

Section SplitFacts.
Context {A : Type}.
Variable mt19937 : Z -> nat -> N.
Implicit Types (X y meta : ndarray3 A) (g : conf_gen A).

Lemma getitem_rows_slice (a : ndarray3 A) ind N :
  (shape3 a).1.1 = N ->
  Forall (fun k => k < N)%nat ind ->
  exists sa, getitem_rows a ind = Ok sa /\
    shape3 sa = (length ind, (shape3 a).1.2, (shape3 a).2) /\
    (wf3 a -> wf3 sa).
Proof.
  destruct (shape3 a) as [[n i] d] eqn:Hs. simpl. intros -> Hall.
  rewrite (getitem_rows_ok a ind N i d) by done.
  eexists. split; [done|]. split; [done|].
  intros Hwf. by eapply getitem_rows_wf.
Qed.

Lemma getitem_dataset_slice (full : ndarray3 A * ndarray3 A * ndarray3 A) ind N :
  rows_agree full N ->
  Forall (fun k => k < N)%nat ind ->
  exists sub, getitem_dataset full ind = Ok sub /\ slice_of full sub (length ind).
Proof.
  destruct full as [[X y] meta]. intros (HX & Hy & Hm) Hall.
  destruct (getitem_rows_slice X ind N HX Hall) as (sX & HsX & ? & ?).
  destruct (getitem_rows_slice y ind N Hy Hall) as (sy & Hsy & ? & ?).
  destruct (getitem_rows_slice meta ind N Hm Hall) as (sm & Hsm & ? & ?).
  exists (sX, sy, sm). unfold getitem_dataset. rewrite HsX, Hsy, Hsm.
  split; [done|]. by repeat split.
Qed.

Lemma aligned_rows_agree (full : ndarray3 A * ndarray3 A * ndarray3 A) N i Dx Dy Dz :
  aligned full N i Dx Dy Dz -> rows_agree full N.
Proof.
  destruct full as [[X y] meta]. intros (HX & Hy & Hm & _).
  unfold rows_agree. by rewrite HX, Hy, Hm.
Qed.

Lemma slice_aligned (full sub : ndarray3 A * ndarray3 A * ndarray3 A) n N i Dx Dy Dz :
  aligned full N i Dx Dy Dz -> slice_of full sub n -> aligned sub n i Dx Dy Dz.
Proof.
  destruct full as [[X y] meta], sub as [[sX sy] sm].
  intros (HX & Hy & Hm & ? & ? & ?) (HsX & Hsy & Hsm & ? & ? & ?).
  rewrite HX in HsX. rewrite Hy in Hsy. rewrite Hm in Hsm.
  repeat split; auto.
Qed.

Lemma split_members tr te N k :
  tr ++ te ≡ₚ seq 0 N -> (k ∈ tr \/ k ∈ te <-> (k < N)%nat).
Proof.
  intros Hp. rewrite <-elem_of_app, Hp, elem_of_seq. lia.
Qed.

(** A draw of a live generator with a size between [0] and [N], on arrays
    of [N > 0] rows each. *)
Lemma conf_next_rows os self_rng g (data : ndarray3 A * ndarray3 A * ndarray3 A)
    N size ret :
  rows_agree data N ->
  (0 < N)%nat ->
  (0 <= size <= Z.of_nat N)%Z ->
  conf_gen_for data size ret g ->
  exists tr te train_set test_set g' s',
    conf_next mt19937 os data self_rng g
    = Ok ((train_set, test_set, if ret then Some (tr, te) else None), g', s') /\
    conf_gen_for data size ret g' /\
    length tr = Z.to_nat size /\
    tr ++ te ≡ₚ seq 0 N /\
    te = filter (fun k => k ∉ tr) (seq 0 N) /\
    getitem_dataset data tr = Ok train_set /\
    getitem_dataset data te = Ok test_set /\
    slice_of data train_set (length tr) /\
    slice_of data test_set (length te).
Proof.
  intros Hrows HN Hsz Hg.
  assert (Hdraw : forall r s, exists tr te train_set test_set,
    conf_draw (mkConfFrame data.1.1 data.1.2 data.2 size r ret) s
    = Ok ((train_set, test_set, if ret then Some (tr, te) else None),
          (permutation N s).2) /\
    length tr = Z.to_nat size /\
    tr ++ te ≡ₚ seq 0 N /\
    te = filter (fun k => k ∉ tr) (seq 0 N) /\
    getitem_dataset data tr = Ok train_set /\
    getitem_dataset data te = Ok test_set /\
    slice_of data train_set (length tr) /\
    slice_of data test_set (length te)).
  { intros r s. destruct data as [[X y] meta]. pose proof Hrows as (HsX & _).
    unfold conf_draw. simpl. rewrite HsX.
    destruct (draw_indices_ok s N size HN Hsz)
      as (tr & te & s' & Hd & Hlen & Hp & Hte).
    pose proof Hd as Hd'. unfold draw_indices in Hd'.
    rewrite choice_no_replace_ok in Hd' by done. cbn [bind] in Hd'.
    destruct (exclude_indices _ _); cbn [bind] in Hd'; [|done].
    injection Hd' as Htr0 <- <-.
    rewrite Hd. cbn [bind].
    destruct (getitem_dataset_slice (X, y, meta) tr N)
      as (train_set & Htr & Hsltr); [done| |].
    { apply Forall_forall. intros k Hk. apply (split_members _ _ _ _ Hp). by left. }
    destruct (getitem_dataset_slice (X, y, meta) v N)
      as (test_set & Hte' & Hslte); [done| |].
    { apply Forall_forall. intros k Hk. apply (split_members _ _ _ _ Hp). by right. }
    rewrite Htr, Hte'. cbn [bind].
    exists tr, v, train_set, test_set.
    split; [by destruct ret|]. done. }
  assert (Hresume : forall r, exists tr te train_set test_set g' s',
    conf_resume self_rng (mkConfFrame data.1.1 data.1.2 data.2 size r ret)
    = Ok ((train_set, test_set, if ret then Some (tr, te) else None), g', s') /\
    conf_gen_for data size ret g' /\
    length tr = Z.to_nat size /\
    tr ++ te ≡ₚ seq 0 N /\
    te = filter (fun k => k ∉ tr) (seq 0 N) /\
    getitem_dataset data tr = Ok train_set /\
    getitem_dataset data te = Ok test_set /\
    slice_of data train_set (length tr) /\
    slice_of data test_set (length te)).
  { intros r. unfold conf_resume, with_rng. simpl.
    destruct r as [|s].
    - destruct (Hdraw alias_self self_rng) as (tr & te & train_set & test_set & Hd & Hrest).
      simpl in *. rewrite Hd. simpl.
      exists tr, te, train_set, test_set. eexists _, _. split; [done|].
      split; [|done]. simpl. by destruct data as [[??]?].
    - destruct (Hdraw (own_rng s) s) as (tr & te & train_set & test_set & Hd & Hrest).
      simpl in *. rewrite Hd. simpl.
      exists tr, te, train_set, test_set. eexists _, _. split; [done|].
      split; [|done]. simpl. by destruct data as [[??]?]. }
  destruct g as [frac sz rng ret'|f|]; simpl in Hg; [| |done].
  - destruct Hg as (-> & -> & Hv & ->). simpl.
    unfold conf_prelude. destruct data as [[X y] meta].
    destruct (resolve_rng_valid mt19937 own_rng os rng Hv) as [r ->]. simpl.
    apply (Hresume r).
  - destruct Hg as (Hds & Hsz' & Hret). destruct f as [fX fy fm fsz r fret].
    simpl in *. subst. apply (Hresume r).
Qed.

(** The same on aligned arrays: the two sets are aligned in turn. *)
Lemma conf_next_ok os self_rng g (data : ndarray3 A * ndarray3 A * ndarray3 A)
    N i Dx Dy Dz size ret :
  aligned data N i Dx Dy Dz ->
  (0 < N)%nat ->
  (0 <= size <= Z.of_nat N)%Z ->
  conf_gen_for data size ret g ->
  exists tr te train_set test_set g' s',
    conf_next mt19937 os data self_rng g
    = Ok ((train_set, test_set, if ret then Some (tr, te) else None), g', s') /\
    conf_gen_for data size ret g' /\
    length tr = Z.to_nat size /\
    tr ++ te ≡ₚ seq 0 N /\
    te = filter (fun k => k ∉ tr) (seq 0 N) /\
    getitem_dataset data tr = Ok train_set /\
    getitem_dataset data te = Ok test_set /\
    aligned train_set (length tr) i Dx Dy Dz /\
    aligned test_set (length te) i Dx Dy Dz.
Proof.
  intros Hal HN Hsz Hg.
  destruct (conf_next_rows os self_rng g data N size ret)
    as (tr & te & train_set & test_set & g' & s' & Hnext & Hg' & Hlen & Hp & Hte
        & Htr & Htest & Hsl1 & Hsl2);
    [by eapply aligned_rows_agree|done..|].
  exists tr, te, train_set, test_set, g', s'.
  repeat split; try done; by eapply slice_aligned.
Qed.

(** A draw with a size below [0] or above [N] fails in [choice], whatever
    the arrays. *)
Lemma conf_next_out_of_range os self_rng g (data : ndarray3 A * ndarray3 A * ndarray3 A)
    size ret :
  (size < 0 \/ Z.of_nat (shape3 data.1.1).1.1 < size)%Z ->
  conf_gen_for data size ret g ->
  exists msg, conf_next mt19937 os data self_rng g = Raise (ValueError msg).
Proof.
  intros Hsz Hg.
  assert (Hdraw : forall r s, exists msg,
    conf_draw (mkConfFrame data.1.1 data.1.2 data.2 size r ret) s
    = Raise (ValueError msg)).
  { intros r s. unfold conf_draw. simpl.
    destruct Hsz as [Hneg|Hbig].
    - destruct (draw_indices_negative s (shape3 data.1.1).1.1 size Hneg) as [msg ->].
      by exists msg.
    - destruct (draw_indices_too_large s (shape3 data.1.1).1.1 size Hbig) as [msg ->].
      by exists msg. }
  assert (Hresume : forall r, exists msg,
    conf_resume self_rng (mkConfFrame data.1.1 data.1.2 data.2 size r ret)
    = Raise (ValueError msg)).
  { intros r. unfold conf_resume, with_rng. simpl.
    destruct r as [|s].
    - destruct (Hdraw alias_self self_rng) as [msg Hd].
      unfold conf_draw in *. simpl in *. rewrite Hd. by exists msg.
    - destruct (Hdraw (own_rng s) s) as [msg Hd].
      unfold conf_draw in *. simpl in *. rewrite Hd. by exists msg. }
  destruct g as [frac sz rng ret'|f|]; simpl in Hg; [| |done].
  - destruct Hg as (-> & -> & Hv & ->). simpl.
    unfold conf_prelude. destruct data as [[X y] meta].
    destruct (resolve_rng_valid mt19937 own_rng os rng Hv) as [r ->]. simpl.
    apply (Hresume r).
  - destruct Hg as (Hds & Hsz' & Hret). destruct f as [fX fy fm fsz r fret].
    simpl in *. subst. apply (Hresume r).
Qed.

(** From one turn of the loop to [next]: a failure of every turn is a
    failure of [next] on a live generator. *)
Lemma conf_next_draw_raise os self_rng g (data : ndarray3 A * ndarray3 A * ndarray3 A)
    size ret (E : exn -> Prop) :
  conf_gen_for data size ret g ->
  (forall r s, exists e,
     conf_draw (mkConfFrame data.1.1 data.1.2 data.2 size r ret) s = Raise e /\ E e) ->
  exists e, conf_next mt19937 os data self_rng g = Raise e /\ E e.
Proof.
  intros Hg Hdraw.
  assert (Hresume : forall r, exists e,
    conf_resume self_rng (mkConfFrame data.1.1 data.1.2 data.2 size r ret)
    = Raise e /\ E e).
  { intros r. unfold conf_resume, with_rng. cbn [cf_rng].
    destruct r as [|s].
    - destruct (Hdraw alias_self self_rng) as (e & Hd & He).
      unfold conf_draw in *. cbn [cf_X_full cf_y_full cf_meta_full cf_train_size
                                    cf_return_indices] in *.
      rewrite Hd. by exists e.
    - destruct (Hdraw (own_rng s) s) as (e & Hd & He).
      unfold conf_draw in *. cbn [cf_X_full cf_y_full cf_meta_full cf_train_size
                                    cf_return_indices] in *.
      rewrite Hd. by exists e. }
  destruct g as [frac sz rng ret'|f|]; simpl in Hg; [| |done].
  - destruct Hg as (-> & -> & Hv & ->). cbn [conf_next].
    unfold conf_prelude. destruct data as [[X y] meta].
    destruct (resolve_rng_valid mt19937 own_rng os rng Hv) as [r ->]. cbn [bind].
    apply (Hresume r).
  - destruct Hg as (Hds & Hsz' & Hret). destruct f as [fX fy fm fsz r fret].
    simpl in *. subst. apply (Hresume r).
Qed.

(** Without a configuration, a draw of size [0] fails with the index error
    of [exclude_indices], whatever the arrays. *)
Lemma conf_next_empty os self_rng g (data : ndarray3 A * ndarray3 A * ndarray3 A) ret :
  (shape3 data.1.1).1.1 = 0%nat ->
  conf_gen_for data 0 ret g ->
  exists msg, conf_next mt19937 os data self_rng g = Raise (IndexError msg).
Proof.
  intros HN Hg.
  destruct (conf_next_draw_raise os self_rng g data 0 ret
              (fun e => exists msg, e = IndexError msg) Hg) as (e & -> & msg & ->);
    [|by exists msg].
  intros r s. unfold conf_draw.
  cbn [cf_X_full cf_y_full cf_meta_full cf_train_size cf_return_indices].
  rewrite HN. destruct (draw_indices_empty s) as [msg ->].
  exists (IndexError msg). split; [done|by exists msg].
Qed.

End SplitFacts.

(** ** The partitioner *)

Arguments randint s low high : simpl never.

Lemma bind_Ok {T U : Type} (c : result T) (k : T -> result U) (v : U) :
  bind c k = Ok v -> exists x, c = Ok x /\ k x = Ok v.
Proof. destruct c as [x|e]; simpl; [by exists x|done]. Qed.

Lemma randint_seed_valid {R : Type} (s : RandomState) :
  valid_rng (@rng_int R (Z.of_N (randint s 0 1000000000).1)).
Proof.
  unfold randint, random_interval. simpl.
  change (1000000000 - 0 - 1 + 1)%N with 1000000000%N.
  change (2 ^ 32)%Z with 4294967296%Z.
  assert (H : (tape s (cursor s) mod 1000000000 < 1000000000)%N)
    by (by apply N.mod_upper_bound).
  revert H. generalize (tape s (cursor s) mod 1000000000)%N. intros r H.
  lia.
Qed.

Section DataFacts.
Context {A : Type}.
Variable mt19937 : Z -> nat -> N.
Implicit Types (X y meta : ndarray3 A) (self : Data A).

(** The generator the constructor creates. *)
Lemma Data_init_full os X y meta ie rng_arg m s0 :
  resolve_rng mt19937 id os rng_arg = Ok s0 ->
  Data_init mt19937 os (X, y, meta) true ie rng_arg m
  = Ok (mkData X y meta (randint s0 0 1000000000).2
          (Some (_iterate_dataset_configurations None
                   (Some (m * Z.of_nat (shape3 X).2)%Z)
                   (rng_int (Z.of_N (randint s0 0 1000000000).1)) false))
          None unset unset unset unset unset unset).
Proof.
  intros Hr. unfold Data_init. rewrite Hr. cbn [bind negb].
  by destruct (randint s0 0 1000000000).
Qed.

(** Construction in the static modes, once [self.rng] is in place. *)
Lemma Data_init_static os X y meta ie rng_arg m s0 :
  resolve_rng mt19937 id os rng_arg = Ok s0 ->
  Data_init mt19937 os (X, y, meta) false ie rng_arg m
  = let* '(train_set, test_set, _, _, s2) :=
      conf_next mt19937 os (X, y, meta) (randint s0 0 1000000000).2
        (_iterate_dataset_configurations None
           (Some (m * Z.of_nat (shape3 X).2)%Z)
           (rng_int (Z.of_N (randint s0 0 1000000000).1)) false) in
    if ie then
      Ok (mkData X y meta s2 None
            (Some (_generate_evaluation_subsets train_set (rng_obj alias_self)))
            py_None py_None py_None
            (holds test_set.1.1) (holds test_set.1.2) (holds test_set.2))
    else
      let* '(trX, trY, trmeta, _, s3) :=
        eval_next mt19937 os s2
          (_generate_evaluation_subsets train_set (rng_obj alias_self)) in
      Ok (mkData X y meta s3 None None
            (holds trX) (holds trY) (holds trmeta)
            (holds test_set.1.1) (holds test_set.1.2) (holds test_set.2)).
Proof.
  intros Hr. unfold Data_init. rewrite Hr. cbn [bind negb].
  destruct (randint s0 0 1000000000) as [seed s1]. cbn [fst snd].
  destruct (conf_next mt19937 os (X, y, meta) s1 _)
    as [[[[[train_set [[tX tY] tm]] o] c'] s2]|e]; cbn [bind]; [|done].
  by destruct ie.
Qed.

Lemma Data_init_resolved os X y meta ic ie rng_arg m self :
  Data_init mt19937 os (X, y, meta) ic ie rng_arg m = Ok self ->
  exists s0, resolve_rng mt19937 id os rng_arg = Ok s0.
Proof.
  unfold Data_init. intros H.
  destruct (resolve_rng mt19937 id os rng_arg) as [s0|e]; [by exists s0|done].
Qed.

(** What a successful construction in the static modes leaves behind. *)
Lemma Data_init_static_inv os X y meta ie rng_arg m self :
  Data_init mt19937 os (X, y, meta) false ie rng_arg m = Ok self ->
  exists s0 train_set test_set o c' s2,
    resolve_rng mt19937 id os rng_arg = Ok s0 /\
    conf_next mt19937 os (X, y, meta) (randint s0 0 1000000000).2
      (_iterate_dataset_configurations None
         (Some (m * Z.of_nat (shape3 X).2)%Z)
         (rng_int (Z.of_N (randint s0 0 1000000000).1)) false)
    = Ok ((train_set, test_set, o), c', s2) /\
    (X_full self, y_full self, meta_full self) = (X, y, meta) /\
    _conf_splits self = None /\
    (test_X self, test_Y self, test_meta self)
    = (holds test_set.1.1, holds test_set.1.2, holds test_set.2) /\
    if ie then
      rng self = s2 /\
      _eval_splits self
      = Some (_generate_evaluation_subsets train_set (rng_obj alias_self)) /\
      (train_X self, train_Y self, train_meta self) = (py_None, py_None, py_None)
    else
      _eval_splits self = None /\
      exists trX trY trM g' s3,
        eval_next mt19937 os s2
          (_generate_evaluation_subsets train_set (rng_obj alias_self))
        = Ok ((trX, trY, trM), g', s3) /\
        (train_X self, train_Y self, train_meta self)
        = (holds trX, holds trY, holds trM).
Proof.
  intros H. destruct (Data_init_resolved _ _ _ _ _ _ _ _ _ H) as [s0 Hr].
  rewrite (Data_init_static _ _ _ _ _ _ _ s0 Hr) in H.
  apply bind_Ok in H as ([[[[train_set test_set] o] c'] s2] & Hc & H).
  exists s0, train_set, test_set, o, c', s2.
  split; [done|]. split; [done|].
  destruct ie.
  - injection H as <-. simpl. done.
  - apply bind_Ok in H as ([[[[trX trY] trM] g'] s3] & He & H).
    injection H as <-. simpl. repeat split; try done.
    by exists trX, trY, trM, g', s3.
Qed.

(** One [update] in full-iteration mode, on aligned arrays of at least
    one configuration and with a training size between [0] and [N]. *)
Lemma update_full_iteration os self (data : ndarray3 A * ndarray3 A * ndarray3 A)
    N i Dx Dy Dz size :
  aligned data N i Dx Dy Dz -> (0 < i)%nat -> (0 < N)%nat ->
  (0 <= size <= Z.of_nat N)%Z ->
  full_iteration data size self ->
  exists self',
    update mt19937 os self = Ok self' /\
    full_iteration data size self' /\
    split_shapes self' N (Z.to_nat size) i Dx Dy Dz.
Proof.
  intros Hal Hpos HN Hsz (Hd & He & c & Hc & Hg).
  unfold update. rewrite He, Hc, Hd.
  destruct (conf_next_ok mt19937 os (rng self) c data N i Dx Dy Dz size false
              Hal HN Hsz Hg)
    as (tr & te & [[tX tY] tM] & [[teX teY] teM] & c' & s' & Hnext & Hg' & Hlen & Hp
        & _ & _ & _ & Haltr & Halte).
  rewrite Hnext. cbn [bind].
  destruct (eval_next_ok mt19937 os s'
              (_generate_evaluation_subsets (tX, tY, tM) (rng_obj alias_self))
              tX tY tM (length tr) i Dx Dy Dz Haltr Hpos)
    as (choices & g'' & s'' & Hev & _ & Hcl & Hcall); [done|].
  rewrite Hev. cbn [bind].
  eexists. split; [done|].
  assert (Hlte : length te = (N - Z.to_nat size)%nat).
  { apply Permutation_length in Hp. rewrite length_app, length_seq in Hp. lia. }
  rewrite Hlen in *. rewrite Hlte in Halte.
  destruct Haltr as (HsX & Hsy & Hsm & HwX & Hwy & Hwm).
  destruct Halte as (HteX & HteY & HteM & HwteX & HwteY & HwteM).
  split.
  - split; [done|]. split; [done|]. by exists c'.
  - eexists _, _, _, teX, teY, teM. unfold arrays. cbn.
    split; [done|].
    repeat split; try done; by eapply take_reshape_wf.
Qed.

(** Any number of [update] calls in full-iteration mode. *)
Lemma updates_full_iteration oss : forall self
    (data : ndarray3 A * ndarray3 A * ndarray3 A) N i Dx Dy Dz size,
  aligned data N i Dx Dy Dz -> (0 < i)%nat -> (0 < N)%nat ->
  (0 <= size <= Z.of_nat N)%Z ->
  full_iteration data size self ->
  exists self',
    updates mt19937 oss self = Ok self' /\
    full_iteration data size self' /\
    (oss <> [] -> split_shapes self' N (Z.to_nat size) i Dx Dy Dz).
Proof.
  induction oss as [|os oss IH];
    intros self data N i Dx Dy Dz size Hal Hpos HN Hsz Hfi.
  - exists self. split; [done|]. split; [done|]. intros Hne. by destruct Hne.
  - destruct (update_full_iteration os self data N i Dx Dy Dz size Hal Hpos HN Hsz Hfi)
      as (self1 & Hu & Hfi1 & Hsh1).
    destruct (IH self1 data N i Dx Dy Dz size Hal Hpos HN Hsz Hfi1)
      as (self' & Hus & Hfi' & Hsh').
    exists self'. cbn [updates]. rewrite Hu. cbn [bind].
    split; [done|]. split; [done|]. intros _.
    destruct oss as [|os' oss']; [|by apply Hsh'].
    cbn [updates] in Hus. by injection Hus as <-.
Qed.

(** *** The static modes *)

Lemma update_static os self :
  _eval_splits self = None -> _conf_splits self = None ->
  update mt19937 os self = Ok self.
Proof. intros He Hc. unfold update. by rewrite He, Hc. Qed.

Lemma updates_static oss self :
  _eval_splits self = None -> _conf_splits self = None ->
  updates mt19937 oss self = Ok self.
Proof.
  intros He Hc. induction oss as [|os oss IH]; [done|].
  cbn [updates]. by rewrite update_static.
Qed.

Lemma eval_prelude_dataset os (dataset : ndarray3 A * ndarray3 A * ndarray3 A) rng f :
  eval_prelude mt19937 os dataset rng = Ok f ->
  (ef_X f, ef_y f, ef_meta f) = dataset.
Proof.
  unfold eval_prelude. destruct dataset as [[X y] meta]. intros H.
  apply bind_Ok in H as (r & _ & H).
  destruct (shape3 X) as [[N i] Dx].
  destruct (negb _); [done|]. destruct (negb _); [done|].
  by injection H as <-.
Qed.

Lemma eval_resume_dataset self_rng (f : eval_frame A) sub g' s' :
  eval_resume self_rng f = Ok (sub, g', s') ->
  eval_gen_dataset g' = Some (ef_X f, ef_y f, ef_meta f).
Proof.
  unfold eval_resume. intros H.
  apply bind_Ok in H as ([[sub' r] s''] & _ & H).
  by injection H as _ <- _.
Qed.

(** A draw leaves the generator on the same slices. *)
Lemma eval_next_dataset os self_rng (g : eval_gen A) sub g' s' :
  eval_next mt19937 os self_rng g = Ok (sub, g', s') ->
  eval_gen_dataset g' = eval_gen_dataset g.
Proof.
  destruct g as [dataset rng|f|]; cbn [eval_next eval_gen_dataset]; intros H; [| |done].
  - apply bind_Ok in H as (f & Hp & H).
    apply eval_prelude_dataset in Hp. apply eval_resume_dataset in H.
    by rewrite H, Hp.
  - by apply eval_resume_dataset in H.
Qed.

(** One [update] with an evaluation-subset generator in place. *)
Lemma update_eval_inv os self g self' :
  _eval_splits self = Some g ->
  update mt19937 os self = Ok self' ->
  exists trX trY trM g' s',
    eval_next mt19937 os (rng self) g = Ok ((trX, trY, trM), g', s') /\
    self' = mkData (X_full self) (y_full self) (meta_full self) s'
              (_conf_splits self) (Some g')
              (holds trX) (holds trY) (holds trM)
              (test_X self) (test_Y self) (test_meta self).
Proof.
  intros He H. unfold update in H. rewrite He in H.
  apply bind_Ok in H as ([[[[trX trY] trM] g'] s'] & Hn & H).
  injection H as <-. by exists trX, trY, trM, g', s'.
Qed.

Lemma same_test_and_split_refl self : same_test_and_split self self.
Proof. by repeat split. Qed.

Lemma same_test_and_split_trans self1 self2 self3 :
  same_test_and_split self1 self2 -> same_test_and_split self2 self3 ->
  same_test_and_split self1 self3.
Proof.
  intros (?&?&?&?&?&?) (?&?&?&?&?&?). repeat split; congruence.
Qed.

(** With the configuration-split generator dropped and an
    evaluation-subset generator in place, [update] touches neither the
    test arrays nor the split. *)
Lemma update_eval_frame os self g self' :
  _eval_splits self = Some g ->
  update mt19937 os self = Ok self' ->
  same_test_and_split self self' /\
  (exists g', _eval_splits self' = Some g') /\
  exists trX trY trM,
    (train_X self', train_Y self', train_meta self')
    = (holds trX, holds trY, holds trM).
Proof.
  intros He H.
  destruct (update_eval_inv os self g self' He H)
    as (trX & trY & trM & g' & s' & Hn & ->).
  apply eval_next_dataset in Hn.
  split; [|split; [by exists g'|by exists trX, trY, trM]].
  repeat split; cbn; try done. by rewrite He, Hn.
Qed.

Lemma updates_eval_frame oss : forall self g self',
  _eval_splits self = Some g ->
  updates mt19937 oss self = Ok self' ->
  same_test_and_split self self' /\
  (oss <> [] ->
   exists trX trY trM,
     (train_X self', train_Y self', train_meta self')
     = (holds trX, holds trY, holds trM)).
Proof.
  induction oss as [|os oss IH]; intros self g self' He H.
  - cbn in H. injection H as <-. split; [apply same_test_and_split_refl|done].
  - cbn [updates] in H. apply bind_Ok in H as (self1 & Hu & H).
    destruct (update_eval_frame os self g self1 He Hu) as (Hs1 & [g1 He1] & Htr1).
    destruct (IH self1 g1 self' He1 H) as (Hs' & Htr').
    split; [by eapply same_test_and_split_trans|].
    intros _. destruct oss as [|os' oss']; [|by apply Htr'].
    cbn in H. by injection H as <-.
Qed.

(** In full-iteration mode an exception of the split generator is the
    outcome of [update]. *)
Lemma update_conf_raise os self c e :
  _eval_splits self = None -> _conf_splits self = Some c ->
  conf_next mt19937 os (X_full self, y_full self, meta_full self) (rng self) c
  = Raise e ->
  update mt19937 os self = Raise e.
Proof. intros He Hc Hn. unfold update. by rewrite He, Hc, Hn. Qed.

(** The generator the constructor creates is live, for the size
    [train_set_multiplier * Dx]. *)
Lemma constructor_conf_gen X y meta m s0 :
  conf_gen_for (X, y, meta) (m * Z.of_nat (shape3 X).2)%Z false
    (_iterate_dataset_configurations None
       (Some (m * Z.of_nat (shape3 X).2)%Z)
       (rng_int (Z.of_N (randint s0 0 1000000000).1)) false).
Proof.
  cbn. repeat split; apply (@randint_seed_valid rng_ref s0).
Qed.

(** In the static modes a successful construction drew a split of a size
    between [0] and [N]. *)
Lemma Data_init_static_size os X y meta ie rng_arg m self :
  Data_init mt19937 os (X, y, meta) false ie rng_arg m = Ok self ->
  (0 <= m * Z.of_nat (shape3 X).2 <= Z.of_nat (shape3 X).1.1)%Z.
Proof.
  intros H.
  destruct (Data_init_static_inv os X y meta ie rng_arg m self H)
    as (s0 & train_set & test_set & o & c' & s2 & _ & Hc & _).
  destruct (Z_lt_dec (m * Z.of_nat (shape3 X).2) 0) as [Hneg|?];
    [|destruct (Z_lt_dec (Z.of_nat (shape3 X).1.1) (m * Z.of_nat (shape3 X).2)) as [Hbig|?];
      [|lia]].
  - destruct (conf_next_out_of_range mt19937 os (randint s0 0 1000000000).2 _
                (X, y, meta) _ false (or_introl Hneg) (constructor_conf_gen X y meta m s0))
      as [msg Hm].
    rewrite Hm in Hc. done.
  - destruct (conf_next_out_of_range mt19937 os (randint s0 0 1000000000).2 _
                (X, y, meta) _ false (or_intror Hbig) (constructor_conf_gen X y meta m s0))
      as [msg Hm].
    rewrite Hm in Hc. done.
Qed.

(** A successful construction in a static mode has drawn its split from at
    least one configuration. *)
Lemma Data_init_static_nonempty os X y meta ie rng_arg m self :
  Data_init mt19937 os (X, y, meta) false ie rng_arg m = Ok self ->
  (0 < (shape3 X).1.1)%nat.
Proof.
  intros H.
  pose proof (Data_init_static_size os X y meta ie rng_arg m self H) as Hsz.
  destruct (Data_init_static_inv os X y meta ie rng_arg m self H)
    as (s0 & train_set & test_set & o & c' & s2 & _ & Hc & _).
  destruct (Nat.eq_dec (shape3 X).1.1 0) as [Hz|]; [|lia].
  pose proof (constructor_conf_gen X y meta m s0) as Hg.
  rewrite Hz in Hsz.
  replace (m * Z.of_nat (shape3 X).2)%Z with 0%Z in Hc, Hg by lia.
  destruct (conf_next_empty mt19937 os (randint s0 0 1000000000).2 _ (X, y, meta)
              false Hz Hg) as [msg Hm].
  rewrite Hm in Hc. done.
Qed.

(** Construction in the static modes succeeds on aligned arrays of at
    least one configuration when the size [train_set_multiplier * Dx] lies
    between [0] and [N]. *)
Lemma Data_init_static_ok os (data : ndarray3 A * ndarray3 A * ndarray3 A)
    ie rng_arg m N i Dx Dy Dz :
  aligned data N i Dx Dy Dz -> (0 < i)%nat -> (0 < N)%nat -> valid_rng rng_arg ->
  (0 <= m * Z.of_nat Dx <= Z.of_nat N)%Z ->
  exists self, Data_init mt19937 os data false ie rng_arg m = Ok self.
Proof.
  intros Hal Hpos HN Hv Hsz. destruct data as [[X y] meta].
  destruct (resolve_rng_valid mt19937 id os rng_arg Hv) as [s0 Hr].
  rewrite (Data_init_static os X y meta ie rng_arg m s0 Hr).
  pose proof Hal as (HsX & _).
  pose proof (constructor_conf_gen X y meta m s0) as Hg.
  rewrite HsX in Hg |- *. cbn [fst snd] in Hg |- *.
  destruct (conf_next_ok mt19937 os (randint s0 0 1000000000).2 _ (X, y, meta)
              N i Dx Dy Dz _ false Hal HN Hsz Hg)
    as (tr & te & [[tX tY] tM] & test_set & c' & s' & Hnext & _ & _ & _
        & _ & _ & _ & Haltr & _).
  rewrite Hnext. cbn [bind].
  destruct ie; [by eexists|].
  destruct (eval_next_ok mt19937 os s'
              (_generate_evaluation_subsets (tX, tY, tM) (rng_obj alias_self))
              tX tY tM (length tr) i Dx Dy Dz Haltr Hpos)
    as (choices & g'' & s'' & Hev & _); [done|].
  rewrite Hev. cbn [bind]. by eexists.
Qed.

(** *** Failures inside [update] *)

Lemma update_eval_raise os self g e :
  _eval_splits self = Some g ->
  eval_next mt19937 os (rng self) g = Raise e ->
  update mt19937 os self = Raise e.
Proof. intros He Hn. unfold update. by rewrite He, Hn. Qed.

Lemma update_conf_eval_raise os self c train_set test_set o c' s' e :
  _eval_splits self = None -> _conf_splits self = Some c ->
  conf_next mt19937 os (X_full self, y_full self, meta_full self) (rng self) c
  = Ok ((train_set, test_set, o), c', s') ->
  eval_next mt19937 os s' (_generate_evaluation_subsets train_set (rng_obj alias_self))
  = Raise e ->
  update mt19937 os self = Raise e.
Proof.
  intros He Hc Hn Hev. unfold update. rewrite He, Hc, Hn. cbn [bind].
  by rewrite Hev.
Qed.

(** *** Where the configuration error can come from *)

Lemma nce_Ok {T : Type} (v : T) : no_config_error (Ok v).
Proof. intros msg H. discriminate H. Qed.

Lemma nce_bind {T U : Type} (c : result T) (k : T -> result U) :
  no_config_error c -> (forall x, no_config_error (k x)) ->
  no_config_error (bind c k).
Proof.
  intros Hc Hk msg H. destruct c as [x|e].
  - exact (Hk x msg H).
  - cbn [bind] in H. injection H as ->. by apply (Hc msg).
Qed.

Create HintDb nce.

Local Ltac nce :=
  repeat first
    [ apply nce_Ok
    | solve [auto with nce]
    | apply nce_bind; [|intros ?; cbv beta]
    | match goal with
      | |- no_config_error (Raise _) => intros ? ?; discriminate
      | |- no_config_error (if ?b then _ else _) => destruct b
      | |- no_config_error (match ?x with _ => _ end) => destruct x
      end ].

Lemma nce_exclude_indices npoints indices :
  no_config_error (exclude_indices npoints indices).
Proof. unfold exclude_indices, setitem_False. nce. Qed.

Lemma nce_choice_no_replace s pop size :
  no_config_error (choice_no_replace s pop size).
Proof. unfold choice_no_replace. nce. Qed.

Lemma nce_choice_replace s pop n : no_config_error (choice_replace s pop n).
Proof. unfold choice_replace. nce. Qed.

Lemma nce_math_floor x : no_config_error (math_floor x).
Proof. unfold math_floor. nce. Qed.

#[local] Hint Resolve nce_exclude_indices nce_choice_no_replace nce_choice_replace
  nce_math_floor : nce.

Lemma nce_draw_indices s n size : no_config_error (draw_indices s n size).
Proof. unfold draw_indices. nce. Qed.

#[local] Hint Resolve nce_draw_indices : nce.

Lemma nce_with_rng {T : Type} r self_rng (f : RandomState -> result (T * RandomState)) :
  (forall s, no_config_error (f s)) -> no_config_error (with_rng r self_rng f).
Proof. intros Hf. unfold with_rng. destruct r; nce. Qed.

Lemma nce_resolve_rng {R : Type} (own : RandomState -> R) os (rng : RNG_Input R) :
  no_config_error (resolve_rng mt19937 own os rng).
Proof. unfold resolve_rng, RandomState_init. destruct rng; nce. Qed.

Lemma nce_getitem_rows (a : ndarray3 A) ind : no_config_error (getitem_rows a ind).
Proof. unfold getitem_rows. nce. Qed.

Lemma nce_take_along_axis (a : ndarray3 A) choices :
  no_config_error (take_along_axis a choices).
Proof. unfold take_along_axis. nce. Qed.

Lemma nce_reshape (a : ndarray3 A) n d : no_config_error (reshape a n d).
Proof. unfold reshape. nce. Qed.

#[local] Hint Resolve nce_resolve_rng nce_getitem_rows nce_take_along_axis
  nce_reshape : nce.

Lemma nce_getitem_dataset (full : ndarray3 A * ndarray3 A * ndarray3 A) ind :
  no_config_error (getitem_dataset full ind).
Proof. unfold getitem_dataset. nce. Qed.

#[local] Hint Resolve nce_getitem_dataset : nce.

Lemma nce_conf_draw (f : conf_frame A) s : no_config_error (conf_draw f s).
Proof. unfold conf_draw. nce. Qed.

Lemma nce_eval_draw (f : eval_frame A) s : no_config_error (eval_draw f s).
Proof. unfold eval_draw. nce. Qed.

Lemma nce_conf_resume self_rng (f : conf_frame A) :
  no_config_error (conf_resume self_rng f).
Proof.
  unfold conf_resume. apply nce_bind; [|intros ?; nce].
  apply nce_with_rng, nce_conf_draw.
Qed.

Lemma nce_eval_resume self_rng (f : eval_frame A) :
  no_config_error (eval_resume self_rng f).
Proof.
  unfold eval_resume. apply nce_bind; [|intros ?; nce].
  apply nce_with_rng, nce_eval_draw.
Qed.

#[local] Hint Resolve nce_conf_resume nce_eval_resume : nce.

(** No path of the evaluation-subset generator raises it. *)
Lemma nce_eval_next os self_rng (g : eval_gen A) :
  no_config_error (eval_next mt19937 os self_rng g).
Proof. unfold eval_next, eval_prelude. nce. Qed.

(** Nor does the split generator once it was given a size. *)
Lemma nce_conf_next_sized os (data : ndarray3 A * ndarray3 A * ndarray3 A)
    self_rng frac size rng ret :
  no_config_error
    (conf_next mt19937 os data self_rng
       (_iterate_dataset_configurations frac (Some size) rng ret)).
Proof.
  unfold _iterate_dataset_configurations, conf_next, conf_prelude. nce.
Qed.

#[local] Hint Resolve nce_eval_next nce_conf_next_sized : nce.

Lemma nce_Data_init os (data : ndarray3 A * ndarray3 A * ndarray3 A)
    ic ie rng_arg m :
  no_config_error (Data_init mt19937 os data ic ie rng_arg m).
Proof.
  unfold Data_init. destruct data as [[X y] meta].
  apply nce_bind; [nce|intros s0].
  destruct (randint s0 0 1000000000) as [seed s1].
  destruct (negb ic); [|nce].
  apply nce_bind; [apply nce_conf_next_sized|intros ?]. nce.
Qed.

(** *** Where the operating system's entropy can come in *)

Lemma resolve_rng_seeded {R : Type} (own : RandomState -> R) os1 os2
    (rng : RNG_Input R) :
  rng <> rng_None ->
  resolve_rng mt19937 own os1 rng = resolve_rng mt19937 own os2 rng.
Proof. by destruct rng. Qed.

Lemma conf_next_seeded os1 os2 (data : ndarray3 A * ndarray3 A * ndarray3 A)
    self_rng (c : conf_gen A) :
  seeded_conf c ->
  conf_next mt19937 os1 data self_rng c = conf_next mt19937 os2 data self_rng c.
Proof.
  destruct c as [frac size rng ret|f|]; [|done..].
  intros Hs. unfold conf_next, conf_prelude. destruct data as [[X y] meta].
  rewrite (resolve_rng_seeded own_rng os1 os2); [done|].
  by destruct rng.
Qed.

Lemma eval_next_seeded os1 os2 self_rng (g : eval_gen A) :
  seeded_eval g ->
  eval_next mt19937 os1 self_rng g = eval_next mt19937 os2 self_rng g.
Proof.
  destruct g as [[[X y] meta] rng|f|]; [|done..].
  intros Hs. unfold eval_next, eval_prelude.
  rewrite (resolve_rng_seeded own_rng os1 os2); [done|].
  by destruct rng.
Qed.

Lemma conf_next_suspended os (data : ndarray3 A * ndarray3 A * ndarray3 A)
    self_rng (c : conf_gen A) split c' s' :
  conf_next mt19937 os data self_rng c = Ok (split, c', s') -> seeded_conf c'.
Proof.
  assert (Hres : forall f, conf_resume self_rng f = Ok (split, c', s') -> seeded_conf c').
  { intros f H. unfold conf_resume in H.
    apply bind_Ok in H as ([[split' r] s''] & _ & H). by injection H as _ <- _. }
  destruct c as [frac size rng ret|f|]; cbn [conf_next]; intros H; [| |done].
  - apply bind_Ok in H as (f & _ & H). by eapply Hres.
  - by eapply Hres.
Qed.

Lemma eval_next_suspended os self_rng (g : eval_gen A) sub g' s' :
  eval_next mt19937 os self_rng g = Ok (sub, g', s') -> seeded_eval g'.
Proof.
  assert (Hres : forall f, eval_resume self_rng f = Ok (sub, g', s') -> seeded_eval g').
  { intros f H. unfold eval_resume in H.
    apply bind_Ok in H as ([[sub' r] s''] & _ & H). by injection H as _ <- _. }
  destruct g as [dataset rng|f|]; cbn [eval_next]; intros H; [| |done].
  - apply bind_Ok in H as (f & _ & H). by eapply Hres.
  - by eapply Hres.
Qed.

(** Once its generators are seeded, [update] does not read the entropy of
    the operating system, and leaves them seeded. *)
Lemma update_seeded os1 os2 self :
  seeded self -> update mt19937 os1 self = update mt19937 os2 self.
Proof.
  intros [Hc He]. unfold update.
  destruct (_eval_splits self) as [g|].
  - by rewrite (eval_next_seeded os1 os2).
  - destruct (_conf_splits self) as [c|]; [|done].
    rewrite (conf_next_seeded os1 os2) by done.
    destruct (conf_next mt19937 os2 _ _ c) as [[[[[train test] o] c'] s']|e];
      cbn [bind]; [|done].
    by rewrite (eval_next_seeded os1 os2).
Qed.

Lemma update_keeps_seeded os self self' :
  seeded self -> update mt19937 os self = Ok self' -> seeded self'.
Proof.
  intros [Hc He] H. unfold update in H.
  destruct (_eval_splits self) as [g|] eqn:Heg.
  - apply bind_Ok in H as ([[[[trX trY] trM] g'] s'] & Hn & H).
    injection H as <-. split; cbn; [done|]. by eapply eval_next_suspended.
  - destruct (_conf_splits self) as [c|] eqn:Hcg.
    + apply bind_Ok in H as ([[[[train test] o] c'] s'] & Hn & H).
      apply bind_Ok in H as ([[[[trX trY] trM] g'] s''] & Hn' & H).
      destruct test as [[tX tY] tM]. injection H as <-.
      split; cbn; [|done]. by eapply conf_next_suspended.
    + injection H as <-. split; [by rewrite Hcg|by rewrite Heg].
Qed.

Lemma observe_seeded (oss : list ((nat -> N) * (nat -> N))) : forall self,
  seeded self ->
  observe mt19937 (map fst oss) self = observe mt19937 (map snd oss) self.
Proof.
  induction oss as [|[os1 os2] oss IH]; intros self Hs; [done|].
  cbn [map observe fst snd].
  rewrite (update_seeded os1 os2 self Hs).
  destruct (update mt19937 os2 self) as [self'|e] eqn:Hu; [|done].
  f_equal. apply IH. by eapply update_keeps_seeded.
Qed.

(** With a seed or a generator object for [rng], the constructor does not
    read the entropy of the operating system, and what it builds is
    seeded. *)
Lemma Data_init_seeded os1 os2 (data : ndarray3 A * ndarray3 A * ndarray3 A)
    ic ie rng_arg m :
  rng_arg <> rng_None ->
  Data_init mt19937 os1 data ic ie rng_arg m
  = Data_init mt19937 os2 data ic ie rng_arg m.
Proof.
  intros Hr. unfold Data_init. destruct data as [[X y] meta].
  rewrite (resolve_rng_seeded id os1 os2) by done.
  destruct (resolve_rng mt19937 id os2 rng_arg) as [s0|e]; cbn [bind]; [|done].
  destruct (randint s0 0 1000000000) as [seed s1].
  destruct (negb ic); [|done].
  rewrite (conf_next_seeded os1 os2) by done.
  destruct (conf_next mt19937 os2 _ _ _) as [[[[[train [[tX tY] tM]] o] c'] s']|e];
    cbn [bind]; [|done].
  destruct ie; [done|].
  by rewrite (eval_next_seeded os1 os2).
Qed.

Lemma Data_init_builds_seeded os (data : ndarray3 A * ndarray3 A * ndarray3 A)
    ic ie rng_arg m self :
  Data_init mt19937 os data ic ie rng_arg m = Ok self -> seeded self.
Proof.
  destruct data as [[X y] meta]. intros H. destruct ic.
  - destruct (Data_init_resolved os X y meta true ie rng_arg m self H) as [s0 Hr].
    rewrite (Data_init_full os X y meta ie rng_arg m s0 Hr) in H.
    injection H as <-. by split.
  - destruct (Data_init_static_inv os X y meta ie rng_arg m self H)
      as (s0 & train_set & test_set & o & c' & s2 & _ & _ & _ & Hc & _ & Hie).
    split; [by rewrite Hc|].
    destruct ie.
    + destruct Hie as (_ & -> & _). done.
    + destruct Hie as (-> & _). done.
Qed.

End DataFacts.

(** * The claims *)

Local Ltac prove_aligned :=
  unfold aligned, wf3; simpl; repeat split; repeat constructor.

(** C1.  On aligned arrays with [N] configurations and a training size
    [0 < Nt < N], every draw of a live configuration-split generator
    succeeds and leaves the generator live; the train indices [tr] and the
    test indices [te] it builds the two sets from have [Nt] and [N - Nt]
    elements, have no repetition, are disjoint, cover exactly [0, N), and
    [te] is the complement of [tr] in [0, N), in increasing order.  With
    [return_indices] the two index arrays are part of what is yielded. *)
Theorem split_partitions_indices {A : Type} (mt19937 : Z -> nat -> N) os self_rng
    (g : conf_gen A) (data : ndarray3 A * ndarray3 A * ndarray3 A)
    (N i Dx Dy Dz Nt : nat) (ret : bool) :
  aligned data N i Dx Dy Dz ->
  (0 < Nt < N)%nat ->
  conf_gen_for data (Z.of_nat Nt) ret g ->
  exists tr te train_set test_set g' s',
    conf_next mt19937 os data self_rng g
    = Ok ((train_set, test_set, if ret then Some (tr, te) else None), g', s') /\
    conf_gen_for data (Z.of_nat Nt) ret g' /\
    getitem_dataset data tr = Ok train_set /\
    getitem_dataset data te = Ok test_set /\
    length tr = Nt /\ length te = (N - Nt)%nat /\
    NoDup tr /\ NoDup te /\
    (forall k, k ∈ tr -> k ∉ te) /\
    (forall k, k ∈ tr \/ k ∈ te <-> (k < N)%nat) /\
    te = filter (fun k => k ∉ tr) (seq 0 N).
Proof.
  intros Hal HNt Hg.
  destruct (conf_next_ok mt19937 os self_rng g data N i Dx Dy Dz (Z.of_nat Nt) ret)
    as (tr & te & train_set & test_set & g' & s' & Hnext & Hg' & Hlen & Hp & Hte
        & Htr & Htest & _); [done|lia|lia|done|].
  exists tr, te, train_set, test_set, g', s'.
  rewrite Nat2Z.id in Hlen.
  assert (Hnd : NoDup (tr ++ te)) by (rewrite Hp; apply NoDup_seq).
  apply NoDup_app in Hnd as (Hndtr & Hdisj & Hndte).
  assert (Hlte : length te = (N - Nt)%nat).
  { apply Permutation_length in Hp. rewrite length_app, length_seq in Hp. lia. }
  repeat split; try done.
  - intros Hk. by apply (split_members tr te N k Hp).
  - intros Hk. by apply (split_members tr te N k Hp).
Qed.

Lemma split_partitions_indices_witness :
  exists tr te train_set test_set g' s',
    conf_next toy_mt19937 toy_entropy (sample 10 3 2, sample 10 3 1, sample 10 3 1)
      (mkRandomState toy_entropy 0)
      (_iterate_dataset_configurations None (Some 8%Z) (rng_int 42) true)
    = Ok ((train_set, test_set, Some (tr, te)), g', s') /\
    conf_gen_for (sample 10 3 2, sample 10 3 1, sample 10 3 1) 8%Z true g' /\
    getitem_dataset (sample 10 3 2, sample 10 3 1, sample 10 3 1) tr = Ok train_set /\
    getitem_dataset (sample 10 3 2, sample 10 3 1, sample 10 3 1) te = Ok test_set /\
    length tr = 8%nat /\ length te = 2%nat /\
    NoDup tr /\ NoDup te /\
    (forall k, k ∈ tr -> k ∉ te) /\
    (forall k, k ∈ tr \/ k ∈ te <-> (k < 10)%nat) /\
    te = filter (fun k => k ∉ tr) (seq 0 10).
Proof.
  apply (split_partitions_indices toy_mt19937 toy_entropy (mkRandomState toy_entropy 0)
           (_iterate_dataset_configurations None (Some 8%Z) (rng_int 42) true)
           (sample 10 3 2, sample 10 3 1, sample 10 3 1) 10 3 2 1 1 8 true).
  - prove_aligned.
  - lia.
  - simpl. repeat split; lia.
Defined.

(** C2.  On aligned arrays of shapes [(N, i, Dx)], [(N, i, Dy)] and
    [(N, i, Dz)] with [N > 0] and [i > 0], and with a training size
    [Nt = train_set_multiplier * Dx] between [0] and [N], construction in
    full-iteration mode succeeds and so does every sequence of [update]
    calls; after each call the three test arrays keep all [i] evaluations of
    the [N - Nt] held-out configurations (shapes [(N - Nt, i, D)]) while
    the three train arrays hold one evaluation for each of the [Nt] drawn
    configurations (shapes [(Nt, D)]). *)
Theorem full_iteration_shapes {A : Type} (mt19937 : Z -> nat -> N) os
    (data : ndarray3 A * ndarray3 A * ndarray3 A) (ie : bool)
    (rng_arg : RNG_Input RandomState) (m : Z) (N i Dx Dy Dz : nat) :
  aligned data N i Dx Dy Dz ->
  (0 < N)%nat ->
  (0 < i)%nat ->
  valid_rng rng_arg ->
  (0 <= m * Z.of_nat Dx <= Z.of_nat N)%Z ->
  exists self0,
    Data_init mt19937 os data true ie rng_arg m = Ok self0 /\
    forall oss, oss <> [] ->
      exists self,
        updates mt19937 oss self0 = Ok self /\
        split_shapes self N (Z.to_nat (m * Z.of_nat Dx)) i Dx Dy Dz.
Proof.
  intros Hal HN Hpos Hv Hsz. destruct data as [[X y] meta].
  destruct (resolve_rng_valid mt19937 id os rng_arg Hv) as [s0 Hr].
  eexists. split; [by apply Data_init_full|].
  intros oss Hne.
  pose proof Hal as (HsX & _).
  match goal with
  | |- context [updates _ _ ?self0] =>
      destruct (updates_full_iteration mt19937 oss self0 (X, y, meta) N i Dx Dy Dz
                  (m * Z.of_nat Dx)%Z Hal Hpos HN Hsz) as (self & Hus & _ & Hsh)
  end.
  - split; [done|]. split; [done|].
    eexists. split; [done|]. cbn. rewrite HsX. cbn.
    repeat split; apply (@randint_seed_valid rng_ref s0).
  - exists self. split; [exact Hus|]. by apply Hsh.
Qed.

Lemma full_iteration_shapes_witness :
  exists self0,
    Data_init toy_mt19937 toy_entropy (sample 10 3 2, sample 10 3 1, sample 10 3 1)
      true false (rng_int 42) 4 = Ok self0 /\
    forall oss, oss <> [] ->
      exists self,
        updates toy_mt19937 oss self0 = Ok self /\
        split_shapes self 10 (Z.to_nat (4 * Z.of_nat 2)) 3 2 1 1.
Proof.
  apply (full_iteration_shapes toy_mt19937 toy_entropy
           (sample 10 3 2, sample 10 3 1, sample 10 3 1) false (rng_int 42) 4
           10 3 2 1 1).
  - prove_aligned.
  - lia.
  - lia.
  - simpl. lia.
  - lia.
Defined.

(** C3.  On three aligned slices of shapes [(M, i, Dx)], [(M, i, Dy)] and
    [(M, i, Dz)] with [i > 0], every draw of a live evaluation-subset
    generator succeeds and leaves the generator live; the three yielded
    arrays have shapes [(M, Dx)], [(M, Dy)] and [(M, Dz)] (and entries
    filling them), and for every row [m] there is one evaluation index
    [c < i] such that row [m] of each yielded array is evaluation [c] of
    row [m] of the corresponding slice. *)
Theorem evaluation_subset_rows {A : Type} (mt19937 : Z -> nat -> N) os self_rng
    (g : eval_gen A) (X y meta : ndarray3 A) (M i Dx Dy Dz : nat) :
  aligned (X, y, meta) M i Dx Dy Dz ->
  (0 < i)%nat ->
  eval_gen_for (X, y, meta) g ->
  exists rX ry rm g' s',
    eval_next mt19937 os self_rng g = Ok ((rX, ry, rm), g', s') /\
    eval_gen_for (X, y, meta) g' /\
    shape2 rX = (M, Dx) /\ shape2 ry = (M, Dy) /\ shape2 rm = (M, Dz) /\
    wf2 rX /\ wf2 ry /\ wf2 rm /\
    forall m, (m < M)%nat ->
      exists c vx vy vm, (c < i)%nat /\
        data2 rX !! m = Some vx /\ evaluation_of X m c vx /\
        data2 ry !! m = Some vy /\ evaluation_of y m c vy /\
        data2 rm !! m = Some vm /\ evaluation_of meta m c vm.
Proof.
  intros Hal Hpos Hg.
  destruct (eval_next_ok mt19937 os self_rng g X y meta M i Dx Dy Dz Hal Hpos Hg)
    as (choices & g' & s' & Hnext & Hg' & Hlen & Hall).
  destruct Hal as (HsX & Hsy & Hsm & HwX & Hwy & Hwm).
  eexists _, _, _, g', s'. split; [exact Hnext|].
  split; [done|]. simpl.
  repeat split; try done; try (by eapply take_reshape_wf).
  intros m Hm.
  destruct (picked_row X choices M i Dx m HwX HsX Hlen Hall Hm)
    as (c & vx & Hc & Hci & Hvx & Hex).
  destruct (picked_row y choices M i Dy m Hwy Hsy Hlen Hall Hm)
    as (c' & vy & Hc' & _ & Hvy & Hey).
  destruct (picked_row meta choices M i Dz m Hwm Hsm Hlen Hall Hm)
    as (c'' & vm & Hc'' & _ & Hvm & Hem).
  assert (c' = c) as -> by congruence.
  assert (c'' = c) as -> by congruence.
  by exists c, vx, vy, vm.
Qed.

Lemma evaluation_subset_rows_witness :
  exists rX ry rm g' s',
    eval_next toy_mt19937 toy_entropy (mkRandomState toy_entropy 0)
      (_generate_evaluation_subsets (sample 4 3 2, sample 4 3 1, sample 4 3 1)
         (rng_obj alias_self))
    = Ok ((rX, ry, rm), g', s') /\
    eval_gen_for (sample 4 3 2, sample 4 3 1, sample 4 3 1) g' /\
    shape2 rX = (4, 2)%nat /\ shape2 ry = (4, 1)%nat /\ shape2 rm = (4, 1)%nat /\
    wf2 rX /\ wf2 ry /\ wf2 rm /\
    forall m, (m < 4)%nat ->
      exists c vx vy vm, (c < 3)%nat /\
        data2 rX !! m = Some vx /\ evaluation_of (sample 4 3 2) m c vx /\
        data2 ry !! m = Some vy /\ evaluation_of (sample 4 3 1) m c vy /\
        data2 rm !! m = Some vm /\ evaluation_of (sample 4 3 1) m c vm.
Proof.
  apply (evaluation_subset_rows toy_mt19937 toy_entropy (mkRandomState toy_entropy 0)
           (_generate_evaluation_subsets (sample 4 3 2, sample 4 3 1, sample 4 3 1)
              (rng_obj alias_self))
           (sample 4 3 2) (sample 4 3 1) (sample 4 3 1) 4 3 2 1 1).
  - prove_aligned.
  - lia.
  - simpl. done.
Defined.

(** C4, as the code has it.  On aligned arrays with [N] configurations, a
    draw of a live configuration-split generator fails, with the value
    error of [choice], when the training size (a number that fits a signed
    64-bit integer) is negative or larger than [N]; with [N > 0], for every
    size from [0] to [N], both ends included, the draw succeeds, with that
    many train indices and the remaining ones as test indices (none for
    size [N], all of them for size [0]); with [N = 0] the draw of size [0]
    fails with the index error of [exclude_indices]. *)
Theorem split_size_bounds {A : Type} (mt19937 : Z -> nat -> N) os self_rng
    (g : conf_gen A) (data : ndarray3 A * ndarray3 A * ndarray3 A)
    (N i Dx Dy Dz : nat) (size : Z) (ret : bool) :
  aligned data N i Dx Dy Dz ->
  conf_gen_for data size ret g ->
  (- 2 ^ 63 <= size < 2 ^ 63)%Z ->
  ((size < 0 \/ Z.of_nat N < size)%Z ->
   exists msg, conf_next mt19937 os data self_rng g = Raise (ValueError msg)) /\
  ((0 < N)%nat -> (0 <= size <= Z.of_nat N)%Z ->
   exists tr te train_set test_set g' s',
     conf_next mt19937 os data self_rng g
     = Ok ((train_set, test_set, if ret then Some (tr, te) else None), g', s') /\
     getitem_dataset data tr = Ok train_set /\
     getitem_dataset data te = Ok test_set /\
     length tr = Z.to_nat size /\ length te = (N - Z.to_nat size)%nat) /\
  (N = 0%nat -> size = 0%Z ->
   exists msg, conf_next mt19937 os data self_rng g = Raise (IndexError msg)).
Proof.
  intros Hal Hg _. split; [|split].
  - intros Hsz. apply (conf_next_out_of_range mt19937 os self_rng g data size ret); [|done].
    destruct data as [[X y] meta]. destruct Hal as (HsX & _).
    simpl. by rewrite HsX.
  - intros HN Hsz.
    destruct (conf_next_ok mt19937 os self_rng g data N i Dx Dy Dz size ret)
      as (tr & te & train_set & test_set & g' & s' & Hnext & Hg' & Hlen & Hp & Hte
          & Htr & Htest & _); [done..|].
    exists tr, te, train_set, test_set, g', s'.
    repeat split; try done.
    apply Permutation_length in Hp. rewrite length_app, length_seq in Hp. lia.
  - intros -> ->. apply (conf_next_empty mt19937 os self_rng g data ret); [|done].
    destruct data as [[X y] meta]. destruct Hal as (HsX & _).
    simpl. by rewrite HsX.
Qed.

Lemma split_size_bounds_witness :
  (exists msg,
     conf_next toy_mt19937 toy_entropy (sample 10 3 2, sample 10 3 1, sample 10 3 1)
       (mkRandomState toy_entropy 0)
       (_iterate_dataset_configurations None (Some 11%Z) (rng_int 42) false)
     = Raise (ValueError msg)) /\
  (exists tr te train_set test_set g' s',
     conf_next toy_mt19937 toy_entropy (sample 10 3 2, sample 10 3 1, sample 10 3 1)
       (mkRandomState toy_entropy 0)
       (_iterate_dataset_configurations None (Some 10%Z) (rng_int 42) false)
     = Ok ((train_set, test_set, None), g', s') /\
     getitem_dataset (sample 10 3 2, sample 10 3 1, sample 10 3 1) tr = Ok train_set /\
     getitem_dataset (sample 10 3 2, sample 10 3 1, sample 10 3 1) te = Ok test_set /\
     length tr = Z.to_nat 10 /\ length te = (10 - Z.to_nat 10)%nat) /\
  (exists msg,
     conf_next toy_mt19937 toy_entropy (sample 0 3 2, sample 0 3 1, sample 0 3 1)
       (mkRandomState toy_entropy 0)
       (_iterate_dataset_configurations None (Some 0%Z) (rng_int 42) false)
     = Raise (IndexError msg)).
Proof.
  split; [|split].
  - apply (split_size_bounds toy_mt19937 toy_entropy (mkRandomState toy_entropy 0)
             (_iterate_dataset_configurations None (Some 11%Z) (rng_int 42) false)
             (sample 10 3 2, sample 10 3 1, sample 10 3 1) 10 3 2 1 1 11%Z false).
    + prove_aligned.
    + simpl. repeat split; lia.
    + lia.
    + lia.
  - apply (split_size_bounds toy_mt19937 toy_entropy (mkRandomState toy_entropy 0)
             (_iterate_dataset_configurations None (Some 10%Z) (rng_int 42) false)
             (sample 10 3 2, sample 10 3 1, sample 10 3 1) 10 3 2 1 1 10%Z false).
    + prove_aligned.
    + simpl. repeat split; lia.
    + lia.
    + lia.
    + lia.
  - apply (split_size_bounds toy_mt19937 toy_entropy (mkRandomState toy_entropy 0)
             (_iterate_dataset_configurations None (Some 0%Z) (rng_int 42) false)
             (sample 0 3 2, sample 0 3 1, sample 0 3 1) 0 3 2 1 1 0%Z false).
    + prove_aligned.
    + simpl. repeat split; lia.
    + lia.
    + done.
    + done.
Defined.

(** C4, as stated, fails: with [N = 10] configurations, construction in the
    static mode, which draws the split, raises nothing for a training size
    of [0] (multiplier [0]) nor for a training size of [10] ([Dx = 2],
    multiplier [5]). *)
Lemma bounds_error_counterexample :
  (exists self,
     Data_init toy_mt19937 toy_entropy (sample 10 3 2, sample 10 3 1, sample 10 3 1)
       false false (rng_int 42) 0 = Ok self /\
     exists teX, test_X self = holds teX /\ shape3 teX = (10, 3, 2)%nat) /\
  (exists self,
     Data_init toy_mt19937 toy_entropy (sample 10 3 2, sample 10 3 1, sample 10 3 1)
       false false (rng_int 42) 5 = Ok self /\
     exists trX, train_X self = holds trX /\ shape2 trX = (10, 2)%nat).
Proof.
  split; (eexists; split; [vm_compute; reflexivity|]);
    eexists; split; reflexivity.
Qed.

(** C6.  Take any dataset, any operating mode, any multiplier and any
    integer seed for [rng].  Two runs that construct the partitioner with
    that seed and perform the same number of [update] calls see the same
    six arrays after construction and after every call (and the same
    exception, if one is raised), whatever entropy the operating system
    offers to each run at construction and at each call. *)
Theorem seeded_runs_identical {A : Type} (mt19937 : Z -> nat -> N)
    (os1 os2 : nat -> N) (oss : list ((nat -> N) * (nat -> N)))
    (data : ndarray3 A * ndarray3 A * ndarray3 A) (ic ie : bool)
    (seed : Z) (m : Z) :
  run mt19937 os1 (map fst oss) data ic ie (rng_int seed) m
  = run mt19937 os2 (map snd oss) data ic ie (rng_int seed) m.
Proof.
  unfold run.
  rewrite (Data_init_seeded mt19937 os1 os2 data ic ie (rng_int seed) m) by done.
  destruct (Data_init mt19937 os2 data ic ie (rng_int seed) m) as [self|e] eqn:H;
    [|done].
  do 2 f_equal. apply observe_seeded.
  by eapply Data_init_builds_seeded.
Qed.

(** Without a seed the arrays do depend on the entropy on offer: the two
    runs below differ only by it. *)
Example unseeded_runs_differ :
  run toy_mt19937 toy_entropy [] (sample 4 2 1, sample 4 2 1, sample 4 2 1)
    false false rng_None 2
  <> run toy_mt19937 (fun _ => 0%N) [] (sample 4 2 1, sample 4 2 1, sample 4 2 1)
       false false rng_None 2.
Proof. vm_compute. discriminate. Qed.

(** C7.  After a construction with [iterate_confs = false], whatever the
    sequence of [update] calls: the test arrays, the full arrays and the
    slices the evaluation-subset generator draws from are those of the
    construction and no configuration-split generator is left, so the split
    is never drawn again; with [iterate_evals = true] every call replaces
    the three train arrays; with [iterate_evals = false] every call
    succeeds and returns the partitioner unchanged. *)
Theorem static_modes_freeze_test {A : Type} (mt19937 : Z -> nat -> N) os
    (data : ndarray3 A * ndarray3 A * ndarray3 A) (ie : bool)
    (rng_arg : RNG_Input RandomState) (m : Z) (self : Data A) :
  Data_init mt19937 os data false ie rng_arg m = Ok self ->
  forall oss,
    (forall self', updates mt19937 oss self = Ok self' ->
       same_test_and_split self self' /\
       _conf_splits self' = None /\
       (ie = true -> oss <> [] ->
        exists trX trY trM,
          (train_X self', train_Y self', train_meta self')
          = (holds trX, holds trY, holds trM))) /\
    (ie = false -> updates mt19937 oss self = Ok self).
Proof.
  intros H oss. destruct data as [[X y] meta].
  destruct (Data_init_static_inv mt19937 os X y meta ie rng_arg m self H)
    as (s0 & train_set & test_set & o & c' & s2 & _ & _ & _ & Hc & _ & Hie).
  destruct ie.
  - destruct Hie as (_ & He & _). split; [|done].
    intros self' Hus.
    destruct (updates_eval_frame mt19937 oss self _ self' He Hus) as (Hsame & Htr).
    split; [done|]. split; [|by intros _].
    destruct Hsame as (_&_&_&_&Hc'&_). by rewrite Hc'.
  - destruct Hie as (He & _).
    pose proof (updates_static mt19937 oss self He Hc) as Hus.
    split; [|done].
    intros self' Hus'. rewrite Hus in Hus'. injection Hus' as <-.
    split; [apply same_test_and_split_refl|]. split; [done|]. done.
Qed.

Lemma static_modes_freeze_test_witness :
  match Data_init toy_mt19937 toy_entropy
          (sample 10 3 2, sample 10 3 1, sample 10 3 1) false true (rng_int 42) 4 with
  | Ok self =>
      forall oss,
        (forall self', updates toy_mt19937 oss self = Ok self' ->
           same_test_and_split self self' /\
           _conf_splits self' = None /\
           (true = true -> oss <> [] ->
            exists trX trY trM,
              (train_X self', train_Y self', train_meta self')
              = (holds trX, holds trY, holds trM))) /\
        (true = false -> updates toy_mt19937 oss self = Ok self)
  | Raise _ => False
  end.
Proof.
  destruct (Data_init toy_mt19937 toy_entropy
              (sample 10 3 2, sample 10 3 1, sample 10 3 1) false true (rng_int 42) 4)
    as [self|e] eqn:H.
  - exact (static_modes_freeze_test toy_mt19937 toy_entropy
             (sample 10 3 2, sample 10 3 1, sample 10 3 1) true (rng_int 42) 4 self H).
  - vm_compute in H. discriminate H.
Defined.

(** C8, as the code has it.  Creating the configuration-split generator
    without a fraction and without a size fails nothing: the configuration
    error is what its first draw returns (once the [rng] argument has been
    accepted), no split being yielded.  The constructor always passes a
    size, so no construction ever reports that error. *)
Theorem config_error_at_first_draw {A : Type} (mt19937 : Z -> nat -> N) os
    (data : ndarray3 A * ndarray3 A * ndarray3 A) self_rng
    (rng : RNG_Input rng_ref) (ret : bool) :
  valid_rng rng ->
  conf_next mt19937 os data self_rng
    (_iterate_dataset_configurations None None rng ret)
  = Raise (RuntimeError "Either 'train_frac' or 'train_size' must be provided.") /\
  forall os' ic ie rng_arg m,
    no_config_error (Data_init mt19937 os' data ic ie rng_arg m).
Proof.
  intros Hv. split.
  - unfold _iterate_dataset_configurations, conf_next, conf_prelude.
    destruct data as [[X y] meta].
    by destruct (resolve_rng_valid mt19937 own_rng os rng Hv) as [r ->].
  - intros os' ic ie rng_arg m. apply nce_Data_init.
Qed.

Lemma config_error_at_first_draw_witness :
  conf_next toy_mt19937 toy_entropy (sample 10 3 2, sample 10 3 1, sample 10 3 1)
    (mkRandomState toy_entropy 0)
    (_iterate_dataset_configurations None None (rng_int 42) false)
  = Raise (RuntimeError "Either 'train_frac' or 'train_size' must be provided.") /\
  forall os' ic ie rng_arg m,
    no_config_error
      (Data_init toy_mt19937 os' (sample 10 3 2, sample 10 3 1, sample 10 3 1)
         ic ie rng_arg m).
Proof.
  apply (config_error_at_first_draw toy_mt19937 toy_entropy
           (sample 10 3 2, sample 10 3 1, sample 10 3 1)
           (mkRandomState toy_entropy 0) (rng_int 42) false).
  simpl. lia.
Defined.

(** C8, as stated, fails: called without a fraction and without a size,
    [_iterate_dataset_configurations] returns a generator that is neither
    finished nor failed; the error only comes out of its first draw. *)
Lemma config_error_counterexample :
  exists g : conf_gen Z,
    _iterate_dataset_configurations None None (rng_int 42) false = g /\
    g <> conf_finished /\
    conf_next toy_mt19937 toy_entropy (sample 10 3 2, sample 10 3 1, sample 10 3 1)
      (mkRandomState toy_entropy 0) g
    = Raise (RuntimeError "Either 'train_frac' or 'train_size' must be provided.").
Proof. eexists. split; [reflexivity|]. split; [discriminate|reflexivity]. Qed.

(** C9.  On aligned arrays with [N] configurations and features of
    dimension [Dx]: the configuration-split generator the constructor
    creates is the one for no fraction and for the training size
    [train_set_multiplier * Dx]; a successful construction in a static mode
    has drawn that many configurations out of [N], leaving [N] minus that
    many in the test arrays; and when [train_set_multiplier * Dx] exceeds
    [N], construction fails in the static modes with the value error of
    [choice], while in full-iteration mode construction succeeds and it is
    the first [update] that fails with it. *)
Theorem train_size_is_multiplier_times_Dx {A : Type} (mt19937 : Z -> nat -> N) os
    (data : ndarray3 A * ndarray3 A * ndarray3 A) (ie : bool)
    (rng_arg : RNG_Input RandomState) (m : Z) (N i Dx Dy Dz : nat) :
  aligned data N i Dx Dy Dz ->
  valid_rng rng_arg ->
  (exists self seed,
     Data_init mt19937 os data true ie rng_arg m = Ok self /\
     _conf_splits self
     = Some (_iterate_dataset_configurations None (Some (m * Z.of_nat Dx)%Z)
               (rng_int seed) false) /\
     _eval_splits self = None) /\
  (forall self, Data_init mt19937 os data false ie rng_arg m = Ok self ->
     (0 <= m * Z.of_nat Dx <= Z.of_nat N)%Z /\
     exists teX, test_X self = holds teX /\
       shape3 teX = ((N - Z.to_nat (m * Z.of_nat Dx))%nat, i, Dx)) /\
  ((Z.of_nat N < m * Z.of_nat Dx)%Z ->
     (exists msg, Data_init mt19937 os data false ie rng_arg m = Raise (ValueError msg)) /\
     (forall self, Data_init mt19937 os data true ie rng_arg m = Ok self ->
        forall os', exists msg, update mt19937 os' self = Raise (ValueError msg))).
Proof.
  intros Hal Hv. destruct data as [[X y] meta].
  pose proof Hal as (HsX & _).
  destruct (resolve_rng_valid mt19937 id os rng_arg Hv) as [s0 Hr].
  pose proof (Data_init_full mt19937 os X y meta ie rng_arg m s0 Hr) as Hfull.
  pose proof (constructor_conf_gen X y meta m s0) as Hg.
  rewrite HsX in Hfull, Hg. cbn [fst snd] in Hfull, Hg.
  split; [|split].
  - eexists _, _. split; [exact Hfull|]. done.
  - intros self H.
    pose proof (Data_init_static_size mt19937 os X y meta ie rng_arg m self H) as Hsz.
    rewrite HsX in Hsz. cbn [fst snd] in Hsz. split; [done|].
    pose proof (Data_init_static_nonempty mt19937 os X y meta ie rng_arg m self H) as HN.
    rewrite HsX in HN. cbn [fst snd] in HN.
    destruct (Data_init_static_inv mt19937 os X y meta ie rng_arg m self H)
      as (s0' & train_set & test_set & o & c' & s2 & Hr' & Hnext & _ & _ & Hte & _).
    rewrite Hr in Hr'. injection Hr' as <-.
    rewrite HsX in Hnext. cbn [fst snd] in Hnext.
    destruct (conf_next_ok mt19937 os (randint s0 0 1000000000).2 _ (X, y, meta)
                N i Dx Dy Dz _ false Hal HN Hsz Hg)
      as (tr & te & train_set' & [[teX teY] teM] & c'' & s' & Hnext' & _ & Hlen & Hp
          & _ & _ & _ & _ & Halte).
    rewrite Hnext' in Hnext. injection Hnext as _ <- _ _ _.
    exists teX. split; [by injection Hte|].
    destruct Halte as (-> & _).
    apply Permutation_length in Hp. rewrite length_app, length_seq in Hp.
    do 2 f_equal. lia.
  - intros Hbig.
    assert (Hout : (m * Z.of_nat Dx < 0 \/
                    Z.of_nat (shape3 (X, y, meta).1.1).1.1 < m * Z.of_nat Dx)%Z).
    { right. cbn [fst snd]. by rewrite HsX. }
    split.
    + rewrite (Data_init_static mt19937 os X y meta ie rng_arg m s0 Hr).
      rewrite HsX. cbn [fst snd].
      destruct (conf_next_out_of_range mt19937 os (randint s0 0 1000000000).2 _
                  (X, y, meta) _ false Hout Hg) as [msg Hm].
      rewrite Hm. by exists msg.
    + intros self H os'. rewrite Hfull in H. injection H as <-.
      destruct (conf_next_out_of_range mt19937 os' (randint s0 0 1000000000).2 _
                  (X, y, meta) _ false Hout Hg) as [msg Hm].
      exists msg. eapply update_conf_raise; [reflexivity|reflexivity|exact Hm].
Qed.

Lemma train_size_is_multiplier_times_Dx_witness :
  (exists self seed,
     Data_init toy_mt19937 toy_entropy (sample 10 3 2, sample 10 3 1, sample 10 3 1)
       true false (rng_int 42) 6 = Ok self /\
     _conf_splits self
     = Some (_iterate_dataset_configurations None (Some (6 * Z.of_nat 2)%Z)
               (rng_int seed) false) /\
     _eval_splits self = None) /\
  (forall self,
     Data_init toy_mt19937 toy_entropy (sample 10 3 2, sample 10 3 1, sample 10 3 1)
       false false (rng_int 42) 6 = Ok self ->
     (0 <= 6 * Z.of_nat 2 <= Z.of_nat 10)%Z /\
     exists teX, test_X self = holds teX /\
       shape3 teX = ((10 - Z.to_nat (6 * Z.of_nat 2))%nat, 3, 2)%nat) /\
  (exists msg,
     Data_init toy_mt19937 toy_entropy (sample 10 3 2, sample 10 3 1, sample 10 3 1)
       false false (rng_int 42) 6 = Raise (ValueError msg)) /\
  (forall self,
     Data_init toy_mt19937 toy_entropy (sample 10 3 2, sample 10 3 1, sample 10 3 1)
       true false (rng_int 42) 6 = Ok self ->
     forall os', exists msg, update toy_mt19937 os' self = Raise (ValueError msg)).
Proof.
  destruct (train_size_is_multiplier_times_Dx toy_mt19937 toy_entropy
              (sample 10 3 2, sample 10 3 1, sample 10 3 1) false (rng_int 42) 6
              10 3 2 1 1) as (H1 & H2 & H3).
  - prove_aligned.
  - simpl. lia.
  - split; [exact H1|]. split; [exact H2|]. apply H3. lia.
Defined.

(** C10.  After a successful construction with [iterate_confs = false] and
    [iterate_evals = true], the three train attributes are [None] and the
    three test attributes hold arrays; the evaluation-subset generator is
    created, not yet advanced, over the train set of the split.  A
    successful first [update] sets the train attributes to the first draw
    of that generator and leaves the test attributes as they are; on
    aligned arrays with [i > 0] the first [update] succeeds. *)
Theorem train_unset_until_first_update {A : Type} (mt19937 : Z -> nat -> N) os
    (data : ndarray3 A * ndarray3 A * ndarray3 A)
    (rng_arg : RNG_Input RandomState) (m : Z) (self : Data A) :
  Data_init mt19937 os data false true rng_arg m = Ok self ->
  (train_X self, train_Y self, train_meta self) = (py_None, py_None, py_None) /\
  (exists teX teY teM,
     (test_X self, test_Y self, test_meta self) = (holds teX, holds teY, holds teM)) /\
  (exists train_set,
     _eval_splits self
     = Some (_generate_evaluation_subsets train_set (rng_obj alias_self)) /\
     forall os' self', update mt19937 os' self = Ok self' ->
       exists trX trY trM g' s',
         eval_next mt19937 os' (rng self)
           (_generate_evaluation_subsets train_set (rng_obj alias_self))
         = Ok ((trX, trY, trM), g', s') /\
         (train_X self', train_Y self', train_meta self')
         = (holds trX, holds trY, holds trM) /\
         (test_X self', test_Y self', test_meta self')
         = (test_X self, test_Y self, test_meta self)) /\
  (forall N i Dx Dy Dz, aligned data N i Dx Dy Dz -> (0 < i)%nat ->
     forall os', exists self', update mt19937 os' self = Ok self').
Proof.
  intros H. destruct data as [[X y] meta].
  pose proof (Data_init_static_size mt19937 os X y meta true rng_arg m self H) as Hsz.
  pose proof (Data_init_static_nonempty mt19937 os X y meta true rng_arg m self H) as HN.
  destruct (Data_init_static_inv mt19937 os X y meta true rng_arg m self H)
    as (s0 & train_set & test_set & o & c' & s2 & _ & Hnext & _ & Hc & Hte & _ & He & Htr).
  split; [done|]. split; [by eexists _, _, _|]. split.
  - exists train_set. split; [done|].
    intros os' self' Hu.
    destruct (update_eval_inv mt19937 os' self _ self' He Hu)
      as (trX & trY & trM & g' & s' & Hn & ->).
    by exists trX, trY, trM, g', s'.
  - intros N i Dx Dy Dz Hal Hpos os'.
    pose proof Hal as (HsX & _).
    rewrite HsX in Hsz, Hnext, HN. cbn [fst snd] in Hsz, Hnext, HN.
    pose proof (constructor_conf_gen X y meta m s0) as Hg.
    rewrite HsX in Hg. cbn [fst snd] in Hg.
    destruct (conf_next_ok mt19937 os (randint s0 0 1000000000).2 _ (X, y, meta)
                N i Dx Dy Dz _ false Hal HN Hsz Hg)
      as (tr & te & [[tX tY] tM] & test_set' & c'' & s' & Hnext' & _ & _ & _
          & _ & _ & _ & Haltr & _).
    rewrite Hnext' in Hnext. injection Hnext as <- _ _ _ _.
    destruct (eval_next_ok mt19937 os' (rng self)
                (_generate_evaluation_subsets (tX, tY, tM) (rng_obj alias_self))
                tX tY tM (length tr) i Dx Dy Dz Haltr Hpos)
      as (choices & g'' & s'' & Hev & _); [done|].
    unfold update. rewrite He, Hev. cbn [bind]. by eexists.
Qed.

Lemma train_unset_until_first_update_witness :
  match Data_init toy_mt19937 toy_entropy
          (sample 10 3 2, sample 10 3 1, sample 10 3 1) false true (rng_int 42) 4 with
  | Ok self =>
      (train_X self, train_Y self, train_meta self) = (py_None, py_None, py_None) /\
      (exists teX teY teM,
         (test_X self, test_Y self, test_meta self) = (holds teX, holds teY, holds teM)) /\
      (exists train_set,
         _eval_splits self
         = Some (_generate_evaluation_subsets train_set (rng_obj alias_self)) /\
         forall os' self', update toy_mt19937 os' self = Ok self' ->
           exists trX trY trM g' s',
             eval_next toy_mt19937 os' (rng self)
               (_generate_evaluation_subsets train_set (rng_obj alias_self))
             = Ok ((trX, trY, trM), g', s') /\
             (train_X self', train_Y self', train_meta self')
             = (holds trX, holds trY, holds trM) /\
             (test_X self', test_Y self', test_meta self')
             = (test_X self, test_Y self, test_meta self)) /\
      (forall N i Dx Dy Dz,
         aligned (sample 10 3 2, sample 10 3 1, sample 10 3 1) N i Dx Dy Dz ->
         (0 < i)%nat ->
         forall os', exists self', update toy_mt19937 os' self = Ok self')
  | Raise _ => False
  end.
Proof.
  destruct (Data_init toy_mt19937 toy_entropy
              (sample 10 3 2, sample 10 3 1, sample 10 3 1) false true (rng_int 42) 4)
    as [self|e] eqn:H.
  - exact (train_unset_until_first_update toy_mt19937 toy_entropy
             (sample 10 3 2, sample 10 3 1, sample 10 3 1) (rng_int 42) 4 self H).
  - vm_compute in H. discriminate H.
Defined.

(** * Further properties *)

(** ** Regrouping rows *)

Section ReaderFacts.
Context {A D : Type} `{EqDecision D} (astype : list D -> D -> A -> A).
Implicit Types (df : DataFrame A D) (idx : list Z).

Lemma length_chunks {T : Type} n d (buf : list T) : length (chunks n d buf) = n.
Proof. revert buf. induction n as [|n IH]; intros buf; simpl; [done|]. by rewrite IH. Qed.

Lemma chunks_lookup {T : Type} n d (buf : list T) m :
  (m < n)%nat -> chunks n d buf !! m = Some (take d (drop (m * d) buf)).
Proof.
  revert buf m. induction n as [|n IH]; intros buf m Hm; [lia|].
  destruct m as [|m]; simpl; [done|].
  rewrite IH by lia. by rewrite drop_drop.
Qed.

Lemma chunks_Forall_length {T : Type} n d (buf : list T) :
  (n * d <= length buf)%nat -> Forall (fun v => length v = d) (chunks n d buf).
Proof.
  revert buf. induction n as [|n IH]; intros buf Hn; simpl; constructor.
  - rewrite length_take. lia.
  - apply IH. rewrite length_drop. lia.
Qed.

Lemma length_concat_uniform {T : Type} (rows : list (list T)) d :
  Forall (fun v => length v = d) rows -> length (concat rows) = (length rows * d)%nat.
Proof.
  induction 1 as [|v rows Hv _ IH]; simpl; [done|].
  rewrite length_app. lia.
Qed.

(** Grouping [n * e] rows by [e]: evaluation [j] of block [m] is row
    [m * e + j]. *)
Lemma chunks_rows_lookup {T : Type} n e (rows : list T) m j :
  length rows = (n * e)%nat -> (m < n)%nat -> (j < e)%nat ->
  exists block, chunks n e rows !! m = Some block /\
                block !! j = rows !! (m * e + j)%nat.
Proof.
  intros Hlen Hm Hj. eexists. split; [by apply chunks_lookup|].
  rewrite lookup_take_lt by done. by rewrite lookup_drop.
Qed.

(** ** Selecting columns *)

Lemma select_cells_cons {T : Type} (row : list T) k idx v :
  row !! position (length row) k = Some v ->
  select_cells row (k :: idx) = v :: select_cells row idx.
Proof. intros Hv. unfold select_cells. simpl. by rewrite Hv. Qed.

Lemma length_select_cells {T : Type} (row : list T) idx :
  in_bounds (length row) idx = true ->
  length (select_cells row idx) = length idx.
Proof.
  rewrite in_bounds_Forall. induction 1 as [|k idx Hk _ IH]; [done|].
  destruct (lookup_lt_is_Some_2 row (position (length row) k)) as [v Hv];
    [by apply position_lt|].
  rewrite (select_cells_cons row k idx v Hv). simpl. by rewrite IH.
Qed.

(** The cast to a common dtype keeps the number of cells. *)
Lemma length_to_numpy_row (ds : list D) (cells : list A) :
  length ds = length cells -> length (to_numpy_row astype ds cells) = length cells.
Proof.
  intros Hl. unfold to_numpy_row. destruct (same_dtype ds); [done|].
  rewrite length_zip_with. lia.
Qed.

Lemma length_selected_cells df idx row :
  wf_frame df -> in_bounds (length (columns df)) idx = true ->
  row ∈ values df ->
  length (selected_cells astype df idx row) = length idx.
Proof.
  intros [Hd Hwf] Hb Hrow. unfold selected_cells.
  eapply Forall_forall in Hwf; [|done].
  assert (Hc : length (select_cells row idx) = length idx)
    by (apply length_select_cells; by rewrite Hwf).
  rewrite length_to_numpy_row; [done|].
  rewrite Hc. apply length_select_cells. by rewrite Hd.
Qed.

(** Columns of one dtype come back as they are. *)
Lemma selected_cells_same_dtype df idx row :
  same_dtype (select_cells (dtypes df) idx) = true ->
  selected_cells astype df idx row = select_cells row idx.
Proof. intros Hs. unfold selected_cells, to_numpy_row. by rewrite Hs. Qed.

(** ** Reshaping the selected columns *)

Lemma iloc_columns_ok df idx :
  wf_frame df -> in_bounds (length (columns df)) idx = true ->
  exists t, iloc_columns astype df idx = Ok t /\
    shape2 t = (length (values df), length idx) /\
    data2 t = map (selected_cells astype df idx) (values df) /\
    wf2 t.
Proof.
  intros Hwf Hb. unfold iloc_columns. rewrite Hb. eexists. split; [done|].
  split; [done|]. split; [done|].
  unfold wf2. simpl. split; [by rewrite length_map|].
  apply Forall_forall. intros v Hv.
  apply list_elem_of_fmap in Hv as (row & -> & Hrow).
  by apply length_selected_cells.
Qed.

Lemma iloc_columns_out_of_bounds df idx :
  in_bounds (length (columns df)) idx = false ->
  exists msg, iloc_columns astype df idx = Raise (IndexError msg).
Proof. intros Hb. unfold iloc_columns. rewrite Hb. by eexists. Qed.

Lemma reshape_infer_ok (t : ndarray2 A) R k e :
  wf2 t -> shape2 t = (R, k) ->
  (0 < e)%nat -> (0 < k)%nat -> R mod e = 0%nat ->
  reshape_infer t (Z.of_nat e) k
  = Ok (mk3 ((R / e)%nat, e, k) (chunks (R / e) e (data2 t))).
Proof.
  unfold wf2. intros Hwf Hs He Hk Hmod. rewrite Hs in Hwf. destruct Hwf as [Hlen Hrows].
  unfold reshape_infer. rewrite Hs.
  destruct (Z.ltb_spec (Z.of_nat e) 0); [lia|].
  rewrite Nat2Z.id.
  assert (Hexact : R = (e * (R / e))%nat) by (apply Nat.div_exact; lia).
  assert (Hm : (R * k) mod (e * k) = 0%nat).
  { rewrite Nat.Div0.mul_mod_distr_r, Hmod. lia. }
  assert (Hd : ((R * k) / (e * k) = R / e)%nat).
  { apply Nat.Div0.div_mul_cancel_r. lia. }
  replace (e * k =? 0) with false by (symmetry; apply Nat.eqb_neq; lia).
  rewrite Hm, Hd. simpl. do 2 f_equal.
  unfold regroup. f_equal.
  replace (R / e * e)%nat with (length (data2 t)) by lia.
  by apply chunks_concat.
Qed.

Lemma reshape_infer_fail (t : ndarray2 A) R k e :
  shape2 t = (R, k) ->
  (e <= 0)%Z \/ k = 0%nat \/ R mod (Z.to_nat e) <> 0%nat ->
  exists msg, reshape_infer t e k = Raise (ValueError msg).
Proof.
  intros Hs Hbad. unfold reshape_infer. rewrite Hs.
  destruct (Z.ltb_spec e 0); [by eexists|].
  destruct (Nat.eqb_spec (Z.to_nat e * k) 0) as [|Hne]; [by eexists|].
  destruct Hbad as [?|[?|Hmod]]; [lia|lia|].
  rewrite Nat.Div0.mul_mod_distr_r.
  destruct (Nat.eqb_spec (R mod Z.to_nat e * k) 0) as [Hz|]; [|by eexists].
  apply Nat.eq_mul_0 in Hz. lia.
Qed.

Lemma reshape_infer_wf (rows : list (list A)) n e k :
  length rows = (n * e)%nat -> Forall (fun v => length v = k) rows ->
  wf3 (mk3 (n, e, k) (chunks n e rows)).
Proof.
  intros Hlen Hrows. unfold wf3. simpl. split; [apply length_chunks|].
  apply Forall_forall. intros block Hb.
  apply list_elem_of_lookup in Hb as [m Hm].
  assert (Hmn : (m < n)%nat).
  { apply lookup_lt_Some in Hm. by rewrite length_chunks in Hm. }
  rewrite chunks_lookup in Hm by done. injection Hm as <-.
  split.
  - rewrite length_take, length_drop. nia.
  - by apply Forall_take, Forall_drop.
Qed.

(** One array of the reader: it is returned exactly when the repetition
    count is positive, some column is selected and the number of rows is
    a multiple of the repetition count. *)
Lemma reader_array df idx e :
  wf_frame df -> in_bounds (length (columns df)) idx = true ->
  ((0 < e)%Z /\ idx <> [] /\ length (values df) mod Z.to_nat e = 0%nat ->
   exists t,
     iloc_columns astype df idx = Ok t /\
     reshape_infer t e (length idx)
     = Ok (mk3 ((length (values df) / Z.to_nat e)%nat, Z.to_nat e, length idx)
             (chunks (length (values df) / Z.to_nat e) (Z.to_nat e)
                (map (selected_cells astype df idx) (values df)))) /\
     wf3 (mk3 ((length (values df) / Z.to_nat e)%nat, Z.to_nat e, length idx)
            (chunks (length (values df) / Z.to_nat e) (Z.to_nat e)
               (map (selected_cells astype df idx) (values df))))) /\
  (~ ((0 < e)%Z /\ idx <> [] /\ length (values df) mod Z.to_nat e = 0%nat) ->
   exists t msg,
     iloc_columns astype df idx = Ok t /\
     reshape_infer t e (length idx) = Raise (ValueError msg)).
Proof.
  intros Hwf Hb.
  destruct (iloc_columns_ok df idx Hwf Hb) as (t & Ht & Hs & Hd & Hwt).
  split.
  - intros (He & Hne & Hmod). exists t. split; [done|].
    assert (Hk : (0 < length idx)%nat) by (destruct idx; [done|simpl; lia]).
    pose proof (reshape_infer_ok t _ _ (Z.to_nat e) Hwt Hs ltac:(lia) Hk Hmod) as Hok.
    rewrite Z2Nat.id in Hok by lia. rewrite Hd in Hok. split; [done|].
    apply reshape_infer_wf.
    + rewrite length_map.
      pose proof (Nat.div_exact (length (values df)) (Z.to_nat e) ltac:(lia)) as Hx.
      apply Hx in Hmod. lia.
    + rewrite <-Hd. unfold wf2 in Hwt. rewrite Hs in Hwt. by destruct Hwt.
  - intros Hnot. exists t.
    destruct (reshape_infer_fail t _ _ e Hs) as [msg Hm]; [|by exists msg].
    destruct (Z_le_dec e 0); [by left|right].
    destruct idx as [|k idx]; [by left|right].
    intros Hmod. apply Hnot. by repeat split; [lia|..].
Qed.

End ReaderFacts.

(** ** The benchmark reader *)

Section ReaderTheorems.
Context {A D : Type} `{EqDecision D} (astype : list D -> D -> A -> A).
Implicit Types (df : DataFrame A D) (fi oi mi : list Z).

Lemma grouped_wf df idx e :
  wf_frame df -> in_bounds (length (columns df)) idx = true ->
  (0 < e)%nat -> length (values df) mod e = 0%nat ->
  wf3 (grouped astype df idx e).
Proof.
  intros Hwf Hb He Hmod. apply reshape_infer_wf.
  - rewrite length_map.
    pose proof (Nat.div_exact (length (values df)) e ltac:(lia)) as Hx.
    apply Hx in Hmod. lia.
  - apply Forall_forall. intros v Hv.
    apply list_elem_of_fmap in Hv as (row & -> & Hrow).
    by apply length_selected_cells.
Qed.

Lemma columns_getitem_ok df idx :
  in_bounds (length (columns df)) idx = true ->
  columns_getitem df idx = Ok (select_cells (columns df) idx).
Proof. intros Hb. unfold columns_getitem. by rewrite Hb. Qed.

Lemma iloc_columns_Ok_inv df idx t :
  iloc_columns astype df idx = Ok t -> in_bounds (length (columns df)) idx = true.
Proof. unfold iloc_columns. by destruct (in_bounds _ _). Qed.

Lemma reader_Ok_inv df fi oi mi e v :
  read_hpolib_benchmark_data astype df fi oi mi e = Ok v ->
  in_bounds (length (columns df)) fi = true /\
  in_bounds (length (columns df)) oi = true /\
  in_bounds (length (columns df)) mi = true.
Proof.
  unfold read_hpolib_benchmark_data. intros H.
  apply bind_Ok in H as (tX & HtX & H). apply bind_Ok in H as (X & _ & H).
  apply bind_Ok in H as (tY & HtY & H). apply bind_Ok in H as (Y & _ & H).
  apply bind_Ok in H as (tM & HtM & H).
  by repeat split; eapply iloc_columns_Ok_inv.
Qed.

Lemma reader_cases df fi oi mi (e : Z) :
  wf_frame df ->
  in_bounds (length (columns df)) fi = true ->
  in_bounds (length (columns df)) oi = true ->
  in_bounds (length (columns df)) mi = true ->
  (reader_accepts df fi oi mi e ->
   read_hpolib_benchmark_data astype df fi oi mi e
   = Ok (grouped astype df fi (Z.to_nat e), grouped astype df oi (Z.to_nat e),
         grouped astype df mi (Z.to_nat e),
         select_cells (columns df) fi, select_cells (columns df) oi,
         select_cells (columns df) mi)) /\
  (~ reader_accepts df fi oi mi e ->
   exists msg, read_hpolib_benchmark_data astype df fi oi mi e = Raise (ValueError msg)).
Proof.
  intros Hwf Hfi Hoi Hmi.
  destruct (reader_array astype df fi e Hwf Hfi) as [Hfok Hfbad].
  destruct (reader_array astype df oi e Hwf Hoi) as [Hook Hobad].
  destruct (reader_array astype df mi e Hwf Hmi) as [Hmok Hmbad].
  unfold read_hpolib_benchmark_data, reader_accepts. split.
  - intros (He & Hf & Ho & Hm & Hmod).
    destruct Hfok as (tX & HtX & HX & _); [done|].
    destruct Hook as (tY & HtY & HY & _); [done|].
    destruct Hmok as (tM & HtM & HM & _); [done|].
    rewrite HtX. cbn [bind]. rewrite HX. cbn [bind].
    rewrite HtY. cbn [bind]. rewrite HY. cbn [bind].
    rewrite HtM. cbn [bind]. rewrite HM. cbn [bind].
    by rewrite !columns_getitem_ok.
  - intros Hnot.
    destruct (decide ((0 < e)%Z /\ fi <> [] /\
                      length (values df) mod Z.to_nat e = 0%nat)) as [Hf|Hf].
    2: { destruct (Hfbad Hf) as (tX & msg & HtX & HX).
         rewrite HtX. cbn [bind]. rewrite HX. by exists msg. }
    destruct (Hfok Hf) as (tX & HtX & HX & _).
    rewrite HtX. cbn [bind]. rewrite HX. cbn [bind].
    destruct Hf as (He & Hf & Hmod).
    destruct (decide (oi <> [])) as [Ho|Ho].
    2: { destruct Hobad as (tY & msg & HtY & HY); [tauto|].
         rewrite HtY. cbn [bind]. rewrite HY. by exists msg. }
    destruct Hook as (tY & HtY & HY & _); [done|].
    rewrite HtY. cbn [bind]. rewrite HY. cbn [bind].
    destruct Hmbad as (tM & msg & HtM & HM); [tauto|].
    rewrite HtM. cbn [bind]. rewrite HM. by exists msg.
Qed.

Lemma reader_Ok_grouped df fi oi mi (e : Z) X Y M fn tn mn :
  wf_frame df ->
  read_hpolib_benchmark_data astype df fi oi mi e = Ok (X, Y, M, fn, tn, mn) ->
  reader_accepts df fi oi mi e /\
  in_bounds (length (columns df)) fi = true /\
  in_bounds (length (columns df)) oi = true /\
  in_bounds (length (columns df)) mi = true /\
  X = grouped astype df fi (Z.to_nat e) /\ Y = grouped astype df oi (Z.to_nat e) /\
  M = grouped astype df mi (Z.to_nat e) /\
  fn = select_cells (columns df) fi /\ tn = select_cells (columns df) oi /\
  mn = select_cells (columns df) mi.
Proof.
  intros Hwf H.
  destruct (reader_Ok_inv df fi oi mi e _ H) as (Hfi & Hoi & Hmi).
  destruct (reader_cases df fi oi mi e Hwf Hfi Hoi Hmi) as [Hok Hbad].
  destruct (decide (reader_accepts df fi oi mi e)) as [Hacc|Hacc].
  - rewrite (Hok Hacc) in H. injection H as <- <- <- <- <- <-.
    split; [exact Hacc|]. by repeat split.
  - destruct (Hbad Hacc) as [msg Hm]. rewrite Hm in H. done.
Qed.

End ReaderTheorems.

Ltac prove_wf_frame := split; [reflexivity|by repeat constructor].




Section ReaderContents.
Context {A D : Type} `{EqDecision D} (astype : list D -> D -> A -> A).
Implicit Types (df : DataFrame A D) (fi oi mi idx : list Z).

Lemma select_cells_lookup {T : Type} (row : list T) idx c k :
  in_bounds (length row) idx = true -> idx !! c = Some k ->
  select_cells row idx !! c = row !! position (length row) k /\
  is_Some (row !! position (length row) k).
Proof.
  rewrite in_bounds_Forall. intros Hall. revert c.
  induction Hall as [|k' idx Hk' _ IH]; intros c Hc; [done|].
  destruct (lookup_lt_is_Some_2 row (position (length row) k')) as [v Hv];
    [by apply position_lt|].
  rewrite (select_cells_cons row k' idx v Hv).
  destruct c as [|c]; simpl in *.
  - injection Hc as <-. by rewrite Hv.
  - by apply IH.
Qed.

Lemma grouped_aligned df fi oi mi e :
  wf_frame df ->
  in_bounds (length (columns df)) fi = true ->
  in_bounds (length (columns df)) oi = true ->
  in_bounds (length (columns df)) mi = true ->
  (0 < e)%nat -> length (values df) mod e = 0%nat ->
  aligned (grouped astype df fi e, grouped astype df oi e, grouped astype df mi e)
    (length (values df) / e) e (length fi) (length oi) (length mi).
Proof.
  intros Hwf Hfi Hoi Hmi He Hmod.
  unfold aligned. repeat split; try done; by apply grouped_wf.
Qed.

Lemma grouped_evaluation df idx e n j row :
  (0 < e)%nat -> length (values df) mod e = 0%nat ->
  (j < e)%nat -> values df !! (n * e + j)%nat = Some row ->
  evaluation_of (grouped astype df idx e) n j (selected_cells astype df idx row).
Proof.
  intros He Hmod Hj Hrow.
  pose proof (Nat.div_exact (length (values df)) e ltac:(lia)) as Hx.
  apply Hx in Hmod.
  assert (Hn : (n < length (values df) / e)%nat).
  { apply lookup_lt_Some in Hrow. nia. }
  destruct (chunks_rows_lookup (length (values df) / e) e
              (map (selected_cells astype df idx) (values df)) n j)
    as (block & Hb & Hbj); [rewrite length_map; lia|done..|].
  exists block. split; [done|].
  by rewrite Hbj, list_lookup_fmap, Hrow.
Qed.

(** Cell [c] of a selected row is the cell of the column [idx[c]], cast to
    the common dtype when the selected columns differ in dtype. *)
Lemma selected_cells_lookup df idx row c k :
  wf_frame df -> in_bounds (length (columns df)) idx = true ->
  row ∈ values df -> idx !! c = Some k ->
  exists d x,
    dtypes df !! position (length (columns df)) k = Some d /\
    row !! position (length (columns df)) k = Some x /\
    selected_cells astype df idx row !! c
    = Some (if same_dtype (select_cells (dtypes df) idx) then x
            else astype (select_cells (dtypes df) idx) d x).
Proof.
  intros [Hd Hwf] Hb Hrow Hc.
  eapply Forall_forall in Hwf; [|done].
  destruct (select_cells_lookup row idx c k) as [H1 [x Hx]]; [by rewrite Hwf|done|].
  destruct (select_cells_lookup (dtypes df) idx c k) as [H2 [d Hdk]];
    [by rewrite Hd|done|].
  rewrite Hwf in H1, Hx. rewrite Hd in H2, Hdk.
  exists d, x. split; [done|]. split; [done|].
  unfold selected_cells, to_numpy_row.
  destruct (same_dtype _); [by rewrite H1|].
  rewrite lookup_zip_with, H2, Hdk. simpl. by rewrite H1, Hx.
Qed.

End ReaderContents.

(** X2.  Whenever the reader returns, the repetition count is positive and
    the three arrays are aligned: they have the same [N], with
    [N * evals_per_config] the number of rows read, the same [i =
    evals_per_config], one entry per selected column, and their entries
    fill these shapes; each list of names has one name per selected
    column. *)
Theorem reader_arrays_aligned {A D : Type} `{EqDecision D} (astype : list D -> D -> A -> A)
    (df : DataFrame A D) (fi oi mi : list Z)
    (e : Z) X Y M fn tn mn :
  wf_frame df ->
  read_hpolib_benchmark_data astype df fi oi mi e = Ok (X, Y, M, fn, tn, mn) ->
  (0 < e)%Z /\
  aligned (X, Y, M) (length (values df) / Z.to_nat e) (Z.to_nat e)
    (length fi) (length oi) (length mi) /\
  (length (values df) / Z.to_nat e * Z.to_nat e = length (values df))%nat /\
  (0 < length fi)%nat /\ (0 < length oi)%nat /\ (0 < length mi)%nat /\
  length fn = length fi /\ length tn = length oi /\ length mn = length mi.
Proof.
  intros Hwf H.
  destruct (reader_Ok_grouped astype df fi oi mi e X Y M fn tn mn Hwf H)
    as ((He & Hf & Ho & Hm & Hmod) & Hfi & Hoi & Hmi & -> & -> & -> & -> & -> & ->).
  split; [done|]. split; [apply grouped_aligned; (done || lia)|].
  split.
  { pose proof (Nat.div_exact (length (values df)) (Z.to_nat e) ltac:(lia)) as Hx.
    apply Hx in Hmod. lia. }
  repeat split; try (by apply length_select_cells).
  - destruct fi; [done|simpl; lia].
  - destruct oi; [done|simpl; lia].
  - destruct mi; [done|simpl; lia].
Qed.

Lemma reader_arrays_aligned_witness :
  match read_hpolib_benchmark_data toy_astype (sample_frame 6) [0%Z; 1%Z] [2%Z] [(-1)%Z] 3 with
  | Ok (X, Y, M, fn, tn, mn) =>
      (0 < 3)%Z /\
      aligned (X, Y, M) (length (values (sample_frame 6)) / Z.to_nat 3) (Z.to_nat 3)
        (length [0%Z; 1%Z]) (length [2%Z]) (length [(-1)%Z]) /\
      (length (values (sample_frame 6)) / Z.to_nat 3 * Z.to_nat 3
       = length (values (sample_frame 6)))%nat /\
      (0 < length [0%Z; 1%Z])%nat /\ (0 < length [2%Z])%nat /\
      (0 < length [(-1)%Z])%nat /\
      length fn = length [0%Z; 1%Z] /\ length tn = length [2%Z] /\
      length mn = length [(-1)%Z]
  | Raise _ => False
  end.
Proof.
  destruct (read_hpolib_benchmark_data toy_astype (sample_frame 6) [0%Z; 1%Z] [2%Z] [(-1)%Z] 3)
    as [[[[[[X Y] M] fn] tn] mn]|err] eqn:H.
  - apply (reader_arrays_aligned toy_astype (sample_frame 6) [0%Z; 1%Z] [2%Z] [(-1)%Z] 3
             X Y M fn tn mn); [prove_wf_frame|exact H].
  - vm_compute in H. discriminate H.
Defined.

(** X3.  Whenever the reader returns, evaluation [j] of configuration [n]
    is row [n * evals_per_config + j] of the frame: in each of the three
    arrays it holds, in the order of the index list, the cells of that row
    at the selected columns, as they are when the selected columns share a
    dtype and cast to the common dtype otherwise; entry [c] of each list of
    names is the name of the column that entry [c] of an evaluation is read
    from. *)
Theorem reader_groups_consecutive_rows {A D : Type} `{EqDecision D}
    (astype : list D -> D -> A -> A) (df : DataFrame A D)
    (fi oi mi : list Z) (e : Z) X Y M fn tn mn :
  wf_frame df ->
  read_hpolib_benchmark_data astype df fi oi mi e = Ok (X, Y, M, fn, tn, mn) ->
  (forall n j row,
     (j < Z.to_nat e)%nat -> values df !! (n * Z.to_nat e + j)%nat = Some row ->
     evaluation_of X n j (selected_cells astype df fi row) /\
     evaluation_of Y n j (selected_cells astype df oi row) /\
     evaluation_of M n j (selected_cells astype df mi row)) /\
  (forall row idx c k,
     row ∈ values df -> idx = fi \/ idx = oi \/ idx = mi -> idx !! c = Some k ->
     exists d x,
       dtypes df !! position (length (columns df)) k = Some d /\
       row !! position (length (columns df)) k = Some x /\
       selected_cells astype df idx row !! c
       = Some (if same_dtype (select_cells (dtypes df) idx) then x
               else astype (select_cells (dtypes df) idx) d x) /\
       select_cells (columns df) idx !! c
       = columns df !! position (length (columns df)) k) /\
  (forall row idx,
     same_dtype (select_cells (dtypes df) idx) = true ->
     selected_cells astype df idx row = select_cells row idx).
Proof.
  intros Hwf H.
  destruct (reader_Ok_grouped astype df fi oi mi e X Y M fn tn mn Hwf H)
    as ((He & Hf & Ho & Hm & Hmod) & Hfi & Hoi & Hmi & -> & -> & -> & -> & -> & ->).
  split; [|split].
  - intros n j row Hj Hrow.
    repeat split; apply grouped_evaluation; (done || lia).
  - intros row idx c k Hrow Hidx Hc.
    assert (Hb : in_bounds (length (columns df)) idx = true)
      by (by destruct Hidx as [->|[->| ->]]).
    destruct (selected_cells_lookup astype df idx row c k Hwf Hb Hrow Hc)
      as (d & x & Hd & Hx & Hsel).
    destruct (select_cells_lookup (columns df) idx c k) as [H3 _]; [done..|].
    by exists d, x.
  - intros row idx. apply selected_cells_same_dtype.
Qed.

Lemma reader_groups_consecutive_rows_witness :
  match read_hpolib_benchmark_data toy_astype (sample_frame 6) [0%Z; 2%Z] [2%Z] [(-1)%Z] 3 with
  | Ok (X, Y, M, fn, tn, mn) =>
      (forall n j row,
         (j < Z.to_nat 3)%nat ->
         values (sample_frame 6) !! (n * Z.to_nat 3 + j)%nat = Some row ->
         evaluation_of X n j (selected_cells toy_astype (sample_frame 6) [0%Z; 2%Z] row) /\
         evaluation_of Y n j (selected_cells toy_astype (sample_frame 6) [2%Z] row) /\
         evaluation_of M n j (selected_cells toy_astype (sample_frame 6) [(-1)%Z] row)) /\
      (forall row idx c k,
         row ∈ values (sample_frame 6) ->
         idx = [0%Z; 2%Z] \/ idx = [2%Z] \/ idx = [(-1)%Z] -> idx !! c = Some k ->
         exists d x,
           dtypes (sample_frame 6) !! position (length (columns (sample_frame 6))) k
           = Some d /\
           row !! position (length (columns (sample_frame 6))) k = Some x /\
           selected_cells toy_astype (sample_frame 6) idx row !! c
           = Some (if same_dtype (select_cells (dtypes (sample_frame 6)) idx) then x
                   else toy_astype (select_cells (dtypes (sample_frame 6)) idx) d x) /\
           select_cells (columns (sample_frame 6)) idx !! c
           = columns (sample_frame 6) !! position (length (columns (sample_frame 6))) k) /\
      (forall row idx,
         same_dtype (select_cells (dtypes (sample_frame 6)) idx) = true ->
         selected_cells toy_astype (sample_frame 6) idx row = select_cells row idx)
  | Raise _ => False
  end.
Proof.
  destruct (read_hpolib_benchmark_data toy_astype (sample_frame 6) [0%Z; 2%Z] [2%Z] [(-1)%Z] 3)
    as [[[[[[X Y] M] fn] tn] mn]|err] eqn:H.
  - apply (reader_groups_consecutive_rows toy_astype (sample_frame 6)
             [0%Z; 2%Z] [2%Z] [(-1)%Z] 3 X Y M fn tn mn); [prove_wf_frame|exact H].
  - vm_compute in H. discriminate H.
Defined.

(** X4.  An index outside the columns, in any of the three lists, makes
    the reader fail: it never returns arrays then, and when the index is
    among the feature indices the failure is the index error of the column
    selection, before anything is reshaped. *)
Theorem reader_rejects_out_of_bounds {A D : Type} `{EqDecision D} (astype : list D -> D -> A -> A)
    (df : DataFrame A D)
    (fi oi mi : list Z) (e : Z) :
  (in_bounds (length (columns df)) fi = false ->
   exists msg, read_hpolib_benchmark_data astype df fi oi mi e = Raise (IndexError msg)) /\
  (in_bounds (length (columns df)) fi = false \/
   in_bounds (length (columns df)) oi = false \/
   in_bounds (length (columns df)) mi = false ->
   forall v, read_hpolib_benchmark_data astype df fi oi mi e <> Ok v).
Proof.
  split.
  - intros Hb. unfold read_hpolib_benchmark_data.
    destruct (iloc_columns_out_of_bounds astype df fi Hb) as [msg ->]. by exists msg.
  - intros Hb v H. apply reader_Ok_inv in H as (Hfi & Hoi & Hmi).
    destruct Hb as [Hb|[Hb|Hb]]; congruence.
Qed.

(** ** Where the rows of the train and test arrays come from *)

Section RowFacts.
Context {A : Type}.
Variable mt19937 : Z -> nat -> N.
Implicit Types (X y meta : ndarray3 A) (self : Data A).

Lemma getitem_rows_Ok_inv (a sa : ndarray3 A) ind :
  getitem_rows a ind = Ok sa ->
  Forall (fun k => k < (shape3 a).1.1)%nat ind /\
  data3 sa = map (fun k => default [] (data3 a !! k)) ind.
Proof.
  unfold getitem_rows. destruct (shape3 a) as [[n i] d]. simpl.
  destruct (forallb _ ind) eqn:Hb; [|done].
  intros [= <-]. split; [|done].
  apply Forall_forall. intros k Hk.
  rewrite forallb_forall in Hb. by apply list_elem_of_In, Hb, Nat.ltb_lt in Hk.
Qed.

(** An evaluation of row [m] of [a[ind, :, :]] is that evaluation of row
    [ind[m]] of [a]. *)
Lemma evaluation_of_getitem (a sa : ndarray3 A) ind m k c v :
  wf3 a -> getitem_rows a ind = Ok sa -> ind !! m = Some k ->
  evaluation_of sa m c v -> evaluation_of a k c v.
Proof.
  unfold wf3. intros Hwf Hsa Hk (row & Hrow & Hv).
  apply getitem_rows_Ok_inv in Hsa as [Hall Hd].
  destruct (shape3 a) as [[n i] d]. destruct Hwf as [Hlen _]. simpl in Hall.
  eapply Forall_forall in Hall; [|by eapply list_elem_of_lookup_2].
  destruct (lookup_lt_is_Some_2 (data3 a) k) as [row' Hrow']; [lia|].
  rewrite Hd, list_lookup_fmap, Hk in Hrow. simpl in Hrow.
  rewrite Hrow' in Hrow. injection Hrow as <-. by exists row'.
Qed.

Lemma getitem_dataset_Ok_inv (data sub : ndarray3 A * ndarray3 A * ndarray3 A) ind :
  getitem_dataset data ind = Ok sub ->
  getitem_rows data.1.1 ind = Ok sub.1.1 /\
  getitem_rows data.1.2 ind = Ok sub.1.2 /\
  getitem_rows data.2 ind = Ok sub.2.
Proof.
  destruct data as [[X y] meta]. unfold getitem_dataset. intros H.
  apply bind_Ok in H as (sX & HX & H). apply bind_Ok in H as (sy & Hy & H).
  apply bind_Ok in H as (sm & Hm & H). by injection H as <-.
Qed.

(** One draw of a live evaluation-subset generator over the train set
    [data[tr]]: row [m] of what it yields is one evaluation of
    configuration [tr[m]] of [data]. *)
Lemma resample_rows os self_rng (g : eval_gen A)
    (data train_set : ndarray3 A * ndarray3 A * ndarray3 A) tr n i Dx Dy Dz :
  aligned data n i Dx Dy Dz -> (0 < i)%nat ->
  getitem_dataset data tr = Ok train_set ->
  aligned train_set (length tr) i Dx Dy Dz ->
  eval_gen_for train_set g ->
  exists rX rY rM g' s',
    eval_next mt19937 os self_rng g = Ok ((rX, rY, rM), g', s') /\
    eval_gen_for train_set g' /\
    length (data2 rX) = length tr /\ length (data2 rY) = length tr /\
    length (data2 rM) = length tr /\
    forall m k, tr !! m = Some k ->
      exists c vx vy vm,
        data2 rX !! m = Some vx /\ evaluation_of data.1.1 k c vx /\
        data2 rY !! m = Some vy /\ evaluation_of data.1.2 k c vy /\
        data2 rM !! m = Some vm /\ evaluation_of data.2 k c vm.
Proof.
  intros Hal Hpos Hget Haltr Hg.
  destruct data as [[X y] meta], train_set as [[tX tY] tM].
  destruct (eval_next_ok mt19937 os self_rng g tX tY tM (length tr) i Dx Dy Dz
              Haltr Hpos Hg) as (choices & g' & s' & Hnext & Hg' & Hlen & Hall).
  apply getitem_dataset_Ok_inv in Hget as (HgX & Hgy & Hgm). simpl in HgX, Hgy, Hgm.
  destruct Hal as (_ & _ & _ & HwX & Hwy & Hwm).
  destruct Haltr as (HsX & Hsy & Hsm & HwtX & HwtY & HwtM).
  pose proof HwtX as HlX. pose proof HwtY as HlY. pose proof HwtM as HlM.
  unfold wf3 in HlX, HlY, HlM. rewrite HsX in HlX. rewrite Hsy in HlY. rewrite Hsm in HlM.
  eexists _, _, _, g', s'. split; [exact Hnext|]. split; [done|]. simpl.
  split; [rewrite length_zip_with; lia|].
  split; [rewrite length_zip_with; lia|].
  split; [rewrite length_zip_with; lia|].
  intros m k Hk.
  assert (Hm : (m < length tr)%nat) by (by eapply lookup_lt_Some).
  destruct (picked_row tX choices (length tr) i Dx m HwtX HsX Hlen Hall Hm)
    as (c & vx & Hc & _ & Hvx & Hex).
  destruct (picked_row tY choices (length tr) i Dy m HwtY Hsy Hlen Hall Hm)
    as (c' & vy & Hc' & _ & Hvy & Hey).
  destruct (picked_row tM choices (length tr) i Dz m HwtM Hsm Hlen Hall Hm)
    as (c'' & vm & Hc'' & _ & Hvm & Hem).
  assert (c' = c) as -> by congruence.
  assert (c'' = c) as -> by congruence.
  exists c, vx, vy, vm. simpl.
  repeat split; try done; by eapply evaluation_of_getitem.
Qed.

(** One [update] in full-iteration mode: a fresh partition of the
    configurations, the train rows taken from one part and the test arrays
    being the other part. *)
Lemma update_full_iteration_rows os self
    (data : ndarray3 A * ndarray3 A * ndarray3 A) n i Dx Dy Dz size :
  aligned data n i Dx Dy Dz -> (0 < n)%nat -> (0 < i)%nat ->
  (0 <= size <= Z.of_nat n)%Z ->
  full_iteration data size self ->
  exists self' tr te,
    update mt19937 os self = Ok self' /\
    full_iteration data size self' /\
    tr ++ te ≡ₚ seq 0 n /\ length tr = Z.to_nat size /\
    train_rows_from data tr self' /\ test_rows_from data te self'.
Proof.
  intros Hal HN Hpos Hsz (Hd & He & c & Hc & Hg).
  unfold update. rewrite He, Hc, Hd.
  destruct (conf_next_ok mt19937 os (rng self) c data n i Dx Dy Dz size false Hal HN Hsz Hg)
    as (tr & te & train_set & [[teX teY] teM] & c' & s' & Hnext & Hg' & Hlen & Hp
        & _ & Htr & Hte & Haltr & _).
  rewrite Hnext. cbn [bind].
  destruct (resample_rows os s'
              (_generate_evaluation_subsets train_set (rng_obj alias_self))
              data train_set tr n i Dx Dy Dz Hal Hpos Htr Haltr)
    as (rX & rY & rM & g'' & s'' & Hev & _ & HlX & HlY & HlM & Hrows); [done|].
  rewrite Hev. cbn [bind].
  eexists _, tr, te. split; [done|].
  split; [split; [done|]; split; [done|]; by exists c'|].
  split; [done|]. split; [done|]. split.
  - destruct data as [[X y] meta]. exists rX, rY, rM. cbn. by repeat split.
  - by exists teX, teY, teM.
Qed.

Lemma updates_full_iteration_rows oss : forall self
    (data : ndarray3 A * ndarray3 A * ndarray3 A) n i Dx Dy Dz size,
  aligned data n i Dx Dy Dz -> (0 < n)%nat -> (0 < i)%nat ->
  (0 <= size <= Z.of_nat n)%Z ->
  full_iteration data size self ->
  oss <> [] ->
  exists self' tr te,
    updates mt19937 oss self = Ok self' /\
    tr ++ te ≡ₚ seq 0 n /\ length tr = Z.to_nat size /\
    train_rows_from data tr self' /\ test_rows_from data te self'.
Proof.
  induction oss as [|os oss IH];
    intros self data n i Dx Dy Dz size Hal HN Hpos Hsz Hfi Hne; [done|].
  destruct (update_full_iteration_rows os self data n i Dx Dy Dz size Hal HN Hpos Hsz Hfi)
    as (self1 & tr & te & Hu & Hfi1 & Hp & Hlen & Htr & Hte).
  cbn [updates]. rewrite Hu. cbn [bind].
  destruct oss as [|os' oss'].
  - exists self1, tr, te. by repeat split.
  - by apply (IH self1 data n i Dx Dy Dz size).
Qed.

(** Updates with an evaluation-subset generator over the train set
    [data[tr]] in place: they all succeed, and the train rows always come
    from the configurations [tr]. *)
Lemma updates_eval_rows oss : forall self (g : eval_gen A)
    (data train_set : ndarray3 A * ndarray3 A * ndarray3 A) tr n i Dx Dy Dz,
  aligned data n i Dx Dy Dz -> (0 < i)%nat ->
  getitem_dataset data tr = Ok train_set ->
  aligned train_set (length tr) i Dx Dy Dz ->
  _eval_splits self = Some g -> eval_gen_for train_set g ->
  exists self',
    updates mt19937 oss self = Ok self' /\
    (oss <> [] -> train_rows_from data tr self').
Proof.
  induction oss as [|os oss IH];
    intros self g data train_set tr n i Dx Dy Dz Hal Hpos Hget Haltr He Hg.
  - exists self. split; [done|]. intros Hne. by destruct Hne.
  - destruct (resample_rows os (rng self) g data train_set tr n i Dx Dy Dz
                Hal Hpos Hget Haltr Hg)
      as (rX & rY & rM & g' & s' & Hev & Hg' & HlX & HlY & HlM & Hrows).
    cbn [updates]. unfold update at 1. rewrite He, Hev. cbn [bind].
    match goal with
    | |- context [updates _ oss ?self1] =>
        destruct (IH self1 g' data train_set tr n i Dx Dy Dz Hal Hpos Hget Haltr
                    eq_refl Hg') as (self' & Hus & Hrows')
    end.
    exists self'. split; [done|]. intros _.
    destruct oss as [|os' oss']; [|by apply Hrows'].
    cbn in Hus. injection Hus as <-.
    destruct data as [[X y] meta]. exists rX, rY, rM. cbn. by repeat split.
Qed.

End RowFacts.

(** ** The constructor as a whole *)

Section WholeConstructor.
Context {A D : Type} `{EqDecision D} (astype : list D -> D -> A -> A).
Variable mt19937 : Z -> nat -> N.
Implicit Types (X y meta : ndarray3 A) (self : Data A).

Lemma wf3_rows X n i d :
  wf3 X -> shape3 X = (n, i, d) ->
  length (concat (data3 X)) = (n * i)%nat /\
  Forall (fun v => length v = d) (concat (data3 X)).
Proof.
  unfold wf3. intros Hwf Hs. rewrite Hs in Hwf. destruct Hwf as [Hlen Hrows].
  split.
  - rewrite (length_concat_uniform _ i), Hlen; [done|].
    eapply Forall_impl; [exact Hrows|]. by intros r [? _].
  - apply Forall_concat. eapply Forall_impl; [exact Hrows|]. by intros r [_ ?].
Qed.

Lemma reshape_rows_ok X n i d :
  wf3 X -> shape3 X = (n, i, d) -> (0 < d)%nat ->
  reshape_rows X d = Ok (mk2 ((n * i)%nat, d) (concat (data3 X))) /\
  wf2 (mk2 ((n * i)%nat, d) (concat (data3 X))) /\
  length (concat (concat (data3 X))) = (n * i * d)%nat.
Proof.
  intros Hwf Hs Hd. destruct (wf3_rows X n i d Hwf Hs) as [Hlen Hrows].
  unfold reshape_rows. rewrite Hs.
  replace (d =? 0) with false by (symmetry; apply Nat.eqb_neq; lia).
  rewrite Nat.Div0.mod_mul, Nat.div_mul by lia. simpl.
  split; [|split].
  - do 2 f_equal. rewrite <-Hlen. by apply chunks_concat.
  - by split.
  - by rewrite (length_concat_uniform _ d), Hlen.
Qed.

Lemma regroup_wf (buf : list A) n i d :
  length buf = (n * i * d)%nat -> wf3 (mk3 (n, i, d) (regroup buf n i d)).
Proof.
  intros Hlen. apply reshape_infer_wf.
  - apply length_chunks.
  - apply chunks_Forall_length. lia.
Qed.

(** A callable that keeps the number of entries leaves the shape of the
    features as it is. *)
Lemma apply_emukit_map_ok emukit_map_func X n i d :
  wf3 X -> shape3 X = (n, i, d) -> (0 < d)%nat ->
  match emukit_map_func with Some f => keeps_size f | None => True end ->
  exists X', apply_emukit_map emukit_map_func X = Ok X' /\
             shape3 X' = (n, i, d) /\ wf3 X'.
Proof.
  intros Hwf Hs Hd Hf. destruct emukit_map_func as [f|]; [|by exists X].
  destruct (reshape_rows_ok X n i d Hwf Hs Hd) as (Hr & Hwr & Hlen).
  destruct (Hf _ Hwr) as (buf & Hbuf & Hlb). simpl in Hlb. rewrite Hlen in Hlb.
  unfold apply_emukit_map. rewrite Hs, Hr. cbn [bind]. rewrite Hbuf. cbn [bind].
  rewrite Hlb, Nat.eqb_refl. eexists. split; [done|]. split; [done|].
  by apply regroup_wf.
Qed.

Lemma apply_emukit_map_bad_size (f : ndarray2 A -> result (list A)) X n i d :
  wf3 X -> shape3 X = (n, i, d) -> (0 < d)%nat ->
  (forall a, exists buf, f a = Ok buf /\ length buf <> (n * i * d)%nat) ->
  exists msg, apply_emukit_map (Some f) X = Raise (ValueError msg).
Proof.
  intros Hwf Hs Hd Hf.
  destruct (reshape_rows_ok X n i d Hwf Hs Hd) as (Hr & _ & _).
  destruct (Hf (mk2 ((n * i)%nat, d) (concat (data3 X)))) as (buf & Hbuf & Hlb).
  unfold apply_emukit_map. rewrite Hs, Hr. cbn [bind]. rewrite Hbuf. cbn [bind].
  apply Nat.eqb_neq in Hlb. rewrite Hlb. by eexists.
Qed.

Lemma Data_new_unfold os (df : DataFrame A D) fi oi mi e ic ie ef rng_arg m
    X y meta fn tn mn :
  read_hpolib_benchmark_data astype df fi oi mi e = Ok (X, y, meta, fn, tn, mn) ->
  Data_new mt19937 astype os df fi oi mi e ic ie ef rng_arg m
  = let* X' := apply_emukit_map ef X in
    Data_init mt19937 os (X', y, meta) ic ie rng_arg m.
Proof. intros H. unfold Data_new. by rewrite H. Qed.

(** What a successful construction in a static mode has drawn. *)
Lemma Data_init_static_rows os (data : ndarray3 A * ndarray3 A * ndarray3 A)
    ie rng_arg m self n i Dx Dy Dz :
  Data_init mt19937 os data false ie rng_arg m = Ok self ->
  aligned data n i Dx Dy Dz ->
  exists tr te train_set,
    tr ++ te ≡ₚ seq 0 n /\ length tr = Z.to_nat (m * Z.of_nat Dx) /\
    getitem_dataset data tr = Ok train_set /\
    aligned train_set (length tr) i Dx Dy Dz /\
    test_rows_from data te self /\
    if ie then
      _eval_splits self
      = Some (_generate_evaluation_subsets train_set (rng_obj alias_self))
    else
      _eval_splits self = None /\ _conf_splits self = None /\
      exists trX trY trM g' s2 s3,
        eval_next mt19937 os s2
          (_generate_evaluation_subsets train_set (rng_obj alias_self))
        = Ok ((trX, trY, trM), g', s3) /\
        (train_X self, train_Y self, train_meta self)
        = (holds trX, holds trY, holds trM).
Proof.
  destruct data as [[X y] meta]. intros H Hal.
  pose proof (Data_init_static_size mt19937 os X y meta ie rng_arg m self H) as Hsz.
  pose proof (Data_init_static_nonempty mt19937 os X y meta ie rng_arg m self H) as HN.
  destruct (Data_init_static_inv mt19937 os X y meta ie rng_arg m self H)
    as (s0 & train_set & test_set & o & c' & s2 & _ & Hnext & _ & Hc & Hte & Hie).
  pose proof Hal as (HsX & _).
  rewrite HsX in Hsz, Hnext, HN. cbn [fst snd] in Hsz, Hnext, HN.
  pose proof (constructor_conf_gen X y meta m s0) as Hg.
  rewrite HsX in Hg. cbn [fst snd] in Hg.
  destruct (conf_next_ok mt19937 os (randint s0 0 1000000000).2 _ (X, y, meta)
              n i Dx Dy Dz _ false Hal HN Hsz Hg)
    as (tr & te & train_set' & [[teX teY] teM] & c'' & s' & Hnext' & _ & Hlen & Hp
        & _ & Htr & Htest & Haltr & _).
  rewrite Hnext' in Hnext. injection Hnext as <- <- _ _ <-.
  exists tr, te, train_set'.
  split; [done|]. split; [done|]. split; [done|]. split; [done|].
  split; [by exists teX, teY, teM|].
  destruct ie.
  - by destruct Hie as (_ & He & _).
  - destruct Hie as (He & trX & trY & trM & g' & s3 & Hev & Htrain).
    split; [done|]. split; [done|]. by exists trX, trY, trM, g', s', s3.
Qed.

(** On aligned arrays, with [N > 0], [i > 0] and a training size within
    [0, N], construction succeeds in every mode and so does every sequence
    of updates. *)
Lemma Data_init_runs os (data : ndarray3 A * ndarray3 A * ndarray3 A)
    ic ie rng_arg m n i Dx Dy Dz :
  aligned data n i Dx Dy Dz -> (0 < n)%nat -> (0 < i)%nat -> valid_rng rng_arg ->
  (0 <= m * Z.of_nat Dx <= Z.of_nat n)%Z ->
  exists self,
    Data_init mt19937 os data ic ie rng_arg m = Ok self /\
    forall oss, exists self', updates mt19937 oss self = Ok self'.
Proof.
  intros Hal HN Hpos Hv Hsz. destruct ic.
  - destruct data as [[X y] meta]. pose proof Hal as (HsX & _).
    destruct (resolve_rng_valid mt19937 id os rng_arg Hv) as [s0 Hr].
    eexists. split; [by apply Data_init_full|]. intros oss.
    match goal with
    | |- context [updates _ _ ?self0] =>
        destruct (updates_full_iteration mt19937 oss self0 (X, y, meta) n i Dx Dy Dz
                    (m * Z.of_nat Dx)%Z Hal Hpos HN Hsz) as (self & Hus & _)
    end; [|by exists self].
    split; [done|]. split; [done|].
    eexists. split; [done|]. cbn. rewrite HsX. cbn.
    repeat split; apply (@randint_seed_valid rng_ref s0).
  - destruct (Data_init_static_ok mt19937 os data ie rng_arg m n i Dx Dy Dz
                Hal Hpos HN Hv Hsz) as [self H].
    exists self. split; [done|]. intros oss.
    destruct (Data_init_static_rows os data ie rng_arg m self n i Dx Dy Dz H Hal)
      as (tr & te & train_set & _ & _ & Hget & Haltr & _ & Hie).
    destruct ie.
    + destruct (updates_eval_rows mt19937 oss self _ data train_set tr n i Dx Dy Dz
                  Hal Hpos Hget Haltr Hie) as (self' & Hus & _); [done|].
      by exists self'.
    + destruct Hie as (He & Hc & _). exists self. by apply updates_static.
Qed.

(** In full-iteration mode with a training size outside [0, N], every
    [update] fails with the value error of [choice]. *)
Lemma update_full_iteration_out_of_range os self
    (data : ndarray3 A * ndarray3 A * ndarray3 A) size :
  (size < 0 \/ Z.of_nat (shape3 data.1.1).1.1 < size)%Z ->
  full_iteration data size self ->
  exists msg, update mt19937 os self = Raise (ValueError msg).
Proof.
  intros Hsz (Hd & He & c & Hc & Hg).
  destruct (conf_next_out_of_range mt19937 os (rng self) c data size false Hsz Hg)
    as [msg Hm].
  exists msg. apply (update_conf_raise mt19937 os self c); [done..|].
  by rewrite Hd.
Qed.

(** In full-iteration mode on arrays without configurations, a draw of
    size 0 fails with an index error. *)
Lemma update_full_iteration_empty os self
    (data : ndarray3 A * ndarray3 A * ndarray3 A) size :
  (shape3 data.1.1).1.1 = 0%nat -> size = 0%Z ->
  full_iteration data size self ->
  exists msg, update mt19937 os self = Raise (IndexError msg).
Proof.
  intros HN -> (Hd & He & c & Hc & Hg).
  destruct (conf_next_empty mt19937 os (rng self) c data false HN Hg) as [msg Hm].
  exists msg. apply (update_conf_raise mt19937 os self c); [done..|].
  by rewrite Hd.
Qed.

End WholeConstructor.

Section ReaderToPartitioner.
Context {A D : Type} `{EqDecision D} (astype : list D -> D -> A -> A).
Variable mt19937 : Z -> nat -> N.

Lemma reader_then_emukit (df : DataFrame A D) fi oi mi (e : Z) ef X y meta fn tn mn :
  wf_frame df ->
  read_hpolib_benchmark_data astype df fi oi mi e = Ok (X, y, meta, fn, tn, mn) ->
  match ef with Some f => keeps_size f | None => True end ->
  (0 < Z.to_nat e)%nat /\
  shape3 X = ((length (values df) / Z.to_nat e)%nat, Z.to_nat e, length fi) /\
  exists X',
    apply_emukit_map ef X = Ok X' /\
    aligned (X', y, meta) (length (values df) / Z.to_nat e) (Z.to_nat e)
      (length fi) (length oi) (length mi).
Proof.
  intros Hwf H Hef.
  destruct (reader_Ok_grouped astype df fi oi mi e X y meta fn tn mn Hwf H)
    as ((He & Hf & Ho & Hm & Hmod) & Hfi & Hoi & Hmi & -> & -> & -> & _).
  destruct (grouped_aligned astype df fi oi mi (Z.to_nat e) Hwf Hfi Hoi Hmi ltac:(lia) Hmod)
    as (HsX & Hsy & Hsm & HwX & Hwy & Hwm).
  split; [lia|]. split; [done|].
  assert (Hd : (0 < length fi)%nat) by (destruct fi; [by destruct Hf|simpl; lia]).
  destruct (apply_emukit_map_ok ef (grouped astype df fi (Z.to_nat e)) _ _ _ HwX HsX Hd Hef)
    as (X' & HX' & HsX' & HwX').
  exists X'. split; [done|]. unfold aligned.
  split; [done|]. split; [done|]. split; [done|]. split; [done|]. by split.
Qed.

Lemma Data_init_static_out_of_range os (X y meta : ndarray3 A) ie rng_arg m :
  valid_rng rng_arg ->
  (m * Z.of_nat (shape3 X).2 < 0 \/
   Z.of_nat (shape3 X).1.1 < m * Z.of_nat (shape3 X).2)%Z ->
  exists msg,
    Data_init mt19937 os (X, y, meta) false ie rng_arg m = Raise (ValueError msg).
Proof.
  intros Hv Hsz.
  destruct (resolve_rng_valid mt19937 id os rng_arg Hv) as [s0 Hr].
  rewrite (Data_init_static mt19937 os X y meta ie rng_arg m s0 Hr).
  destruct (conf_next_out_of_range mt19937 os (randint s0 0 1000000000).2 _
              (X, y, meta) _ false Hsz (constructor_conf_gen X y meta m s0))
    as [msg Hm].
  rewrite Hm. by exists msg.
Qed.

(** On arrays aligned with [i > 0], neither construction nor any update
    fails on the shape assertions, whatever the multiplier. *)
Lemma Data_init_static_empty os (X y meta : ndarray3 A) ie rng_arg m :
  valid_rng rng_arg ->
  (shape3 X).1.1 = 0%nat -> (m * Z.of_nat (shape3 X).2 = 0)%Z ->
  exists msg,
    Data_init mt19937 os (X, y, meta) false ie rng_arg m = Raise (IndexError msg).
Proof.
  intros Hv HN Hsz.
  destruct (resolve_rng_valid mt19937 id os rng_arg Hv) as [s0 Hr].
  rewrite (Data_init_static mt19937 os X y meta ie rng_arg m s0 Hr).
  pose proof (constructor_conf_gen X y meta m s0) as Hg.
  rewrite Hsz in *.
  destruct (conf_next_empty mt19937 os (randint s0 0 1000000000).2 _
              (X, y, meta) false HN Hg) as [msg Hm].
  rewrite Hm. by exists msg.
Qed.

(** On arrays aligned with [i > 0], every construction and every sequence
    of updates either succeeds or fails with a value error or an index
    error. *)
Lemma aligned_only_draw_errors os (data : ndarray3 A * ndarray3 A * ndarray3 A)
    ic ie rng_arg m n i Dx Dy Dz :
  aligned data n i Dx Dy Dz -> (0 < i)%nat -> valid_rng rng_arg ->
  let draw_error (e : exn) :=
    (exists msg, e = ValueError msg) \/ (exists msg, e = IndexError msg) in
  (forall e, Data_init mt19937 os data ic ie rng_arg m = Raise e -> draw_error e) /\
  (forall self, Data_init mt19937 os data ic ie rng_arg m = Ok self ->
     forall oss e, updates mt19937 oss self = Raise e -> draw_error e).
Proof.
  intros Hal Hpos Hv draw_error.
  destruct (decide ((0 < n)%nat /\ (0 <= m * Z.of_nat Dx <= Z.of_nat n)%Z))
    as [[HN Hsz]|Hsz].
  - destruct (Data_init_runs mt19937 os data ic ie rng_arg m n i Dx Dy Dz
                Hal HN Hpos Hv Hsz) as (self & H & Hus).
    split; [by rewrite H|].
    intros self' H' oss e. rewrite H in H'. injection H' as <-.
    destruct (Hus oss) as [self' ->]. done.
  - destruct data as [[X y] meta]. pose proof Hal as (HsX & _).
    assert (Hout : (m * Z.of_nat (shape3 X).2 < 0 \/
                    Z.of_nat (shape3 X).1.1 < m * Z.of_nat (shape3 X).2)%Z \/
                   ((shape3 X).1.1 = 0%nat /\ (m * Z.of_nat (shape3 X).2 = 0)%Z))
      by (rewrite HsX; cbn [fst snd]; lia).
    destruct ic.
    + destruct (resolve_rng_valid mt19937 id os rng_arg Hv) as [s0 Hr].
      pose proof (Data_init_full mt19937 os X y meta ie rng_arg m s0 Hr) as Hfull.
      split; [by rewrite Hfull|].
      intros self H oss e. rewrite Hfull in H. injection H as <-.
      destruct oss as [|os' oss]; [done|].
      match goal with
      | |- updates _ _ ?self0 = _ -> _ =>
          assert (Hfi : full_iteration (X, y, meta) (m * Z.of_nat (shape3 X).2)%Z self0)
      end.
      { split; [done|]. split; [done|]. eexists. split; [done|].
        apply constructor_conf_gen. }
      destruct Hout as [Hout|[HN Hz]].
      * destruct (update_full_iteration_out_of_range mt19937 os' _ (X, y, meta)
                    _ Hout Hfi) as [msg' Hm].
        cbn [updates]. rewrite Hm. intros [= <-]. left. by exists msg'.
      * destruct (update_full_iteration_empty mt19937 os' _ (X, y, meta) _ HN Hz Hfi)
          as [msg' Hm].
        cbn [updates]. rewrite Hm. intros [= <-]. right. by exists msg'.
    + destruct Hout as [Hout|[HN Hz]].
      * destruct (Data_init_static_out_of_range os X y meta ie rng_arg m Hv Hout)
          as [msg' Hm].
        split; [|intros self H; by rewrite Hm in H].
        intros e. rewrite Hm. intros [= <-]. left. by exists msg'.
      * destruct (Data_init_static_empty os X y meta ie rng_arg m Hv HN Hz)
          as [msg' Hm].
        split; [|intros self H; by rewrite Hm in H].
        intros e. rewrite Hm. intros [= <-]. right. by exists msg'.
Qed.

(** On arrays aligned with [i > 0], neither construction nor any update
    fails on the shape assertions, whatever the multiplier. *)
Lemma aligned_never_assertion os (data : ndarray3 A * ndarray3 A * ndarray3 A)
    ic ie rng_arg m n i Dx Dy Dz :
  aligned data n i Dx Dy Dz -> (0 < i)%nat -> valid_rng rng_arg ->
  (forall msg a b,
     Data_init mt19937 os data ic ie rng_arg m <> Raise (AssertionError msg a b)) /\
  (forall self, Data_init mt19937 os data ic ie rng_arg m = Ok self ->
     forall oss msg a b, updates mt19937 oss self <> Raise (AssertionError msg a b)).
Proof.
  intros Hal Hpos Hv.
  destruct (aligned_only_draw_errors os data ic ie rng_arg m n i Dx Dy Dz Hal Hpos Hv)
    as [Hinit Hupd].
  split.
  - intros msg a b H. by destruct (Hinit _ H) as [[? ?]|[? ?]].
  - intros self H oss msg a b Hu. by destruct (Hupd self H oss _ Hu) as [[? ?]|[? ?]].
Qed.

End ReaderToPartitioner.

(** X5.  In full-iteration mode, on aligned arrays with at least one
    configuration ([N > 0]), with [i > 0] and a training size
    [Nt = train_set_multiplier * Dx] within [0, N]: after
    every [update] there are [Nt] train configurations [tr] and test
    configurations [te], together a permutation of [0, N), such that the
    test arrays are the rows [te] of the full arrays with all their
    evaluations, and row [m] of the three train arrays is one and the same
    evaluation of configuration [tr[m]]: no configuration feeds both the
    train and the test arrays. *)
Theorem full_iteration_partitions_rows {A : Type} (mt19937 : Z -> nat -> N) os
    (data : ndarray3 A * ndarray3 A * ndarray3 A) (ie : bool)
    (rng_arg : RNG_Input RandomState) (m : Z) (n i Dx Dy Dz : nat) :
  aligned data n i Dx Dy Dz ->
  (0 < n)%nat ->
  (0 < i)%nat ->
  valid_rng rng_arg ->
  (0 <= m * Z.of_nat Dx <= Z.of_nat n)%Z ->
  exists self0,
    Data_init mt19937 os data true ie rng_arg m = Ok self0 /\
    forall oss, oss <> [] ->
      exists self tr te,
        updates mt19937 oss self0 = Ok self /\
        tr ++ te ≡ₚ seq 0 n /\ length tr = Z.to_nat (m * Z.of_nat Dx) /\
        train_rows_from data tr self /\ test_rows_from data te self.
Proof.
  intros Hal HN Hpos Hv Hsz. destruct data as [[X y] meta].
  destruct (resolve_rng_valid mt19937 id os rng_arg Hv) as [s0 Hr].
  eexists. split; [by apply Data_init_full|].
  intros oss Hne. pose proof Hal as (HsX & _).
  match goal with
  | |- context [updates _ _ ?self0] =>
      apply (updates_full_iteration_rows mt19937 oss self0 (X, y, meta) n i Dx Dy Dz
               (m * Z.of_nat Dx)%Z Hal HN Hpos Hsz); [|done]
  end.
  split; [done|]. split; [done|].
  eexists. split; [done|]. cbn. rewrite HsX. cbn.
  repeat split; apply (@randint_seed_valid rng_ref s0).
Qed.

Lemma full_iteration_partitions_rows_witness :
  exists self0,
    Data_init toy_mt19937 toy_entropy (sample 10 3 2, sample 10 3 1, sample 10 3 1)
      true false (rng_int 42) 4 = Ok self0 /\
    forall oss, oss <> [] ->
      exists self tr te,
        updates toy_mt19937 oss self0 = Ok self /\
        tr ++ te ≡ₚ seq 0 10 /\ length tr = Z.to_nat (4 * Z.of_nat 2) /\
        train_rows_from (sample 10 3 2, sample 10 3 1, sample 10 3 1) tr self /\
        test_rows_from (sample 10 3 2, sample 10 3 1, sample 10 3 1) te self.
Proof.
  apply (full_iteration_partitions_rows toy_mt19937 toy_entropy
           (sample 10 3 2, sample 10 3 1, sample 10 3 1) false (rng_int 42) 4
           10 3 2 1 1).
  - prove_aligned.
  - lia.
  - lia.
  - simpl. lia.
  - lia.
Defined.

(** X6.  After a successful construction with [iterate_confs = false] on
    aligned arrays with [i > 0], there are [train_set_multiplier * Dx]
    train configurations [tr] and test configurations [te], together a
    permutation of [0, N), such that the test arrays are the rows [te] of
    the full arrays with all their evaluations; in the fully static mode
    row [m] of the three train arrays is, already at construction, one and
    the same evaluation of configuration [tr[m]]. *)
Theorem static_split_rows {A : Type} (mt19937 : Z -> nat -> N) os
    (data : ndarray3 A * ndarray3 A * ndarray3 A) (ie : bool)
    (rng_arg : RNG_Input RandomState) (m : Z) (self : Data A) (n i Dx Dy Dz : nat) :
  Data_init mt19937 os data false ie rng_arg m = Ok self ->
  aligned data n i Dx Dy Dz ->
  (0 < i)%nat ->
  exists tr te,
    tr ++ te ≡ₚ seq 0 n /\ length tr = Z.to_nat (m * Z.of_nat Dx) /\
    test_rows_from data te self /\
    (ie = false -> train_rows_from data tr self).
Proof.
  intros H Hal Hpos.
  destruct (Data_init_static_rows mt19937 os data ie rng_arg m self n i Dx Dy Dz H Hal)
    as (tr & te & train_set & Hp & Hlen & Hget & Haltr & Hte & Hie).
  exists tr, te. split; [done|]. split; [done|]. split; [done|].
  intros ->. destruct Hie as (_ & _ & trX & trY & trM & g' & s2 & s3 & Hev & Htrain).
  destruct (resample_rows mt19937 os s2
              (_generate_evaluation_subsets train_set (rng_obj alias_self))
              data train_set tr n i Dx Dy Dz Hal Hpos Hget Haltr)
    as (rX & rY & rM & g'' & s'' & Hev' & _ & HlX & HlY & HlM & Hrows); [done|].
  rewrite Hev' in Hev. injection Hev as <- <- <- _ _.
  destruct data as [[X y] meta]. by exists rX, rY, rM.
Qed.

Lemma static_split_rows_witness :
  match Data_init toy_mt19937 toy_entropy
          (sample 10 3 2, sample 10 3 1, sample 10 3 1) false false (rng_int 42) 4 with
  | Ok self =>
      exists tr te,
        tr ++ te ≡ₚ seq 0 10 /\ length tr = Z.to_nat (4 * Z.of_nat 2) /\
        test_rows_from (sample 10 3 2, sample 10 3 1, sample 10 3 1) te self /\
        (false = false ->
         train_rows_from (sample 10 3 2, sample 10 3 1, sample 10 3 1) tr self)
  | Raise _ => False
  end.
Proof.
  destruct (Data_init toy_mt19937 toy_entropy
              (sample 10 3 2, sample 10 3 1, sample 10 3 1) false false (rng_int 42) 4)
    as [self|e] eqn:H.
  - apply (static_split_rows toy_mt19937 toy_entropy
             (sample 10 3 2, sample 10 3 1, sample 10 3 1) false (rng_int 42) 4 self
             10 3 2 1 1 H).
    + prove_aligned.
    + lia.
  - vm_compute in H. discriminate H.
Defined.

(** X7.  After a successful construction with [iterate_confs = false] and
    [iterate_evals = true] on aligned arrays with [i > 0], there is one
    list [tr] of train configurations for the whole life of the
    partitioner: every sequence of updates succeeds, and after each of
    them row [m] of the three train arrays is one and the same evaluation
    of configuration [tr[m]], while the test arrays stay the rows [te] of
    the full arrays; only the evaluation picked for a configuration
    varies from one update to the next. *)
Theorem frozen_train_configurations {A : Type} (mt19937 : Z -> nat -> N) os
    (data : ndarray3 A * ndarray3 A * ndarray3 A)
    (rng_arg : RNG_Input RandomState) (m : Z) (self : Data A) (n i Dx Dy Dz : nat) :
  Data_init mt19937 os data false true rng_arg m = Ok self ->
  aligned data n i Dx Dy Dz ->
  (0 < i)%nat ->
  exists tr te,
    tr ++ te ≡ₚ seq 0 n /\ length tr = Z.to_nat (m * Z.of_nat Dx) /\
    forall oss, oss <> [] ->
      exists self',
        updates mt19937 oss self = Ok self' /\
        train_rows_from data tr self' /\ test_rows_from data te self'.
Proof.
  intros H Hal Hpos.
  destruct (Data_init_static_rows mt19937 os data true rng_arg m self n i Dx Dy Dz H Hal)
    as (tr & te & train_set & Hp & Hlen & Hget & Haltr & Hte & He).
  exists tr, te. split; [done|]. split; [done|].
  intros oss Hne.
  destruct (updates_eval_rows mt19937 oss self _ data train_set tr n i Dx Dy Dz
              Hal Hpos Hget Haltr He) as (self' & Hus & Hrows); [done|].
  exists self'. split; [done|]. split; [by apply Hrows|].
  destruct (updates_eval_frame mt19937 oss self _ self' He Hus)
    as ((HtX & HtY & HtM & _) & _).
  destruct Hte as (teX & teY & teM & Hattr & Hgte).
  exists teX, teY, teM. split; [|done].
  rewrite HtX, HtY, HtM. done.
Qed.

Lemma frozen_train_configurations_witness :
  match Data_init toy_mt19937 toy_entropy
          (sample 10 3 2, sample 10 3 1, sample 10 3 1) false true (rng_int 42) 4 with
  | Ok self =>
      exists tr te,
        tr ++ te ≡ₚ seq 0 10 /\ length tr = Z.to_nat (4 * Z.of_nat 2) /\
        forall oss, oss <> [] ->
          exists self',
            updates toy_mt19937 oss self = Ok self' /\
            train_rows_from (sample 10 3 2, sample 10 3 1, sample 10 3 1) tr self' /\
            test_rows_from (sample 10 3 2, sample 10 3 1, sample 10 3 1) te self'
  | Raise _ => False
  end.
Proof.
  destruct (Data_init toy_mt19937 toy_entropy
              (sample 10 3 2, sample 10 3 1, sample 10 3 1) false true (rng_int 42) 4)
    as [self|e] eqn:H.
  - apply (frozen_train_configurations toy_mt19937 toy_entropy
             (sample 10 3 2, sample 10 3 1, sample 10 3 1) (rng_int 42) 4 self
             10 3 2 1 1 H).
    + prove_aligned.
    + lia.
  - vm_compute in H. discriminate H.
Defined.

(** X8.  Whenever the reader returns at least one configuration and the
    callable, if any, hands back as many entries as it is given,
    construction from the reader's arrays succeeds in every mode, and so
    does every sequence of updates, as soon as the training size
    [train_set_multiplier * Dx] lies within [0, N], for [Dx] the number of
    feature indices and [N > 0] the number of rows divided by
    [evals_per_config]. *)
Theorem partitioner_from_reader_runs {A D : Type} `{EqDecision D}
    (astype : list D -> D -> A -> A) (mt19937 : Z -> nat -> N) os
    (df : DataFrame A D) (fi oi mi : list Z) (e : Z) (ic ie : bool)
    (ef : option (ndarray2 A -> result (list A)))
    (rng_arg : RNG_Input RandomState) (m : Z) X y meta fn tn mn :
  wf_frame df ->
  read_hpolib_benchmark_data astype df fi oi mi e = Ok (X, y, meta, fn, tn, mn) ->
  (0 < length (values df) / Z.to_nat e)%nat ->
  match ef with Some f => keeps_size f | None => True end ->
  valid_rng rng_arg ->
  (0 <= m * Z.of_nat (length fi)
     <= Z.of_nat (length (values df) / Z.to_nat e))%Z ->
  exists self,
    Data_new mt19937 astype os df fi oi mi e ic ie ef rng_arg m = Ok self /\
    forall oss, exists self', updates mt19937 oss self = Ok self'.
Proof.
  intros Hwf H HN Hef Hv Hsz.
  destruct (reader_then_emukit astype df fi oi mi e ef X y meta fn tn mn Hwf H Hef)
    as (He & _ & X' & HX' & Hal).
  rewrite (Data_new_unfold astype mt19937 os df fi oi mi e ic ie ef rng_arg m
             X y meta fn tn mn H), HX'. cbn [bind].
  by apply (Data_init_runs mt19937 os (X', y, meta) ic ie rng_arg m _ _ _ _ _ Hal).
Qed.

Lemma partitioner_from_reader_runs_witness :
  match read_hpolib_benchmark_data toy_astype (sample_frame 6) [0%Z; 1%Z] [2%Z] [(-1)%Z] 3 with
  | Ok _ =>
      exists self,
        Data_new toy_mt19937 toy_astype toy_entropy (sample_frame 6) [0%Z; 1%Z] [2%Z] [(-1)%Z] 3
          false true (Some (fun a => Ok (concat (data2 a)))) (rng_int 42) 1 = Ok self /\
        forall oss, exists self', updates toy_mt19937 oss self = Ok self'
  | Raise _ => False
  end.
Proof.
  destruct (read_hpolib_benchmark_data toy_astype (sample_frame 6) [0%Z; 1%Z] [2%Z] [(-1)%Z] 3)
    as [[[[[[X Y] M] fn] tn] mn]|err] eqn:H.
  - apply (partitioner_from_reader_runs toy_astype toy_mt19937 toy_entropy (sample_frame 6)
             [0%Z; 1%Z] [2%Z] [(-1)%Z] 3 false true
             (Some (fun a => Ok (concat (data2 a)))) (rng_int 42) 1 X Y M fn tn mn).
    + prove_wf_frame.
    + exact H.
    + simpl. lia.
    + intros a _. by eexists.
    + simpl. lia.
    + simpl. lia.
  - vm_compute in H. discriminate H.
Defined.

(** X9.  Whenever the reader returns, a callable that hands back another
    number of entries than the [N * i * Dx] it is given makes construction
    fail, in every mode, with the value error of the reshape. *)
Theorem emukit_map_wrong_size_fails {A D : Type} `{EqDecision D}
    (astype : list D -> D -> A -> A) (mt19937 : Z -> nat -> N) os
    (df : DataFrame A D) (fi oi mi : list Z) (e : Z) (ic ie : bool)
    (f : ndarray2 A -> result (list A))
    (rng_arg : RNG_Input RandomState) (m : Z) X y meta fn tn mn :
  wf_frame df ->
  read_hpolib_benchmark_data astype df fi oi mi e = Ok (X, y, meta, fn, tn, mn) ->
  (forall a, exists buf,
     f a = Ok buf /\
     length buf <> (length (values df) / Z.to_nat e * Z.to_nat e * length fi)%nat) ->
  exists msg,
    Data_new mt19937 astype os df fi oi mi e ic ie (Some f) rng_arg m = Raise (ValueError msg).
Proof.
  intros Hwf H Hf.
  destruct (reader_then_emukit astype df fi oi mi e None X y meta fn tn mn Hwf H I)
    as (He & HsX & X' & [= <-] & Hal).
  destruct Hal as (_ & _ & _ & HwX & _).
  destruct (apply_emukit_map_bad_size f X _ _ _ HwX HsX) as [msg Hm]; [|done|].
  { pose proof (reader_Ok_grouped astype df fi oi mi e X y meta fn tn mn Hwf H)
      as ((_ & Hne & _) & _).
    destruct fi; [by destruct Hne|simpl; lia]. }
  rewrite (Data_new_unfold astype mt19937 os df fi oi mi e ic ie (Some f) rng_arg m
             X y meta fn tn mn H), Hm.
  by exists msg.
Qed.

Lemma emukit_map_wrong_size_fails_witness :
  match read_hpolib_benchmark_data toy_astype (sample_frame 6) [0%Z; 1%Z] [2%Z] [(-1)%Z] 3 with
  | Ok _ =>
      exists msg,
        Data_new toy_mt19937 toy_astype toy_entropy (sample_frame 6) [0%Z; 1%Z] [2%Z] [(-1)%Z] 3
          true false (Some (fun _ => Ok [])) (rng_int 42) 1 = Raise (ValueError msg)
  | Raise _ => False
  end.
Proof.
  destruct (read_hpolib_benchmark_data toy_astype (sample_frame 6) [0%Z; 1%Z] [2%Z] [(-1)%Z] 3)
    as [[[[[[X Y] M] fn] tn] mn]|err] eqn:H.
  - apply (emukit_map_wrong_size_fails toy_astype toy_mt19937 toy_entropy (sample_frame 6)
             [0%Z; 1%Z] [2%Z] [(-1)%Z] 3 true false (fun _ => Ok []) (rng_int 42) 1
             X Y M fn tn mn).
    + prove_wf_frame.
    + exact H.
    + intros a. exists []. split; [done|]. simpl. lia.
  - vm_compute in H. discriminate H.
Defined.

(** X10.  Whenever the reader returns and the callable, if any, hands back
    as many entries as it is given, the shape assertions of the
    evaluation-subset generator never fail for a partitioner built from
    the reader's arrays: neither construction nor any sequence of updates
    ends in the assertion error, in any mode and for any multiplier. *)
Theorem reader_arrays_pass_shape_assertions {A D : Type} `{EqDecision D}
    (astype : list D -> D -> A -> A) (mt19937 : Z -> nat -> N) os
    (df : DataFrame A D) (fi oi mi : list Z) (e : Z) (ic ie : bool)
    (ef : option (ndarray2 A -> result (list A)))
    (rng_arg : RNG_Input RandomState) (m : Z) X y meta fn tn mn :
  wf_frame df ->
  read_hpolib_benchmark_data astype df fi oi mi e = Ok (X, y, meta, fn, tn, mn) ->
  match ef with Some f => keeps_size f | None => True end ->
  valid_rng rng_arg ->
  (forall msg a b,
     Data_new mt19937 astype os df fi oi mi e ic ie ef rng_arg m
     <> Raise (AssertionError msg a b)) /\
  (forall self, Data_new mt19937 astype os df fi oi mi e ic ie ef rng_arg m = Ok self ->
     forall oss msg a b, updates mt19937 oss self <> Raise (AssertionError msg a b)).
Proof.
  intros Hwf H Hef Hv.
  destruct (reader_then_emukit astype df fi oi mi e ef X y meta fn tn mn Hwf H Hef)
    as (He & _ & X' & HX' & Hal).
  rewrite (Data_new_unfold astype mt19937 os df fi oi mi e ic ie ef rng_arg m
             X y meta fn tn mn H), HX'. cbn [bind].
  by apply (aligned_never_assertion mt19937 os (X', y, meta) ic ie rng_arg m
              _ _ _ _ _ Hal).
Qed.

Lemma reader_arrays_pass_shape_assertions_witness :
  match read_hpolib_benchmark_data toy_astype (sample_frame 6) [0%Z; 1%Z] [2%Z] [(-1)%Z] 3 with
  | Ok _ =>
      (forall msg a b,
         Data_new toy_mt19937 toy_astype toy_entropy (sample_frame 6) [0%Z; 1%Z] [2%Z] [(-1)%Z] 3
           true false None (rng_int 42) 10 <> Raise (AssertionError msg a b)) /\
      (forall self,
         Data_new toy_mt19937 toy_astype toy_entropy (sample_frame 6) [0%Z; 1%Z] [2%Z] [(-1)%Z] 3
           true false None (rng_int 42) 10 = Ok self ->
         forall oss msg a b,
           updates toy_mt19937 oss self <> Raise (AssertionError msg a b))
  | Raise _ => False
  end.
Proof.
  destruct (read_hpolib_benchmark_data toy_astype (sample_frame 6) [0%Z; 1%Z] [2%Z] [(-1)%Z] 3)
    as [[[[[[X Y] M] fn] tn] mn]|err] eqn:H.
  - apply (reader_arrays_pass_shape_assertions toy_astype toy_mt19937 toy_entropy (sample_frame 6)
             [0%Z; 1%Z] [2%Z] [(-1)%Z] 3 true false None (rng_int 42) 10
             X Y M fn tn mn).
    + prove_wf_frame.
    + exact H.
    + exact I.
    + simpl. lia.
  - vm_compute in H. discriminate H.
Defined.

(** ** exclude_indices as a complement *)

Lemma exclude_indices_out_of_bounds npoints (data : list Z) :
  in_bounds npoints data = false ->
  exists msg,
    exclude_indices npoints (mkIndexArray int64 data) = Raise (IndexError msg).
Proof.
  intros Hb. unfold exclude_indices, setitem_False. cbn [ia_dtype ia_data].
  rewrite length_replicate, Hb. by eexists.
Qed.

Lemma positions_below npoints (data : list Z) :
  in_bounds npoints data = true ->
  Forall (fun k => k < npoints)%nat (map (position npoints) data).
Proof.
  rewrite in_bounds_Forall, Forall_fmap. intros Hall.
  eapply Forall_impl; [exact Hall|]. intros k Hk. by apply position_lt.
Qed.

Lemma StronglySorted_filter_seq (P : nat -> Prop) `{forall x, Decision (P x)} n :
  forall j, StronglySorted lt (filter P (seq j n)).
Proof.
  induction n as [|n IH]; intros j; simpl; [constructor|].
  destruct (decide (P j)).
  - rewrite filter_cons_True by done. constructor; [apply IH|].
    apply Forall_forall. intros k [_ Hk%elem_of_seq]%list_elem_of_filter. lia.
  - rewrite filter_cons_False by done. apply IH.
Qed.

Lemma length_filter_complement {T : Type} (P : T -> Prop) `{forall x, Decision (P x)}
    (l : list T) :
  (length (filter P l) + length (filter (fun x => ~ P x) l) = length l)%nat.
Proof. by rewrite <-length_app, filter_app_complement. Qed.

Lemma filter_member_seq npoints indices :
  Forall (fun k => k < npoints)%nat indices ->
  filter (fun k => k ∈ indices) (seq 0 npoints) ≡ₚ remove_dups indices.
Proof.
  intros Hall. apply NoDup_Permutation.
  - apply NoDup_filter, NoDup_seq.
  - apply NoDup_remove_dups.
  - intros k. rewrite list_elem_of_filter, elem_of_remove_dups, elem_of_seq.
    split; [tauto|]. intros Hk. split; [done|].
    rewrite Forall_forall in Hall. specialize (Hall k Hk). lia.
Qed.

Lemma filter_ext_in {T : Type} (P Q : T -> Prop) `{forall x, Decision (P x)}
    `{forall x, Decision (Q x)} (l : list T) :
  (forall x, x ∈ l -> (P x <-> Q x)) -> filter P l = filter Q l.
Proof.
  induction l as [|x l IH]; intros Hpq; [done|].
  assert (Hx : P x <-> Q x) by (apply Hpq; left).
  assert (Hl : filter P l = filter Q l).
  { apply IH. intros z Hz. apply Hpq. by right. }
  destruct (decide (P x)).
  - rewrite !filter_cons_True by tauto. by rewrite Hl.
  - rewrite !filter_cons_False by tauto. done.
Qed.

(** What [exclude_indices] returns on an int64 array within bounds. *)
Lemma exclude_indices_complement_int npoints (data : list Z) :
  in_bounds npoints data = true ->
  exists out,
    exclude_indices npoints (mkIndexArray int64 data) = Ok out /\
    (forall k, k ∈ out <-> (k < npoints)%nat /\ k ∉ map (position npoints) data) /\
    StronglySorted lt out /\
    (length out + length (remove_dups (map (position npoints) data)) = npoints)%nat.
Proof.
  intros Hb. eexists. split; [by apply exclude_indices_int|].
  split; [|split].
  - intros k. rewrite list_elem_of_filter, elem_of_seq.
    split; intros [? ?]; (split; [first [done|lia]|first [done|lia]]).
  - apply StronglySorted_filter_seq.
  - rewrite <-(filter_member_seq npoints _ (positions_below npoints data Hb)).
    pose proof (length_filter_complement (fun k => k ∈ map (position npoints) data)
                  (seq 0 npoints)) as Hc.
    rewrite length_seq in Hc. lia.
Qed.

(** X11.  On an array of non-negative integers, [exclude_indices] fails
    with an index error as soon as one of them is not below [npoints];
    otherwise it returns, in strictly increasing order, exactly the numbers
    below [npoints] that are not among [indices], so that its length and
    the number of distinct indices add up to [npoints] (repeated indices
    are excluded once).  On any int64 array, an index [k] stands for the
    position [k] if [k >= 0] and [npoints + k] otherwise: within
    [-npoints <= k < npoints] the result is the complement of these
    positions, and one index outside makes the call fail with an index
    error.  A float64 array, as numpy builds from an empty range, is
    rejected with an index error. *)
Theorem exclude_indices_complement (npoints : nat) (indices : list nat) :
  (Forall (fun k => k < npoints)%nat indices ->
   exists out,
     exclude_indices npoints (int_index indices) = Ok out /\
     (forall k, k ∈ out <-> (k < npoints)%nat /\ k ∉ indices) /\
     StronglySorted lt out /\
     (length out + length (remove_dups indices) = npoints)%nat) /\
  (~ Forall (fun k => k < npoints)%nat indices ->
   exists msg, exclude_indices npoints (int_index indices) = Raise (IndexError msg)) /\
  (forall data : list Z,
     (in_bounds npoints data = true ->
      exists out,
        exclude_indices npoints (mkIndexArray int64 data) = Ok out /\
        (forall k, k ∈ out <-> (k < npoints)%nat /\ k ∉ map (position npoints) data) /\
        StronglySorted lt out /\
        (length out + length (remove_dups (map (position npoints) data))
         = npoints)%nat) /\
     (in_bounds npoints data = false ->
      exists msg,
        exclude_indices npoints (mkIndexArray int64 data) = Raise (IndexError msg)) /\
     (exists msg,
        exclude_indices npoints (mkIndexArray float64 data) = Raise (IndexError msg))).
Proof.
  split; [|split].
  - intros Hall.
    destruct (exclude_indices_complement_int npoints (map Z.of_nat indices))
      as (out & Hout & Hmem & Hsort & Hlen); [by apply in_bounds_of_nat|].
    rewrite map_position_of_nat in Hmem, Hlen. by exists out.
  - intros Hn. apply exclude_indices_out_of_bounds.
    destruct (in_bounds npoints (map Z.of_nat indices)) eqn:Hb; [|done].
    by apply in_bounds_of_nat in Hb.
  - intros data. split; [apply exclude_indices_complement_int|].
    split; [apply exclude_indices_out_of_bounds|apply exclude_indices_float].
Qed.

(** X12.  Excluding twice gives the positions back.  For an int64 array
    whose entries [k] all satisfy [-npoints <= k < npoints], a negative
    entry [k] standing for the position [npoints + k] as in numpy:
    [exclude_indices npoints] applied to its own result returns, in
    strictly increasing order, the distinct positions the array denotes;
    when no position is repeated that is a permutation of the positions,
    and for non-negative indices without repetition it is a permutation of
    the indices themselves. *)
Theorem exclude_indices_twice (npoints : nat) (data : list Z) :
  in_bounds npoints data = true ->
  exists out back,
    exclude_indices npoints (mkIndexArray int64 data) = Ok out /\
    exclude_indices npoints (int_index out) = Ok back /\
    StronglySorted lt back /\
    back ≡ₚ remove_dups (map (position npoints) data) /\
    (NoDup (map (position npoints) data) -> back ≡ₚ map (position npoints) data) /\
    (forall indices : list nat,
       data = map Z.of_nat indices -> NoDup indices -> back ≡ₚ indices).
Proof.
  intros Hb. pose proof (positions_below npoints data Hb) as Hall.
  set (pos := map (position npoints) data) in *.
  exists (filter (fun k => k ∉ pos) (seq 0 npoints)).
  exists (filter (fun k => k ∈ pos) (seq 0 npoints)).
  split; [by apply exclude_indices_int|].
  assert (Hback : filter (fun k => k ∈ pos) (seq 0 npoints) ≡ₚ remove_dups pos)
    by (by apply filter_member_seq).
  assert (Hnd : NoDup pos -> filter (fun k => k ∈ pos) (seq 0 npoints) ≡ₚ pos).
  { intros Hnd. rewrite Hback. symmetry. by apply NoDup_Permutation;
      [done|apply NoDup_remove_dups|intros k; rewrite elem_of_remove_dups]. }
  split; [|split; [apply StronglySorted_filter_seq|split; [done|split; [done|]]]].
  - rewrite exclude_indices_spec.
    + f_equal. apply filter_ext_in. intros k Hk.
      rewrite list_elem_of_filter. split.
      * intros Hn. destruct (decide (k ∈ pos)); [done|]. by destruct Hn.
      * intros Hin [Hn _]. done.
    + apply Forall_forall. intros k [_ Hk%elem_of_seq]%list_elem_of_filter. lia.
  - intros indices Hd Hndi. subst pos. rewrite Hd, map_position_of_nat in Hnd |- *.
    by apply Hnd.
Qed.

Lemma exclude_indices_twice_witness :
  exists out back,
    exclude_indices 6 (mkIndexArray int64 [4; -5; 4]%Z) = Ok out /\
    exclude_indices 6 (int_index out) = Ok back /\
    StronglySorted lt back /\
    back ≡ₚ remove_dups (map (position 6) [4; -5; 4]%Z) /\
    (NoDup (map (position 6) [4; -5; 4]%Z) -> back ≡ₚ map (position 6) [4; -5; 4]%Z) /\
    (forall indices : list nat,
       [4; -5; 4]%Z = map Z.of_nat indices -> NoDup indices -> back ≡ₚ indices).
Proof.
  apply (exclude_indices_twice 6 [4; -5; 4]%Z). reflexivity.
Defined.

(** ** Arrays that disagree on their first axis *)

Section FirstAxisFacts.
Context {A : Type}.
Variable mt19937 : Z -> nat -> N.
Implicit Types (X y meta : ndarray3 A) (g : conf_gen A).

(** Integer-array indexing either succeeds or fails with an index error. *)
Lemma getitem_rows_cases (a : ndarray3 A) ind :
  (Forall (fun k => k < (shape3 a).1.1)%nat ind /\
   exists sa, getitem_rows a ind = Ok sa) \/
  (~ Forall (fun k => k < (shape3 a).1.1)%nat ind /\
   exists msg, getitem_rows a ind = Raise (IndexError msg)).
Proof.
  unfold getitem_rows. destruct (shape3 a) as [[n i] d]. simpl.
  destruct (forallb (fun k => k <? n) ind) eqn:Hb.
  - left. split; [|by eexists].
    apply Forall_forall. intros k Hk. rewrite forallb_forall in Hb.
    apply Nat.ltb_lt, Hb. by apply list_elem_of_In.
  - right. split; [|by eexists]. intros Hall.
    assert (Ht : forallb (fun k => k <? n) ind = true); [|congruence].
    apply forallb_forall. intros k Hk%list_elem_of_In. apply Nat.ltb_lt.
    by eapply Forall_forall in Hall.
Qed.

Lemma getitem_dataset_cases X y meta ind :
  (exists sub, getitem_dataset (X, y, meta) ind = Ok sub) \/
  (exists msg, getitem_dataset (X, y, meta) ind = Raise (IndexError msg)).
Proof.
  unfold getitem_dataset.
  destruct (getitem_rows_cases X ind) as [[_ [sX ->]]|[_ [msg ->]]];
    [|right; by exists msg].
  destruct (getitem_rows_cases y ind) as [[_ [sy ->]]|[_ [msg ->]]];
    [|right; by exists msg].
  destruct (getitem_rows_cases meta ind) as [[_ [sm ->]]|[_ [msg ->]]];
    [|right; by exists msg].
  left. by eexists.
Qed.

(** An index beyond the outputs or the metadata makes the selection fail
    with an index error. *)
Lemma getitem_dataset_short X y meta ind k :
  k ∈ ind ->
  ((shape3 y).1.1 <= k \/ (shape3 meta).1.1 <= k)%nat ->
  exists msg, getitem_dataset (X, y, meta) ind = Raise (IndexError msg).
Proof.
  intros Hk Hshort.
  destruct (getitem_dataset_cases X y meta ind) as [[sub Hok]|Hbad]; [|done].
  exfalso. unfold getitem_dataset in Hok.
  apply bind_Ok in Hok as (sX & _ & Hok).
  apply bind_Ok in Hok as (sy & Hy & Hok).
  apply bind_Ok in Hok as (sm & Hm & _).
  destruct (getitem_rows_cases y ind) as [[Hally _]|[_ [msg Hr]]]; [|congruence].
  destruct (getitem_rows_cases meta ind) as [[Hallm _]|[_ [msg Hr]]]; [|congruence].
  rewrite Forall_forall in Hally, Hallm.
  specialize (Hally k Hk). specialize (Hallm k Hk). lia.
Qed.

(** With fewer configurations in the outputs or in the metadata than in
    the features, every draw of a split fails with an index error: the
    last configuration is in the train or in the test indices. *)
Lemma conf_next_short os self_rng g X y meta size ret :
  (0 <= size <= Z.of_nat (shape3 X).1.1)%Z ->
  ((shape3 y).1.1 < (shape3 X).1.1 \/ (shape3 meta).1.1 < (shape3 X).1.1)%nat ->
  conf_gen_for (X, y, meta) size ret g ->
  exists msg, conf_next mt19937 os (X, y, meta) self_rng g = Raise (IndexError msg).
Proof.
  intros Hsz Hshort Hg.
  destruct (conf_next_draw_raise mt19937 os self_rng g (X, y, meta) size ret
              (fun e => exists msg, e = IndexError msg) Hg) as (e & -> & msg & ->);
    [|by exists msg].
  intros r s. unfold conf_draw.
  cbn [cf_X_full cf_y_full cf_meta_full cf_train_size cf_return_indices fst snd].
  destruct (draw_indices_ok s (shape3 X).1.1 size ltac:(lia) Hsz)
    as (tr & te & s' & -> & _ & Hp & _).
  cbn [bind].
  assert (Hlast : ((shape3 X).1.1 - 1)%nat ∈ tr \/ ((shape3 X).1.1 - 1)%nat ∈ te).
  { apply (split_members tr te (shape3 X).1.1 _ Hp). lia. }
  assert (Hbeyond : ((shape3 y).1.1 <= (shape3 X).1.1 - 1 \/
                     (shape3 meta).1.1 <= (shape3 X).1.1 - 1)%nat) by lia.
  destruct Hlast as [Hin|Hin].
  - destruct (getitem_dataset_short X y meta tr _ Hin Hbeyond) as [msg ->].
    exists (IndexError msg). split; [done|by exists msg].
  - destruct (getitem_dataset_cases X y meta tr) as [[train_set ->]|[msg ->]];
      [|exists (IndexError msg); split; [done|by exists msg]].
    cbn [bind].
    destruct (getitem_dataset_short X y meta te _ Hin Hbeyond) as [msg ->].
    exists (IndexError msg). split; [done|by exists msg].
Qed.

End FirstAxisFacts.

(** X13.  Outputs or metadata with fewer configurations than the features
    never reach the shape assertions: with a training size between [0] and
    the number of configurations of the features, every draw of a live
    configuration-split generator fails with an index error, so
    construction fails with it in the static modes, and in full-iteration
    mode construction succeeds and every first [update] fails with it. *)
Theorem short_arrays_raise_index_error {A : Type} (mt19937 : Z -> nat -> N) os
    (X y meta : ndarray3 A) (ie : bool) (rng_arg : RNG_Input RandomState) (m : Z) :
  valid_rng rng_arg ->
  (0 <= m * Z.of_nat (shape3 X).2 <= Z.of_nat (shape3 X).1.1)%Z ->
  ((shape3 y).1.1 < (shape3 X).1.1 \/ (shape3 meta).1.1 < (shape3 X).1.1)%nat ->
  (forall os' self_rng g ret,
     conf_gen_for (X, y, meta) (m * Z.of_nat (shape3 X).2) ret g ->
     exists msg,
       conf_next mt19937 os' (X, y, meta) self_rng g = Raise (IndexError msg)) /\
  (exists msg,
     Data_init mt19937 os (X, y, meta) false ie rng_arg m = Raise (IndexError msg)) /\
  (exists self,
     Data_init mt19937 os (X, y, meta) true ie rng_arg m = Ok self /\
     forall os', exists msg, update mt19937 os' self = Raise (IndexError msg)).
Proof.
  intros Hv Hsz Hshort.
  destruct (resolve_rng_valid mt19937 id os rng_arg Hv) as [s0 Hr].
  pose proof (constructor_conf_gen X y meta m s0) as Hg.
  split; [|split].
  - intros os' self_rng g ret Hg'.
    by apply (conf_next_short mt19937 os' self_rng g X y meta _ ret Hsz Hshort).
  - rewrite (Data_init_static mt19937 os X y meta ie rng_arg m s0 Hr).
    destruct (conf_next_short mt19937 os (randint s0 0 1000000000).2 _ X y meta _ false
                Hsz Hshort Hg) as [msg ->].
    by exists msg.
  - eexists. split; [by apply Data_init_full|].
    intros os'.
    destruct (conf_next_short mt19937 os' (randint s0 0 1000000000).2 _ X y meta _ false
                Hsz Hshort Hg) as [msg Hn].
    exists msg. by eapply update_conf_raise.
Qed.

Lemma short_arrays_raise_index_error_witness :
  (forall os' self_rng g ret,
     conf_gen_for (sample 10 3 2, sample 9 3 1, sample 10 3 1)
       (4 * Z.of_nat (shape3 (sample 10 3 2)).2) ret g ->
     exists msg,
       conf_next toy_mt19937 os' (sample 10 3 2, sample 9 3 1, sample 10 3 1) self_rng g
       = Raise (IndexError msg)) /\
  (exists msg,
     Data_init toy_mt19937 toy_entropy (sample 10 3 2, sample 9 3 1, sample 10 3 1)
       false false (rng_int 42) 4 = Raise (IndexError msg)) /\
  (exists self,
     Data_init toy_mt19937 toy_entropy (sample 10 3 2, sample 9 3 1, sample 10 3 1)
       true false (rng_int 42) 4 = Ok self /\
     forall os', exists msg, update toy_mt19937 os' self = Raise (IndexError msg)).
Proof.
  apply (short_arrays_raise_index_error toy_mt19937 toy_entropy
           (sample 10 3 2) (sample 9 3 1) (sample 10 3 1) false (rng_int 42) 4).
  - simpl. lia.
  - simpl. lia.
  - left. simpl. lia.
Defined.

Section SurplusFacts.
Context {A : Type}.
Variable mt19937 : Z -> nat -> N.
Implicit Types (X y meta : ndarray3 A) (g : conf_gen A).

Lemma getitem_rows_surplus (a : ndarray3 A) ind N :
  (N <= (shape3 a).1.1)%nat ->
  Forall (fun k => k < N)%nat ind ->
  exists sa, getitem_rows a ind = Ok sa /\
    shape3 sa = (length ind, (shape3 a).1.2, (shape3 a).2) /\
    (wf3 a -> wf3 sa).
Proof.
  intros Hle Hall. apply (getitem_rows_slice a ind (shape3 a).1.1); [done|].
  eapply Forall_impl; [exact Hall|]. simpl. lia.
Qed.

(** Indices below the number of configurations of the features select
    aligned slices, whatever lies beyond in the other two arrays. *)
Lemma getitem_dataset_surplus (data : ndarray3 A * ndarray3 A * ndarray3 A)
    ind N i Dx Dy Dz :
  surplus_rows data N i Dx Dy Dz ->
  Forall (fun k => k < N)%nat ind ->
  exists sub, getitem_dataset data ind = Ok sub /\ aligned sub (length ind) i Dx Dy Dz.
Proof.
  destruct data as [[X y] meta].
  intros (HsX & (Ny & Hsy & HNy) & (Nm & Hsm & HNm) & HwX & Hwy & Hwm) Hall.
  destruct (getitem_rows_surplus X ind N) as (sX & HX & HshX & HwfX);
    [by rewrite HsX|done|].
  destruct (getitem_rows_surplus y ind N) as (sy & Hy & Hshy & Hwfy);
    [by rewrite Hsy|done|].
  destruct (getitem_rows_surplus meta ind N) as (sm & Hm & Hshm & Hwfm);
    [by rewrite Hsm|done|].
  exists (sX, sy, sm). unfold getitem_dataset. rewrite HX, Hy, Hm.
  split; [done|]. rewrite HsX in HshX. rewrite Hsy in Hshy. rewrite Hsm in Hshm.
  unfold aligned. auto 10.
Qed.

(** From one turn of the loop to [next]: a success of every turn is a
    success of [next] on a live generator, which stays live. *)
Lemma conf_next_draw_ok os self_rng g (data : ndarray3 A * ndarray3 A * ndarray3 A)
    size ret (P : _ -> Prop) :
  conf_gen_for data size ret g ->
  (forall r s, exists split s',
     conf_draw (mkConfFrame data.1.1 data.1.2 data.2 size r ret) s = Ok (split, s') /\
     P split) ->
  exists split g' s',
    conf_next mt19937 os data self_rng g = Ok (split, g', s') /\
    conf_gen_for data size ret g' /\ P split.
Proof.
  intros Hg Hdraw.
  assert (Hresume : forall r, exists split g' s',
    conf_resume self_rng (mkConfFrame data.1.1 data.1.2 data.2 size r ret)
    = Ok (split, g', s') /\
    conf_gen_for data size ret g' /\ P split).
  { intros r. unfold conf_resume, with_rng. cbn [cf_rng].
    destruct r as [|s].
    - destruct (Hdraw alias_self self_rng) as (split & s' & Hd & HP).
      unfold conf_draw in *. cbn [cf_X_full cf_y_full cf_meta_full cf_train_size
                                    cf_return_indices] in *.
      rewrite Hd. cbn [bind]. eexists split, _, _. split; [done|].
      split; [|done]. simpl. by destruct data as [[??]?].
    - destruct (Hdraw (own_rng s) s) as (split & s' & Hd & HP).
      unfold conf_draw in *. cbn [cf_X_full cf_y_full cf_meta_full cf_train_size
                                    cf_return_indices] in *.
      rewrite Hd. cbn [bind]. eexists split, _, _. split; [done|].
      split; [|done]. simpl. by destruct data as [[??]?]. }
  destruct g as [frac sz rng ret'|f|]; simpl in Hg; [| |done].
  - destruct Hg as (-> & -> & Hv & ->). cbn [conf_next].
    unfold conf_prelude. destruct data as [[X y] meta].
    destruct (resolve_rng_valid mt19937 own_rng os rng Hv) as [r ->]. cbn [bind].
    apply (Hresume r).
  - destruct Hg as (Hds & Hsz' & Hret). destruct f as [fX fy fm fsz r fret].
    simpl in *. subst. apply (Hresume r).
Qed.

Lemma conf_next_surplus os self_rng g (data : ndarray3 A * ndarray3 A * ndarray3 A)
    N i Dx Dy Dz size :
  surplus_rows data N i Dx Dy Dz -> (0 < N)%nat ->
  (0 <= size <= Z.of_nat N)%Z ->
  conf_gen_for data size false g ->
  exists train_set test_set g' s',
    conf_next mt19937 os data self_rng g = Ok ((train_set, test_set, None), g', s') /\
    conf_gen_for data size false g' /\
    aligned train_set (Z.to_nat size) i Dx Dy Dz /\
    aligned test_set (N - Z.to_nat size) i Dx Dy Dz.
Proof.
  intros Hsur Hpos Hsz Hg.
  destruct (conf_next_draw_ok os self_rng g data size false
              (fun split => exists train_set test_set,
                 split = (train_set, test_set, None) /\
                 aligned train_set (Z.to_nat size) i Dx Dy Dz /\
                 aligned test_set (N - Z.to_nat size) i Dx Dy Dz) Hg)
    as (split & g' & s' & Hn & Hg' & train_set & test_set & -> & Htr & Hte).
  - intros r s. unfold conf_draw.
    cbn [cf_X_full cf_y_full cf_meta_full cf_train_size cf_return_indices].
    assert (HN : (shape3 data.1.1).1.1 = N).
    { destruct data as [[X y] meta]. destruct Hsur as (HsX & _).
      cbn [fst snd]. by rewrite HsX. }
    rewrite HN.
    destruct (draw_indices_ok s N size Hpos Hsz) as (tr & te & s' & -> & Hlen & Hp & _).
    cbn [bind].
    assert (Hlte : length te = (N - Z.to_nat size)%nat).
    { apply Permutation_length in Hp. rewrite length_app, length_seq in Hp. lia. }
    destruct (getitem_dataset_surplus data tr N i Dx Dy Dz Hsur)
      as (train_set & Htr & Haltr).
    { apply Forall_forall. intros k Hk. apply (split_members _ _ _ _ Hp). by left. }
    destruct (getitem_dataset_surplus data te N i Dx Dy Dz Hsur)
      as (test_set & Hte & Halte).
    { apply Forall_forall. intros k Hk. apply (split_members _ _ _ _ Hp). by right. }
    destruct data as [[X y] meta]. cbn [fst snd].
    rewrite Htr, Hte. cbn [bind].
    eexists _, s'. split; [done|]. exists train_set, test_set.
    rewrite Hlen in Haltr. rewrite Hlte in Halte. done.
  - by exists train_set, test_set, g', s'.
Qed.

Lemma update_surplus os self (data : ndarray3 A * ndarray3 A * ndarray3 A)
    N i Dx Dy Dz size :
  surplus_rows data N i Dx Dy Dz -> (0 < N)%nat -> (0 < i)%nat ->
  (0 <= size <= Z.of_nat N)%Z ->
  full_iteration data size self ->
  exists self',
    update mt19937 os self = Ok self' /\
    full_iteration data size self' /\
    split_shapes self' N (Z.to_nat size) i Dx Dy Dz.
Proof.
  intros Hsur HN Hpos Hsz (Hd & He & c & Hc & Hg).
  unfold update. rewrite He, Hc, Hd.
  destruct (conf_next_surplus os (rng self) c data N i Dx Dy Dz size Hsur HN Hsz Hg)
    as ([[tX tY] tM] & [[teX teY] teM] & c' & s' & Hnext & Hg' & Haltr & Halte).
  rewrite Hnext. cbn [bind].
  destruct (eval_next_ok mt19937 os s'
              (_generate_evaluation_subsets (tX, tY, tM) (rng_obj alias_self))
              tX tY tM (Z.to_nat size) i Dx Dy Dz Haltr Hpos)
    as (choices & g'' & s'' & Hev & _ & Hcl & Hcall); [done|].
  rewrite Hev. cbn [bind].
  eexists. split; [done|].
  destruct Haltr as (HsX & Hsy & Hsm & HwX & Hwy & Hwm).
  destruct Halte as (HteX & HteY & HteM & HwteX & HwteY & HwteM).
  split.
  - split; [done|]. split; [done|]. by exists c'.
  - eexists _, _, _, teX, teY, teM. unfold arrays. cbn.
    split; [done|].
    repeat split; try done; by eapply take_reshape_wf.
Qed.

Lemma updates_surplus oss : forall self
    (data : ndarray3 A * ndarray3 A * ndarray3 A) N i Dx Dy Dz size,
  surplus_rows data N i Dx Dy Dz -> (0 < N)%nat -> (0 < i)%nat ->
  (0 <= size <= Z.of_nat N)%Z ->
  full_iteration data size self ->
  exists self',
    updates mt19937 oss self = Ok self' /\
    full_iteration data size self' /\
    (oss <> [] -> split_shapes self' N (Z.to_nat size) i Dx Dy Dz).
Proof.
  induction oss as [|os oss IH];
    intros self data N i Dx Dy Dz size Hsur HN Hpos Hsz Hfi.
  - exists self. split; [done|]. split; [done|]. intros Hne. by destruct Hne.
  - destruct (update_surplus os self data N i Dx Dy Dz size Hsur HN Hpos Hsz Hfi)
      as (self1 & Hu & Hfi1 & Hsh1).
    destruct (IH self1 data N i Dx Dy Dz size Hsur HN Hpos Hsz Hfi1)
      as (self' & Hus & Hfi' & Hsh').
    exists self'. cbn [updates]. rewrite Hu. cbn [bind].
    split; [done|]. split; [done|]. intros _.
    destruct oss as [|os' oss']; [|by apply Hsh'].
    cbn [updates] in Hus. by injection Hus as <-.
Qed.

End SurplusFacts.

(** X14.  Outputs or metadata with more configurations than the features
    are accepted without complaint in full-iteration mode: when the three
    arrays agree on [i > 0] and the features have [N > 0] configurations,
    the other two at least [N], construction and every sequence of updates
    succeed for a training size [Nt = train_set_multiplier * Dx] within
    [0, N], and after each update the train arrays have [Nt] rows and the
    test arrays [N - Nt] configurations: the configurations beyond the
    first [N] of the outputs and of the metadata are never selected. *)
Theorem surplus_rows_are_ignored {A : Type} (mt19937 : Z -> nat -> N) os
    (X y meta : ndarray3 A) (ie : bool) (rng_arg : RNG_Input RandomState) (m : Z)
    (N i Dx Dy Dz : nat) :
  surplus_rows (X, y, meta) N i Dx Dy Dz ->
  (0 < N)%nat ->
  (0 < i)%nat ->
  valid_rng rng_arg ->
  (0 <= m * Z.of_nat Dx <= Z.of_nat N)%Z ->
  exists self0,
    Data_init mt19937 os (X, y, meta) true ie rng_arg m = Ok self0 /\
    forall oss, oss <> [] ->
      exists self,
        updates mt19937 oss self0 = Ok self /\
        split_shapes self N (Z.to_nat (m * Z.of_nat Dx)) i Dx Dy Dz.
Proof.
  intros Hsur HN Hpos Hv Hsz. pose proof Hsur as (HsX & _).
  destruct (resolve_rng_valid mt19937 id os rng_arg Hv) as [s0 Hr].
  eexists. split; [by apply Data_init_full|]. intros oss Hne.
  match goal with
  | |- context [updates _ _ ?self0] =>
      destruct (updates_surplus mt19937 oss self0 (X, y, meta) N i Dx Dy Dz
                  (m * Z.of_nat Dx)%Z Hsur HN Hpos Hsz) as (self & Hus & _ & Hsh)
  end.
  - split; [done|]. split; [done|].
    eexists. split; [done|]. cbn. rewrite HsX. cbn.
    repeat split; apply (@randint_seed_valid rng_ref s0).
  - exists self. split; [done|]. by apply Hsh.
Qed.

Lemma surplus_rows_are_ignored_witness :
  exists self0,
    Data_init toy_mt19937 toy_entropy (sample 10 3 2, sample 12 3 1, sample 11 3 1)
      true false (rng_int 42) 4 = Ok self0 /\
    forall oss, oss <> [] ->
      exists self,
        updates toy_mt19937 oss self0 = Ok self /\
        split_shapes self 10 (Z.to_nat (4 * Z.of_nat 2)) 3 2 1 1.
Proof.
  apply (surplus_rows_are_ignored toy_mt19937 toy_entropy
           (sample 10 3 2) (sample 12 3 1) (sample 11 3 1) false (rng_int 42) 4
           10 3 2 1 1).
  - split; [done|]. split; [exists 12%nat; split; [done|lia]|].
    split; [exists 11%nat; split; [done|lia]|].
    unfold wf3; simpl; repeat split; repeat constructor.
  - lia.
  - lia.
  - simpl. lia.
  - lia.
Defined.

(** ** Slices without evaluations *)

Section NoEvaluationFacts.
Context {A : Type}.
Variable mt19937 : Z -> nat -> N.

(** With [i = 0] and at least one row, [choice] has nothing to draw
    from. *)
Lemma eval_next_no_evaluations os self_rng (g : eval_gen A) X y meta M Dx Dy Dz :
  aligned (X, y, meta) M 0 Dx Dy Dz -> (0 < M)%nat ->
  eval_gen_for (X, y, meta) g ->
  exists msg, eval_next mt19937 os self_rng g = Raise (ValueError msg).
Proof.
  intros Hal HM Hg. pose proof Hal as (HsX & Hsy & Hsm & _).
  assert (Hdraw : forall r s, exists msg,
    eval_draw (mkEvalFrame X y meta M 0 Dx Dy Dz r) s = Raise (ValueError msg)).
  { intros r s. unfold eval_draw, choice_replace. cbn [ef_i ef_X]. rewrite HsX.
    cbn [fst].
    replace (M =? 0) with false by (symmetry; apply Nat.eqb_neq; lia).
    simpl. by eexists. }
  assert (Hresume : forall r, exists msg,
    eval_resume self_rng (mkEvalFrame X y meta M 0 Dx Dy Dz r) = Raise (ValueError msg)).
  { intros r. unfold eval_resume, with_rng. cbn [ef_rng].
    destruct r as [|s].
    - destruct (Hdraw alias_self self_rng) as [msg ->]. by exists msg.
    - destruct (Hdraw (own_rng s) s) as [msg ->]. by exists msg. }
  destruct g as [ds rng|f|]; simpl in Hg; [| |done].
  - destruct Hg as [-> Hv]. simpl.
    destruct (resolve_rng_valid mt19937 own_rng os rng Hv) as [r ->]. simpl.
    rewrite HsX, Hsy, Hsm. simpl. rewrite !Nat.eqb_refl. simpl.
    apply Hresume.
  - destruct Hg as (Hds & Hs & HDy & HDz).
    destruct f as [fX fy fm fN fi fDx fDy fDz r].
    simpl in *. injection Hds as -> -> ->.
    rewrite HsX in Hs. injection Hs as <- <- <-.
    rewrite Hsy in HDy. rewrite Hsm in HDz. simpl in *. subst.
    apply Hresume.
Qed.

End NoEvaluationFacts.

(** X15.  On aligned slices that record no evaluation at all ([i = 0]) but
    have at least one row, every draw of a live evaluation-subset
    generator fails with the value error of [choice]: the shape assertions
    pass, and there is nothing to choose from.  So, on such arrays and
    with a training size within [1, N], construction fails with that error
    in the fully static mode, and every first [update] fails with it in
    the two other modes. *)
Theorem no_evaluations_raise_value_error {A : Type} (mt19937 : Z -> nat -> N) os
    (X y meta : ndarray3 A) (rng_arg : RNG_Input RandomState) (m : Z)
    (N Dx Dy Dz : nat) :
  aligned (X, y, meta) N 0 Dx Dy Dz ->
  valid_rng rng_arg ->
  (0 < m * Z.of_nat Dx <= Z.of_nat N)%Z ->
  (forall os' self_rng g,
     eval_gen_for (X, y, meta) g ->
     exists msg, eval_next mt19937 os' self_rng g = Raise (ValueError msg)) /\
  (exists msg,
     Data_init mt19937 os (X, y, meta) false false rng_arg m = Raise (ValueError msg)) /\
  (forall ic ie, (ic = true \/ ie = true) ->
     exists self,
       Data_init mt19937 os (X, y, meta) ic ie rng_arg m = Ok self /\
       forall os', exists msg, update mt19937 os' self = Raise (ValueError msg)).
Proof.
  intros Hal Hv Hsz. pose proof Hal as (HsX & _).
  destruct (resolve_rng_valid mt19937 id os rng_arg Hv) as [s0 Hr].
  pose proof (constructor_conf_gen X y meta m s0) as Hg.
  rewrite HsX in Hg. cbn [fst snd] in Hg.
  assert (Hsz' : (0 <= m * Z.of_nat Dx <= Z.of_nat N)%Z) by lia.
  assert (Hdraw : forall os', exists train_set test_set c' s',
    conf_next mt19937 os' (X, y, meta) (randint s0 0 1000000000).2
      (_iterate_dataset_configurations None (Some (m * Z.of_nat Dx)%Z)
         (rng_int (Z.of_N (randint s0 0 1000000000).1)) false)
    = Ok ((train_set, test_set, None), c', s') /\
    aligned train_set (Z.to_nat (m * Z.of_nat Dx)) 0 Dx Dy Dz).
  { intros os'.
    destruct (conf_next_ok mt19937 os' (randint s0 0 1000000000).2 _ (X, y, meta)
                N 0 Dx Dy Dz _ false Hal ltac:(lia) Hsz' Hg)
      as (tr & te & train_set & test_set & c' & s' & Hnext & _ & Hlen & _ & _ & _ & _
          & Haltr & _).
    rewrite Hlen in Haltr. by exists train_set, test_set, c', s'. }
  assert (Hraise : forall os' (train_set : ndarray3 A * ndarray3 A * ndarray3 A) s',
    aligned train_set (Z.to_nat (m * Z.of_nat Dx)) 0 Dx Dy Dz ->
    exists msg,
      eval_next mt19937 os' s'
        (_generate_evaluation_subsets train_set (rng_obj alias_self))
      = Raise (ValueError msg)).
  { intros os' [[tX tY] tM] s' Haltr.
    apply (eval_next_no_evaluations mt19937 os' s' _ tX tY tM _ Dx Dy Dz Haltr);
      [lia|done]. }
  split; [|split].
  - intros os' self_rng g Hg'.
    apply (eval_next_no_evaluations mt19937 os' self_rng g X y meta N Dx Dy Dz Hal);
      [lia|done].
  - destruct (Hdraw os) as (train_set & test_set & c' & s' & Hnext & Haltr).
    destruct (Hraise os train_set s' Haltr) as [msg Hev].
    exists msg.
    rewrite (Data_init_static mt19937 os X y meta false rng_arg m s0 Hr).
    rewrite HsX. cbn [fst snd]. rewrite Hnext. cbn [bind]. by rewrite Hev.
  - intros ic ie Hmode. destruct ic.
    + eexists. split; [by apply Data_init_full|].
      intros os'. rewrite HsX. cbn [fst snd].
      destruct (Hdraw os') as (train_set & test_set & c' & s' & Hnext & Haltr).
      destruct (Hraise os' train_set s' Haltr) as [msg Hev].
      exists msg.
      eapply update_conf_eval_raise; [reflexivity|reflexivity|exact Hnext|exact Hev].
    + destruct Hmode as [?| ->]; [done|].
      destruct (Hdraw os) as (train_set & test_set & c' & s' & Hnext & Haltr).
      eexists. split.
      * rewrite (Data_init_static mt19937 os X y meta true rng_arg m s0 Hr).
        rewrite HsX. cbn [fst snd]. rewrite Hnext. cbn [bind]. reflexivity.
      * intros os'.
        destruct (Hraise os' train_set s' Haltr) as [msg Hev].
        exists msg. eapply update_eval_raise; [reflexivity|exact Hev].
Qed.

Lemma no_evaluations_raise_value_error_witness :
  (forall os' self_rng g,
     eval_gen_for (sample 10 0 2, sample 10 0 1, sample 10 0 1) g ->
     exists msg, eval_next toy_mt19937 os' self_rng g = Raise (ValueError msg)) /\
  (exists msg,
     Data_init toy_mt19937 toy_entropy (sample 10 0 2, sample 10 0 1, sample 10 0 1)
       false false (rng_int 42) 4 = Raise (ValueError msg)) /\
  (forall ic ie, (ic = true \/ ie = true) ->
     exists self,
       Data_init toy_mt19937 toy_entropy (sample 10 0 2, sample 10 0 1, sample 10 0 1)
         ic ie (rng_int 42) 4 = Ok self /\
       forall os', exists msg, update toy_mt19937 os' self = Raise (ValueError msg)).
Proof.
  apply (no_evaluations_raise_value_error toy_mt19937 toy_entropy
           (sample 10 0 2) (sample 10 0 1) (sample 10 0 1) (rng_int 42) 4 10 2 1 1).
  - prove_aligned.
  - simpl. lia.
  - lia.
Defined.

(** ** The seed and the mode *)

Section ModeFacts.
Context {A : Type}.
Variable mt19937 : Z -> nat -> N.

Lemma resolve_rng_invalid {R : Type} (own : RandomState -> R) os (rng : RNG_Input R) :
  ~ valid_rng rng -> exists msg, resolve_rng mt19937 own os rng = Raise (ValueError msg).
Proof.
  destruct rng as [|z|r]; simpl; intros Hv; [by destruct Hv| |by destruct Hv].
  destruct ((0 <=? z)%Z && (z <? 2 ^ 32)%Z) eqn:Hb; [|by eexists].
  destruct Hv. apply andb_true_iff in Hb as [?%Z.leb_le ?%Z.ltb_lt]. lia.
Qed.

Lemma valid_rng_dec {R : Type} (rng : RNG_Input R) : valid_rng rng \/ ~ valid_rng rng.
Proof. destruct rng as [|z|r]; simpl; [by left|lia|by left]. Qed.

(** One [update] keeps the full arrays and the presence of each
    generator. *)
Lemma update_keeps_mode os (self self' : Data A) :
  update mt19937 os self = Ok self' ->
  (X_full self', y_full self', meta_full self')
  = (X_full self, y_full self, meta_full self) /\
  (_eval_splits self' = None <-> _eval_splits self = None) /\
  (_conf_splits self' = None <-> _conf_splits self = None).
Proof.
  unfold update. intros H.
  destruct (_eval_splits self) as [g|] eqn:He.
  - apply bind_Ok in H as ([[[[trX trY] trM] g'] s'] & _ & H).
    injection H as <-. cbn. by repeat split.
  - destruct (_conf_splits self) as [c|] eqn:Hc.
    + apply bind_Ok in H as ([[[[train test] o] c'] s'] & _ & H).
      apply bind_Ok in H as ([[[[trX trY] trM] g'] s''] & _ & H).
      destruct test as [[tX tY] tM]. injection H as <-. cbn. by repeat split.
    + injection H as <-. by rewrite He, Hc.
Qed.

End ModeFacts.

(** X16.  An integer seed outside [0, 2^32) makes construction fail with a
    value error in every mode, before any array is looked at; in
    full-iteration mode that is the only way for construction from the
    three arrays to fail. *)
Theorem construction_needs_valid_seed {A : Type} (mt19937 : Z -> nat -> N) os
    (data : ndarray3 A * ndarray3 A * ndarray3 A) (ie : bool)
    (rng_arg : RNG_Input RandomState) (m : Z) :
  (~ valid_rng rng_arg ->
   forall ic, exists msg,
     Data_init mt19937 os data ic ie rng_arg m = Raise (ValueError msg)) /\
  ((exists self, Data_init mt19937 os data true ie rng_arg m = Ok self)
   <-> valid_rng rng_arg).
Proof.
  destruct data as [[X y] meta].
  assert (Hbad : ~ valid_rng rng_arg ->
    forall ic, exists msg,
      Data_init mt19937 os (X, y, meta) ic ie rng_arg m = Raise (ValueError msg)).
  { intros Hv ic. unfold Data_init.
    destruct (resolve_rng_invalid mt19937 id os rng_arg Hv) as [msg ->].
    by exists msg. }
  split; [done|]. split.
  - intros [self H]. destruct (valid_rng_dec rng_arg) as [|Hn]; [done|].
    destruct (Hbad Hn true) as [msg Hm]. congruence.
  - intros Hv. destruct (resolve_rng_valid mt19937 id os rng_arg Hv) as [s0 Hr].
    eexists. by apply Data_init_full.
Qed.

(** X17.  The mode is fixed at construction: a successful sequence of
    updates, from any state of the partitioner, leaves the three full
    arrays as they were, and a generator attribute that was [None] stays
    [None] while one that held a generator still holds one. *)
Theorem updates_keep_mode {A : Type} (mt19937 : Z -> nat -> N) oss :
  forall self self' : Data A,
  updates mt19937 oss self = Ok self' ->
  (X_full self', y_full self', meta_full self')
  = (X_full self, y_full self, meta_full self) /\
  (_eval_splits self' = None <-> _eval_splits self = None) /\
  (_conf_splits self' = None <-> _conf_splits self = None).
Proof.
  induction oss as [|os oss IH]; intros self self' H.
  - injection H as <-. done.
  - cbn [updates] in H. apply bind_Ok in H as (self1 & Hu & Hus).
    destruct (update_keeps_mode mt19937 os self self1 Hu) as (Hf1 & He1 & Hc1).
    destruct (IH self1 self' Hus) as (Hf & He & Hc).
    rewrite Hf, Hf1. split; [done|]. tauto.
Qed.

Lemma updates_keep_mode_witness :
  match Data_init toy_mt19937 toy_entropy
          (sample 10 3 2, sample 10 3 1, sample 10 3 1) true false (rng_int 42) 4 with
  | Ok self =>
      match updates toy_mt19937 [toy_entropy; toy_entropy] self with
      | Ok self' =>
          (X_full self', y_full self', meta_full self')
          = (X_full self, y_full self, meta_full self) /\
          (_eval_splits self' = None <-> _eval_splits self = None) /\
          (_conf_splits self' = None <-> _conf_splits self = None)
      | Raise _ => False
      end
  | Raise _ => False
  end.
Proof.
  destruct (Data_init toy_mt19937 toy_entropy
              (sample 10 3 2, sample 10 3 1, sample 10 3 1) true false (rng_int 42) 4)
    as [self|e] eqn:H; [|vm_compute in H; discriminate H].
  destruct (updates toy_mt19937 [toy_entropy; toy_entropy] self) as [self'|e] eqn:Hu.
  - exact (updates_keep_mode toy_mt19937 [toy_entropy; toy_entropy] self self' Hu).
  - vm_compute in H. injection H as <-. vm_compute in Hu. discriminate Hu.
Defined.

(** ** The callable applied to the features *)

Section EmukitFacts.
Context {A : Type}.

(** A callable that maps every row to a row of the same width maps every
    evaluation of the features. *)
Lemma apply_emukit_map_rows (h : list A -> list A) (X : ndarray3 A) n i d :
  wf3 X -> shape3 X = (n, i, d) -> (0 < d)%nat ->
  (forall v, length v = d -> length (h v) = d) ->
  apply_emukit_map (Some (fun a => Ok (concat (map h (data2 a))))) X
  = Ok (mk3 (n, i, d) (map (map h) (data3 X))).
Proof.
  intros Hwf Hs Hd Hh.
  destruct (reshape_rows_ok X n i d Hwf Hs Hd) as (Hr & _ & _).
  destruct (wf3_rows X n i d Hwf Hs) as [Hlen Hrows].
  unfold apply_emukit_map. rewrite Hs, Hr. cbn [bind data2].
  assert (Hmapped : Forall (fun v => length v = d) (map h (concat (data3 X)))).
  { apply Forall_forall. intros v (u & -> & Hu)%list_elem_of_fmap.
    apply Hh. by eapply Forall_forall in Hrows. }
  assert (Hbuf : length (concat (map h (concat (data3 X)))) = (n * i * d)%nat).
  { rewrite (length_concat_uniform _ d) by done. by rewrite length_map, Hlen. }
  rewrite Hbuf, Nat.eqb_refl. f_equal. f_equal. unfold regroup.
  rewrite <-Hlen, <-(length_map h). rewrite chunks_concat by done.
  rewrite concat_map.
  unfold wf3 in Hwf. rewrite Hs in Hwf. destruct Hwf as [HlenX HrowsX].
  rewrite <-HlenX, <-(length_map (map h)). apply chunks_concat.
  apply Forall_forall. intros r (u & -> & Hu)%list_elem_of_fmap.
  rewrite length_map. eapply Forall_forall in HrowsX; [|exact Hu].
  by destruct HrowsX.
Qed.

End EmukitFacts.

(** X18.  A callable that maps every row it is given to a row of the same
    width acts on the evaluations one by one: whenever the reader returns,
    construction with such a callable is construction from the reader's
    arrays with the callable applied to the feature vector of every
    evaluation of every configuration, outputs and metadata untouched;
    with the identity it is construction from the reader's arrays. *)
Theorem emukit_map_acts_on_evaluations {A D : Type} `{EqDecision D}
    (astype : list D -> D -> A -> A) (mt19937 : Z -> nat -> N) os
    (df : DataFrame A D) (fi oi mi : list Z) (e : Z) (ic ie : bool)
    (h : list A -> list A) (rng_arg : RNG_Input RandomState) (m : Z)
    X y meta fn tn mn :
  wf_frame df ->
  read_hpolib_benchmark_data astype df fi oi mi e = Ok (X, y, meta, fn, tn, mn) ->
  (forall v, length v = length fi -> length (h v) = length fi) ->
  Data_new mt19937 astype os df fi oi mi e ic ie
    (Some (fun a => Ok (concat (map h (data2 a))))) rng_arg m
  = Data_init mt19937 os (mk3 (shape3 X) (map (map h) (data3 X)), y, meta)
      ic ie rng_arg m /\
  ((forall v, h v = v) ->
   Data_new mt19937 astype os df fi oi mi e ic ie
     (Some (fun a => Ok (concat (map h (data2 a))))) rng_arg m
   = Data_new mt19937 astype os df fi oi mi e ic ie None rng_arg m).
Proof.
  intros Hwf H Hh.
  destruct (reader_then_emukit astype df fi oi mi e None X y meta fn tn mn Hwf H I)
    as (He & HsX & X' & [= <-] & Hal).
  destruct Hal as (_ & _ & _ & HwX & _).
  assert (Hd : (0 < length fi)%nat).
  { pose proof (reader_Ok_grouped astype df fi oi mi e X y meta fn tn mn Hwf H)
      as ((_ & Hne & _) & _).
    destruct fi; [by destruct Hne|simpl; lia]. }
  assert (Hmap : Data_new mt19937 astype os df fi oi mi e ic ie
            (Some (fun a => Ok (concat (map h (data2 a))))) rng_arg m
          = Data_init mt19937 os (mk3 (shape3 X) (map (map h) (data3 X)), y, meta)
              ic ie rng_arg m).
  { rewrite (Data_new_unfold astype mt19937 os df fi oi mi e ic ie _ rng_arg m
               X y meta fn tn mn H).
    rewrite (apply_emukit_map_rows h X _ _ _ HwX HsX Hd Hh). cbn [bind].
    by rewrite HsX. }
  split; [done|]. intros Hid. rewrite Hmap.
  rewrite (Data_new_unfold astype mt19937 os df fi oi mi e ic ie None rng_arg m
             X y meta fn tn mn H).
  cbn [apply_emukit_map bind]. do 2 f_equal.
  assert (Hdata : map (map h) (data3 X) = data3 X).
  { rewrite <-(map_id (data3 X)) at 2. apply map_ext. intros r.
    rewrite <-(map_id r) at 2. by apply map_ext. }
  rewrite Hdata. by destruct X.
Qed.

Lemma emukit_map_acts_on_evaluations_witness :
  match read_hpolib_benchmark_data toy_astype (sample_frame 6) [0%Z; 1%Z] [2%Z] [(-1)%Z] 3 with
  | Ok (X, y, meta, _, _, _) =>
      Data_new toy_mt19937 toy_astype toy_entropy (sample_frame 6) [0%Z; 1%Z] [2%Z] [(-1)%Z] 3
        false false (Some (fun a => Ok (concat (map (map Z.succ) (data2 a)))))
        (rng_int 42) 1
      = Data_init toy_mt19937 toy_entropy
          (mk3 (shape3 X) (map (map (map Z.succ)) (data3 X)), y, meta)
          false false (rng_int 42) 1 /\
      ((forall v, map Z.succ v = v) ->
       Data_new toy_mt19937 toy_astype toy_entropy (sample_frame 6) [0%Z; 1%Z] [2%Z] [(-1)%Z] 3
         false false (Some (fun a => Ok (concat (map (map Z.succ) (data2 a)))))
         (rng_int 42) 1
       = Data_new toy_mt19937 toy_astype toy_entropy (sample_frame 6) [0%Z; 1%Z] [2%Z] [(-1)%Z] 3
           false false None (rng_int 42) 1)
  | Raise _ => False
  end.
Proof.
  destruct (read_hpolib_benchmark_data toy_astype (sample_frame 6) [0%Z; 1%Z] [2%Z] [(-1)%Z] 3)
    as [[[[[[X Y] M] fn] tn] mn]|err] eqn:H.
  - apply (emukit_map_acts_on_evaluations toy_astype toy_mt19937 toy_entropy (sample_frame 6)
             [0%Z; 1%Z] [2%Z] [(-1)%Z] 3 false false (map Z.succ) (rng_int 42) 1
             X Y M fn tn mn).
    + prove_wf_frame.
    + exact H.
    + intros v Hv. by rewrite length_map.
  - vm_compute in H. discriminate H.
Defined.

(** ** The shape assertions and the constructor *)

Section ShapeCheckFacts.
Context {A D : Type} `{EqDecision D} (astype : list D -> D -> A -> A).
Variable mt19937 : Z -> nat -> N.




End ShapeCheckFacts.



Section ReaderFailures.
Context {A D : Type} `{EqDecision D} (astype : list D -> D -> A -> A).






End ReaderFailures.


(** ** Which exceptions can come out *)

Section FailureFacts.
Context {A : Type}.
Variable mt19937 : Z -> nat -> N.

Lemma fae_Ok {T : Type} (v : T) : fails_with_array_error (Ok v).
Proof. intros e H. discriminate H. Qed.

Lemma fae_Raise {T : Type} (e : exn) : array_error e -> fails_with_array_error (@Raise T e).
Proof. intros He e' H. by injection H as <-. Qed.

Lemma fae_bind {T U : Type} (c : result T) (k : T -> result U) :
  fails_with_array_error c -> (forall x, fails_with_array_error (k x)) ->
  fails_with_array_error (bind c k).
Proof.
  intros Hc Hk e H. destruct c as [x|e'].
  - exact (Hk x e H).
  - cbn [bind] in H. injection H as <-. by apply Hc.
Qed.

Create HintDb fae.

Local Ltac fae :=
  repeat first
    [ apply fae_Ok
    | solve [auto with fae]
    | apply fae_bind; [|intros ?; cbv beta]
    | match goal with
      | |- fails_with_array_error (Raise _) => apply fae_Raise; exact I
      | |- fails_with_array_error (if ?b then _ else _) => destruct b
      | |- fails_with_array_error (match ?x with _ => _ end) => destruct x
      end ].

Lemma fae_exclude_indices npoints indices :
  fails_with_array_error (exclude_indices npoints indices).
Proof. unfold exclude_indices, setitem_False. fae. Qed.

Lemma fae_choice_no_replace s pop size :
  fails_with_array_error (choice_no_replace s pop size).
Proof. unfold choice_no_replace. fae. Qed.

Lemma fae_choice_replace s pop n : fails_with_array_error (choice_replace s pop n).
Proof. unfold choice_replace. fae. Qed.

#[local] Hint Resolve fae_exclude_indices fae_choice_no_replace fae_choice_replace : fae.

Lemma fae_draw_indices s n size : fails_with_array_error (draw_indices s n size).
Proof. unfold draw_indices. fae. Qed.

#[local] Hint Resolve fae_draw_indices : fae.

Lemma fae_with_rng {T : Type} r self_rng (f : RandomState -> result (T * RandomState)) :
  (forall s, fails_with_array_error (f s)) ->
  fails_with_array_error (with_rng r self_rng f).
Proof. intros Hf. unfold with_rng. destruct r; fae. Qed.

Lemma fae_resolve_rng {R : Type} (own : RandomState -> R) os (rng : RNG_Input R) :
  fails_with_array_error (resolve_rng mt19937 own os rng).
Proof. unfold resolve_rng, RandomState_init. destruct rng; fae. Qed.

Lemma fae_getitem_rows (a : ndarray3 A) ind : fails_with_array_error (getitem_rows a ind).
Proof. unfold getitem_rows. fae. Qed.

Lemma fae_take_along_axis (a : ndarray3 A) choices :
  fails_with_array_error (take_along_axis a choices).
Proof. unfold take_along_axis. fae. Qed.

Lemma fae_reshape (a : ndarray3 A) n d : fails_with_array_error (reshape a n d).
Proof. unfold reshape. fae. Qed.

#[local] Hint Resolve fae_resolve_rng fae_getitem_rows fae_take_along_axis
  fae_reshape : fae.

Lemma fae_getitem_dataset (full : ndarray3 A * ndarray3 A * ndarray3 A) ind :
  fails_with_array_error (getitem_dataset full ind).
Proof. unfold getitem_dataset. fae. Qed.

#[local] Hint Resolve fae_getitem_dataset : fae.

Lemma fae_conf_draw (f : conf_frame A) s : fails_with_array_error (conf_draw f s).
Proof. unfold conf_draw. fae. Qed.

Lemma fae_eval_draw (f : eval_frame A) s : fails_with_array_error (eval_draw f s).
Proof. unfold eval_draw. fae. Qed.

Lemma fae_conf_resume self_rng (f : conf_frame A) :
  fails_with_array_error (conf_resume self_rng f).
Proof.
  unfold conf_resume. apply fae_bind; [|intros ?; fae].
  apply fae_with_rng, fae_conf_draw.
Qed.

Lemma fae_eval_resume self_rng (f : eval_frame A) :
  fails_with_array_error (eval_resume self_rng f).
Proof.
  unfold eval_resume. apply fae_bind; [|intros ?; fae].
  apply fae_with_rng, fae_eval_draw.
Qed.

#[local] Hint Resolve fae_conf_resume fae_eval_resume : fae.












(** *** After an exception *)











End FailureFacts.


(** On slices without evaluations, with [iterate_confs = false] and
    [iterate_evals = true]: the first call fails with the value error of
    [choice], the second one meets the finished generator. *)
Example failed_update_then_stop_iteration :
  match Data_init toy_mt19937 toy_entropy
          (sample 10 0 2, sample 10 0 1, sample 10 0 1) false true (rng_int 42) 4 with
  | Ok self =>
      (session toy_mt19937 [toy_entropy; toy_entropy] self).1
      = [Some (ValueError "'a' cannot be empty unless no samples are taken");
         Some StopIteration]
  | Raise _ => False
  end.
Proof. vm_compute. reflexivity. Qed.

(** ** The splits and [self.rng] *)

Section OwnRngFacts.
Context {A : Type}.
Variable mt19937 : Z -> nat -> N.

(** A split generator that owns its random generator leaves [self.rng]
    alone, and draws the same split whatever the state of [self.rng]. *)
Lemma conf_resume_own s1 s2 (f : conf_frame A) split c' s1' :
  cf_rng f <> alias_self ->
  conf_resume s1 f = Ok (split, c', s1') ->
  s1' = s1 /\ conf_resume s2 f = Ok (split, c', s2) /\ conf_owns_rng c'.
Proof.
  unfold conf_resume, with_rng. intros Hown H.
  destruct (cf_rng f) as [|s]; [done|].
  destruct (conf_draw f s) as [[split0 s0]|e]; cbn [bind] in *; [|done].
  injection H as <- <- <-. by repeat split.
Qed.

Lemma conf_next_own os (data : ndarray3 A * ndarray3 A * ndarray3 A) s1 s2
    (c : conf_gen A) split c' s1' :
  conf_owns_rng c ->
  conf_next mt19937 os data s1 c = Ok (split, c', s1') ->
  s1' = s1 /\ conf_next mt19937 os data s2 c = Ok (split, c', s2) /\ conf_owns_rng c'.
Proof.
  intros Hown H. destruct c as [frac size rng ret|f|]; cbn [conf_next] in *; [| |done].
  - apply bind_Ok in H as (f & Hf & H). rewrite Hf. cbn [bind].
    apply (conf_resume_own s1 s2 f split c' s1'); [|done].
    unfold conf_prelude in Hf. destruct data as [[X y] meta].
    apply bind_Ok in Hf as (r & Hr & Hf).
    assert (Hr' : r <> alias_self).
    { destruct rng as [|z|r0]; cbn in Hr, Hown.
      - injection Hr as <-. done.
      - destruct ((0 <=? z)%Z && (z <? 2 ^ 32)%Z); cbn in Hr; [|done].
        injection Hr as <-. done.
      - injection Hr as <-. congruence. }
    destruct frac as [q|].
    + apply bind_Ok in Hf as (sz & _ & Hf). injection Hf as <-. done.
    + destruct size as [z|]; [|done]. injection Hf as <-. done.
  - by apply (conf_resume_own s1 s2 f split c' s1').
Qed.

Lemma update_same_splits os (self1 self2 a b : Data A) :
  same_splits_state self1 self2 ->
  update mt19937 os self1 = Ok a -> update mt19937 os self2 = Ok b ->
  (test_X a, test_Y a, test_meta a) = (test_X b, test_Y b, test_meta b) /\
  same_splits_state a b.
Proof.
  intros (Hd & He1 & He2 & c & Hc1 & Hc2 & Hown). unfold update.
  rewrite He1, He2, Hc1, Hc2. injection Hd as -> -> ->. intros H1 H2.
  apply bind_Ok in H1 as ([[[[train test] o] c'] s'] & Hn1 & H1).
  destruct (conf_next_own os _ (rng self1) (rng self2) c _ c' s' Hown Hn1)
    as (-> & Hn2 & Hown').
  rewrite Hn2 in H2. cbn [bind] in H2.
  apply bind_Ok in H1 as ([[[[trX1 trY1] trM1] g1] s1] & _ & H1).
  apply bind_Ok in H2 as ([[[[trX2 trY2] trM2] g2] s2] & _ & H2).
  destruct test as [[tX tY] tM]. injection H1 as <-. injection H2 as <-.
  split; [done|]. split; [done|]. split; [done|]. split; [done|]. by exists c'.
Qed.

Lemma updates_same_splits oss : forall self1 self2 a b : Data A,
  same_splits_state self1 self2 ->
  updates mt19937 oss self1 = Ok a -> updates mt19937 oss self2 = Ok b ->
  same_splits_state a b /\
  (oss <> [] ->
   (test_X a, test_Y a, test_meta a) = (test_X b, test_Y b, test_meta b)).
Proof.
  induction oss as [|os oss IH]; intros self1 self2 a b Hs H1 H2.
  - injection H1 as <-. injection H2 as <-. split; [done|]. intros Hne. by destruct Hne.
  - cbn [updates] in H1, H2.
    apply bind_Ok in H1 as (a1 & Hu1 & H1). apply bind_Ok in H2 as (b1 & Hu2 & H2).
    destruct (update_same_splits os self1 self2 a1 b1 Hs Hu1 Hu2) as [Ht Hs1].
    destruct (IH a1 b1 a b Hs1 H1 H2) as [Hs' Ht'].
    split; [done|]. intros _.
    destruct oss as [|os' oss']; [|by apply Ht'].
    injection H1 as <-. by injection H2 as <-.
Qed.

End OwnRngFacts.

(** X20.  In full-iteration mode the splits do not depend on [self.rng]:
    the configuration-split generator owns a random generator, seeded at
    construction, so two partitioners over the same arrays that hold the
    same such generator see the same test arrays after any same number of
    successful updates, however their [self.rng] differ; [self.rng] only
    decides which evaluation is picked for each train configuration.  The
    generator the constructor creates is of that kind. *)
Theorem splits_do_not_depend_on_self_rng {A : Type} (mt19937 : Z -> nat -> N)
    (oss : list (nat -> N)) (self1 self2 a b : Data A) :
  same_splits_state self1 self2 ->
  updates mt19937 oss self1 = Ok a ->
  updates mt19937 oss self2 = Ok b ->
  same_splits_state a b /\
  (oss <> [] ->
   (test_X a, test_Y a, test_meta a) = (test_X b, test_Y b, test_meta b)) /\
  (forall os (data : ndarray3 A * ndarray3 A * ndarray3 A) ie rng_arg m self s,
     Data_init mt19937 os data true ie rng_arg m = Ok self ->
     same_splits_state self
       (mkData (X_full self) (y_full self) (meta_full self) s
          (_conf_splits self) (_eval_splits self)
          (train_X self) (train_Y self) (train_meta self)
          (test_X self) (test_Y self) (test_meta self))).
Proof.
  intros Hs H1 H2.
  destruct (updates_same_splits mt19937 oss self1 self2 a b Hs H1 H2) as [Hs' Ht].
  split; [done|]. split; [done|].
  intros os [[X y] meta] ie rng_arg m self s H.
  destruct (Data_init_resolved mt19937 os X y meta true ie rng_arg m self H) as [s0 Hr].
  rewrite (Data_init_full mt19937 os X y meta ie rng_arg m s0 Hr) in H.
  injection H as <-. cbn.
  split; [done|]. split; [done|]. split; [done|].
  eexists. split; [done|]. split; [done|]. cbn. discriminate.
Qed.

Lemma splits_do_not_depend_on_self_rng_witness :
  match Data_init toy_mt19937 toy_entropy
          (sample 10 3 2, sample 10 3 1, sample 10 3 1) true false (rng_int 42) 4 with
  | Ok self =>
      let other :=
        mkData (X_full self) (y_full self) (meta_full self)
          (mkRandomState toy_entropy 7)
          (_conf_splits self) (_eval_splits self)
          (train_X self) (train_Y self) (train_meta self)
          (test_X self) (test_Y self) (test_meta self) in
      match updates toy_mt19937 [toy_entropy; toy_entropy] self,
            updates toy_mt19937 [toy_entropy; toy_entropy] other with
      | Ok a, Ok b =>
          same_splits_state a b /\
          ([toy_entropy; toy_entropy] <> [] ->
           (test_X a, test_Y a, test_meta a) = (test_X b, test_Y b, test_meta b))
      | _, _ => False
      end
  | Raise _ => False
  end.
Proof.
  destruct (Data_init toy_mt19937 toy_entropy
              (sample 10 3 2, sample 10 3 1, sample 10 3 1) true false (rng_int 42) 4)
    as [self|e] eqn:H; [|vm_compute in H; discriminate H].
  intros other.
  assert (Hs : same_splits_state self other).
  { unfold other. vm_compute in H. injection H as <-. cbn.
    split; [done|]. split; [done|]. split; [done|].
    eexists. split; [done|]. split; [done|]. cbn. discriminate. }
  destruct (updates toy_mt19937 [toy_entropy; toy_entropy] self) as [a|e] eqn:H1;
    [|vm_compute in H; injection H as <-; vm_compute in H1; discriminate H1].
  destruct (updates toy_mt19937 [toy_entropy; toy_entropy] other) as [b|e] eqn:H2;
    [|vm_compute in H; injection H as <-; vm_compute in H2; discriminate H2].
  destruct (splits_do_not_depend_on_self_rng toy_mt19937 [toy_entropy; toy_entropy]
              self other a b Hs H1 H2) as (Hs' & Ht & _).
  by split.
Defined.
